(** * ChatOps for Infrastructure Automation: command resolution and workflow
      execution pipeline

    A shallow embedding of [bot/command_parser.py], [bot/workflow_manager.py]
    and [bot/app.py], with the properties of the pipeline stated in the
    repository's specification, and of the sending of replies in
    [bot/discord_bot.py] and of [integrations/terraform_integration.py].

    Conventions of the embedding.
    - Python values that travel through the pipeline (entity values, workflow
      parameters, adapter results) are the dynamically typed [value]s below;
      floating point numbers are left out.
    - A Python [dict] with string keys is an association list in insertion
      order; item assignment [d[k] = v] is [PyDict.set] (overwrite in place,
      or append a new key at the end).
    - A workflow document is read through [.get] with defaults, so a step is
      a record of optional fields typed as the YAML schema of the templates
      has them ([name], [type] strings, [parameters] a mapping, [then] and
      [else] lists of steps).
    - Strings are sequences of bytes; [lower] lowers the ASCII letters, as
      [str.lower] does on ASCII text. No property below depends on how
      [lower] treats other characters: the properties use it as a function
      from strings to strings.
    - The replies sent to a channel, whose length in characters matters, are
      sequences over an alphabet that is left open. *)

From Stdlib Require Import String Ascii List ZArith Bool Lia.
From Stdlib Require Import DecimalString.

Set Warnings "-register-all".
Import ListNotations.
Open Scope string_scope.

(** ** Python values *)

Inductive value : Type :=
| VNone
| VBool (b : bool)
| VInt (z : Z)
| VStr (s : string)
| VList (l : list value)
| VDict (d : list (string * value)).

(** A [dict] keyed by strings, in insertion order. *)
Definition dict : Type := list (string * value).

(** ** String operations of the Python runtime used by the program *)

Module PyStr.

(** [s.startswith(p)] *)
Definition startswith (s p : string) : bool := String.prefix p s.

(** [s.endswith(p)]: some tail of [s] is [p]. *)
Fixpoint endswith (s p : string) : bool :=
  (s =? p) ||
  match s with
  | EmptyString => false
  | String _ s' => endswith s' p
  end.

(** [s[2:-1]] *)
Definition slice_2_m1 (s : string) : string :=
  String.substring 2 (String.length s - 3) s.

(** [needle in hay] for two strings. *)
Fixpoint contains (needle hay : string) : bool :=
  String.prefix needle hay ||
  match hay with
  | EmptyString => false
  | String _ hay' => contains needle hay'
  end.

Definition lower_ascii (c : ascii) : ascii :=
  let n := nat_of_ascii c in
  if (65 <=? n)%nat && (n <=? 90)%nat then ascii_of_nat (n + 32) else c.

(** [s.lower()], on ASCII text: the letters A to Z are lowered, every other
    character is kept. The properties stated below use the lowering only as
    a function from strings to strings. *)
Fixpoint lower (s : string) : string :=
  match s with
  | EmptyString => EmptyString
  | String c s' => String (lower_ascii c) (lower s')
  end.

(** The line feed. *)
Definition nl : string := String (ascii_of_nat 10) EmptyString.

(** [str(n)] for a natural number and for an integer. *)
Definition of_nat (n : nat) : string := NilEmpty.string_of_uint (Nat.to_uint n).
Definition of_Z (z : Z) : string := NilZero.string_of_int (Z.to_int z).

End PyStr.

(** ** Dictionary operations *)

Module PyDict.

(** [d.get(k)] *)
Fixpoint get (k : string) (d : dict) : option value :=
  match d with
  | [] => None
  | (k', v) :: d' => if k =? k' then Some v else get k d'
  end.

(** [k in d] *)
Definition mem (k : string) (d : dict) : bool :=
  match get k d with Some _ => true | None => false end.

(** [d.get(k, default)] *)
Definition get_default (k : string) (default : value) (d : dict) : value :=
  match get k d with Some v => v | None => default end.

(** [d[k] = v]: an existing key keeps its position, a new key goes last. *)
Fixpoint set (k : string) (v : value) (d : dict) : dict :=
  match d with
  | [] => [(k, v)]
  | (k', v') :: d' => if k =? k' then (k, v) :: d' else (k', v') :: set k v d'
  end.

(** [for key, value in items: d[key] = value] *)
Fixpoint update (d : dict) (items : dict) : dict :=
  match items with
  | [] => d
  | (k, v) :: items' => update (set k v d) items'
  end.

Definition keys (d : dict) : list string := map fst d.

End PyDict.

(** ** Command Builder ([bot/command_parser.py]) *)

Module CommandParser.

(** One entry of the table of [_load_command_templates]. *)
Record template : Type := mkTemplate {
  action : string;
  required_entities : list string;
  optional_entities : list string;
  defaults : dict;
  workflow : option string
}.

(** The command built by [parse]; the key ["workflow"] is optional. *)
Record command : Type := mkCommand {
  cmd_action : string;
  cmd_parameters : dict;
  cmd_workflow : option string
}.

Definition _load_command_templates : list (string * template) :=
  [ ("deploy",
     mkTemplate "deploy" ["service"] ["environment"; "version"]
       [("environment", VStr "development"); ("version", VStr "latest")]
       (Some "deploy_workflow.yaml"));
    ("scale",
     mkTemplate "scale" ["service"] ["count"; "direction"; "environment"]
       [("environment", VStr "development"); ("count", VStr "1");
        ("direction", VStr "up")]
       (Some "scale_workflow.yaml"));
    ("status",
     mkTemplate "status" [] ["service"; "environment"]
       [("environment", VStr "development")]
       (Some "status_workflow.yaml"));
    ("provision",
     mkTemplate "provision" ["resource"] ["count"; "environment"; "region"]
       [("environment", VStr "development"); ("count", VStr "1");
        ("region", VStr "us-east-1")]
       (Some "provision_workflow.yaml"));
    ("help",
     mkTemplate "help" [] ["topic"] [] None) ].

(** [self.command_templates[intent]], [None] when [intent] is not a key. *)
Fixpoint lookup_template (templates : list (string * template))
         (intent : string) : option template :=
  match templates with
  | [] => None
  | (k, t) :: rest => if intent =? k then Some t else lookup_template rest intent
  end.

(** The loop over [template["required_entities"]]: the first required
    entity that is not a key of [entities], if any. *)
Fixpoint first_missing (required : list string) (entities : dict)
  : option string :=
  match required with
  | [] => None
  | r :: rest =>
      if PyDict.mem r entities then first_missing rest entities else Some r
  end.

(** [template.get("workflow")] used as a condition: [None] and the empty
    string are both false. *)
Definition workflow_if_truthy (w : option string) : option string :=
  match w with
  | Some EmptyString => None
  | Some s => Some s
  | None => None
  end.

(** [CommandParser.parse], over a given template table. *)
Definition parse_with (templates : list (string * template))
           (intent : string) (entities : dict) : option command :=
  match lookup_template templates intent with
  | None => None
  | Some t =>
      match first_missing (required_entities t) entities with
      | Some _ => None
      | None =>
          let parameters := PyDict.update [] (defaults t) in
          let parameters := PyDict.update parameters entities in
          Some (mkCommand (action t) parameters
                          (workflow_if_truthy (workflow t)))
      end
  end.

Definition parse : string -> dict -> option command :=
  parse_with _load_command_templates.

End CommandParser.

(** ** Semantics of the Python operators used on dynamic values *)

Module Py.

(** Truth value of an object, as [if x:] and [not x] take it. *)
Definition truthy (v : value) : bool :=
  match v with
  | VNone => false
  | VBool b => b
  | VInt z => negb (z =? 0)%Z
  | VStr s => negb (s =? EmptyString)
  | VList l => match l with [] => false | _ => true end
  | VDict d => match d with [] => false | _ => true end
  end.

(** [bool] is a subclass of [int]: [True] is 1 and [False] is 0. *)
Definition as_int (v : value) : option Z :=
  match v with
  | VBool b => Some (Z.b2z b)
  | VInt z => Some z
  | _ => None
  end.

(** [a == b] *)
Fixpoint eq (a b : value) {struct a} : bool :=
  match a, b with
  | VNone, VNone => true
  | VBool x, VBool y => Bool.eqb x y
  | VBool x, VInt y => (Z.b2z x =? y)%Z
  | VInt x, VBool y => (x =? Z.b2z y)%Z
  | VInt x, VInt y => (x =? y)%Z
  | VStr x, VStr y => (x =? y)
  | VList xs, VList ys =>
      (fix go (xs ys : list value) {struct xs} : bool :=
         match xs, ys with
         | [], [] => true
         | x :: xs', y :: ys' => eq x y && go xs' ys'
         | _, _ => false
         end) xs ys
  | VDict d1, VDict d2 =>
      (List.length d1 =? List.length d2)%nat &&
      (fix go (d : dict) {struct d} : bool :=
         match d with
         | [] => true
         | (k, v) :: d' =>
             match PyDict.get k d2 with
             | Some v' => eq v v'
             | None => false
             end && go d'
         end) d1
  | _, _ => false
  end.

Inductive order_op : Type := OpGt | OpLt | OpGe | OpLe.

Definition op_symbol (op : order_op) : string :=
  match op with OpGt => ">" | OpLt => "<" | OpGe => ">=" | OpLe => "<=" end.

Definition of_comparison (op : order_op) (c : comparison) : bool :=
  match op, c with
  | OpGt, Gt => true
  | OpLt, Lt => true
  | OpGe, (Gt | Eq) => true
  | OpLe, (Lt | Eq) => true
  | _, _ => false
  end.

(** [a op b] for an ordering operator; [None] stands for the [TypeError]
    that the interpreter raises between unordered types. Lists compare at
    their first differing element, then by length. *)
Fixpoint order (op : order_op) (a b : value) {struct a} : option bool :=
  match as_int a, as_int b with
  | Some x, Some y => Some (of_comparison op (x ?= y)%Z)
  | _, _ =>
      match a, b with
      | VStr x, VStr y => Some (of_comparison op (String.compare x y))
      | VList xs, VList ys =>
          (fix go (xs ys : list value) {struct xs} : option bool :=
             match xs, ys with
             | x :: xs', y :: ys' =>
                 if eq x y then go xs' ys' else order op x y
             | _, _ =>
                 Some (of_comparison op (List.length xs ?= List.length ys)%nat)
             end) xs ys
      | _, _ => None
      end
  end.

(** [expected in actual]; [None] stands for the [TypeError] raised when
    [actual] is no container, when a non-string is searched in a string,
    or when an unhashable value is looked up in a dict. *)
Definition is_in (expected actual : value) : option bool :=
  match actual with
  | VStr hay =>
      match expected with
      | VStr needle => Some (PyStr.contains needle hay)
      | _ => None
      end
  | VList l => Some (existsb (fun x => eq x expected) l)
  | VDict d =>
      match expected with
      | VStr k => Some (PyDict.mem k d)
      | VList _ | VDict _ => None
      | _ => Some false
      end
  | _ => None
  end.

(** [str(v)] for the scalars; the text of a list or a dict is the
    interpreter's [repr], taken as given. *)
Definition str (repr : value -> string) (v : value) : string :=
  match v with
  | VNone => "None"
  | VBool true => "True"
  | VBool false => "False"
  | VInt z => PyStr.of_Z z
  | VStr s => s
  | _ => repr v
  end.

End Py.

(** ** Execution monad: external world, ghost trace, exceptions *)

(** Ghost events recorded while a workflow runs. [EvStep depth i name type]
    marks the loop of [_execute_workflow] taking up its [i]-th step, [depth]
    counting the nested invocations around it (0 for the invocation made by
    [execute]). [EvAdapter kind params] marks the call of
    [_execute_<kind>_step] with the substituted parameters. *)
Inductive event : Type :=
| EvStep (depth : nat) (i : nat) (name type : string)
| EvAdapter (kind : string) (params : dict).

(** Result of running Python code: a returned value, or an exception, of
    which only [str(e)] is ever used. *)
Inductive outcome (A : Type) : Type :=
| Returned (a : A)
| Raised (message : string).
Arguments Returned {A} a.
Arguments Raised {A} message.

Record state (W : Type) : Type := mkState {
  world : W;
  trace : list event
}.
Arguments mkState {W} world trace.
Arguments world {W} s.
Arguments trace {W} s.

Definition exec (W A : Type) : Type := state W -> outcome A * state W.

Definition ret {W A : Type} (a : A) : exec W A :=
  fun st => (Returned a, st).

Definition raise {W A : Type} (message : string) : exec W A :=
  fun st => (Raised message, st).

Definition bind {W A B : Type} (c : exec W A) (k : A -> exec W B) : exec W B :=
  fun st =>
    match c st with
    | (Returned a, st') => k a st'
    | (Raised e, st') => (Raised e, st')
    end.

(** [try: c  except Exception as e: handler(str(e))] *)
Definition try_except {W A : Type} (c : exec W A) (handler : string -> exec W A)
  : exec W A :=
  fun st =>
    match c st with
    | (Returned a, st') => (Returned a, st')
    | (Raised e, st') => handler e st'
    end.

Definition emit {W : Type} (e : event) : exec W unit :=
  fun st => (Returned tt, mkState (world st) (trace st ++ [e])).

(** A call into an external integration: it sees and changes the world
    only. *)
Definition external {W A : Type} (call : W -> outcome A * W) : exec W A :=
  fun st => let (r, w') := call (world st) in (r, mkState w' (trace st)).

Declare Scope exec_scope.
Delimit Scope exec_scope with exec.
Notation "x <- c1 ;; c2" := (bind c1 (fun x => c2))
  (at level 61, c1 at next level, right associativity) : exec_scope.
Notation "c1 ;; c2" := (bind c1 (fun _ => c2))
  (at level 61, right associativity) : exec_scope.

(** ** Step Execution Engine ([bot/workflow_manager.py]) *)

Module WorkflowManager.

(** The mapping under a step's [condition] key. *)
Record condition : Type := mkCondition {
  cond_type : option string;
  cond_parameter : option string;
  cond_value : option value;
  cond_operator : option string;
  cond_step : option Z
}.

(** One step of a workflow template, as the templates of the repository
    write it: [name] and [type] are strings, [parameters] is a mapping,
    [then] and [else] are lists of steps, and each key may be absent. A
    document that gives one of these keys another kind of value (such as
    [type: null] or [parameters: null], on which lines 162 to 166 raise) is
    outside the embedding. *)
Inductive step : Type := mkStep {
  step_name : option string;
  step_type : option string;
  step_parameters : option dict;
  step_condition : option condition;
  step_then : list step;
  step_else : list step
}.

Record workflow : Type := mkWorkflow {
  wf_name : option string;
  wf_steps : list step
}.

(** One element of the [results] list. *)
Record step_result : Type := mkResult {
  res_step : nat;
  res_name : string;
  res_type : string;
  res_result : value
}.

Definition or_default {A : Type} (o : option A) (default : A) : A :=
  match o with Some a => a | None => default end.

(** [step.get('name', f"Step {i}")] and [step.get('type', '').lower()] *)
Definition step_name_at (i : nat) (s : step) : string :=
  or_default (step_name s) ("Step " ++ PyStr.of_nat i).

Definition step_type_of (s : step) : string :=
  PyStr.lower (or_default (step_type s) EmptyString).

(** *** Placeholder substitution *)

(** [value.startswith('${') and value.endswith('}')] *)
Definition is_placeholder (s : string) : bool :=
  PyStr.startswith s "${" && PyStr.endswith s "}".

(** [_replace_item]. A mapping is handed to [_replace_parameters], whose
    loop treats each value as [_replace_item] treats an item: a placeholder
    string is looked up, a mapping and a list are entered, anything else is
    kept. *)
Fixpoint _replace_item (parameters : dict) (item : value) {struct item} : value :=
  match item with
  | VStr s =>
      if is_placeholder s then
        match PyDict.get (PyStr.slice_2_m1 s) parameters with
        | Some v => v
        | None => item
        end
      else item
  | VDict d =>
      VDict (map (fun kv => (fst kv, _replace_item parameters (snd kv))) d)
  | VList l => VList (map (_replace_item parameters) l)
  | _ => item
  end.

(** [_replace_parameters]: a fresh dict with the keys of [step_params] in
    their order. *)
Definition _replace_parameters (step_params parameters : dict) : dict :=
  map (fun kv => (fst kv, _replace_item parameters (snd kv))) step_params.

(** *** Results *)

Definition failure (message : string) : value :=
  VDict [("success", VBool false); ("message", VStr message)].

Definition success (message : string) : value :=
  VDict [("success", VBool true); ("message", VStr message)].

(** [isinstance(result, dict) and not result.get('success', True)] *)
Definition is_failure (result : value) : bool :=
  match result with
  | VDict d => negb (Py.truthy (PyDict.get_default "success" (VBool true) d))
  | _ => false
  end.

(** The flag [_format_workflow_result] reads off a result. *)
Definition success_flag (r : step_result) : bool :=
  negb (is_failure (res_result r)).

(** The first loop of [_format_workflow_result], with its [break]. *)
Fixpoint all_success (results : list step_result) : bool :=
  match results with
  | [] => true
  | r :: rest => if is_failure (res_result r) then false else all_success rest
  end.

Section Engine.

Context {W : Type}.

(** The integrations, external to the engine. *)
Variable jenkins_trigger_job : value -> value -> value -> W -> outcome value * W.
Variable ansible_run_playbook : value -> value -> value -> W -> outcome value * W.
Variable terraform_run_terraform :
  value -> value -> value -> value -> W -> outcome value * W.

(** Texts produced by the interpreter: [str(e)] of the [TypeError] of an
    operator on two operands, and [repr] of a container. *)
Variable type_error : string -> value -> value -> string.
Variable py_repr : value -> string.

Definition _execute_jenkins_step (params : dict) : exec W value :=
  let job_name := PyDict.get_default "job" VNone params in
  let job_params := PyDict.get_default "parameters" (VDict []) params in
  let wait := PyDict.get_default "wait" (VBool true) params in
  if negb (Py.truthy job_name) then ret (failure "No Jenkins job specified")
  else external (jenkins_trigger_job job_name job_params wait).

Definition _execute_ansible_step (params : dict) : exec W value :=
  let playbook := PyDict.get_default "playbook" VNone params in
  let inventory := PyDict.get_default "inventory" VNone params in
  let extra_vars := PyDict.get_default "extra_vars" (VDict []) params in
  if negb (Py.truthy playbook) then ret (failure "No Ansible playbook specified")
  else external (ansible_run_playbook playbook inventory extra_vars).

Definition _execute_terraform_step (params : dict) : exec W value :=
  let action := PyDict.get_default "action" (VStr "apply") params in
  let workspace := PyDict.get_default "workspace" (VStr "default") params in
  let var_file := PyDict.get_default "var_file" VNone params in
  let vars_dict := PyDict.get_default "vars" (VDict []) params in
  external (terraform_run_terraform action workspace var_file vars_dict).

Definition _execute_notification_step (params : dict) : exec W value :=
  let message :=
    PyDict.get_default "message" (VStr "Notification from ChatOps") params in
  ret (success ("Notification sent: " ++ Py.str py_repr message)).

(** [_evaluate_condition] *)
Definition _evaluate_condition (actual_value expected_value : value)
           (operator : string) : outcome bool :=
  let ordered (op : Py.order_op) :=
    match Py.order op actual_value expected_value with
    | Some b => Returned b
    | None => Raised (type_error (Py.op_symbol op) actual_value expected_value)
    end in
  if operator =? "eq" then Returned (Py.eq actual_value expected_value)
  else if operator =? "ne" then Returned (negb (Py.eq actual_value expected_value))
  else if operator =? "gt" then ordered Py.OpGt
  else if operator =? "lt" then ordered Py.OpLt
  else if operator =? "ge" then ordered Py.OpGe
  else if operator =? "le" then ordered Py.OpLe
  else if operator =? "contains" then
    match Py.is_in expected_value actual_value with
    | Some b => Returned b
    | None => Raised (type_error "in" expected_value actual_value)
    end
  else if operator =? "not_contains" then
    match Py.is_in expected_value actual_value with
    | Some b => Returned (negb b)
    | None => Raised (type_error "in" expected_value actual_value)
    end
  else Returned false.

(** [_format_workflow_result] *)
Definition format_step (r : step_result) : string :=
  let head :=
    " Step " ++ PyStr.of_nat (res_step r) ++ ": " ++ res_name r ++
    " (" ++ res_type r ++ ") - " in
  match res_result r with
  | VDict d =>
      let ok := Py.truthy (PyDict.get_default "success" (VBool true) d) in
      let result_message :=
        Py.str py_repr (PyDict.get_default "message" (VStr "No message") d) in
      (if ok then "  ✅" else "  ❌") ++ head ++ result_message ++ PyStr.nl
  | other => "  ✓" ++ head ++ Py.str py_repr other ++ PyStr.nl
  end.

Definition _format_workflow_result (workflow_name : string)
           (results : list step_result) : string :=
  (if all_success results
   then "✅ Workflow '" ++ workflow_name ++ "' completed successfully"
   else "❌ Workflow '" ++ workflow_name ++ "' failed") ++
  PyStr.nl ++ PyStr.nl ++ "Steps:" ++ PyStr.nl ++
  String.concat EmptyString (map format_step results).

(** The loops [for then_step in then_steps] and [for else_step in else_steps]
    of [_execute_condition_step]; [nested t] stands for the call
    [self._execute_workflow({'steps': [t]}, parameters)], whose returned text
    is dropped. *)
Definition run_branch (nested : step -> exec W string)
  : list step -> exec W unit :=
  fix loop (steps : list step) : exec W unit :=
    match steps with
    | [] => ret tt
    | t :: rest => (_ <- nested t ;; loop rest)%exec
    end.

(** [f"Parameter '{param_name}' not found"] *)
Definition parameter_not_found (param_name : option string) : string :=
  "Parameter '" ++ or_default param_name "None" ++ "' not found".

(** [_execute_condition_step], over the nested invocation of the engine. *)
Definition _execute_condition_step_with (nested : step -> exec W string)
           (s : step) (parameters : dict) (results : list step_result)
  : exec W value :=
  let condition :=
    or_default (step_condition s) (mkCondition None None None None None) in
  let condition_type := or_default (cond_type condition) EmptyString in
  let unknown := failure ("Unknown condition type: " ++ condition_type) in
  if condition_type =? "parameter" then
    let param_name := cond_parameter condition in
    let param_value := or_default (cond_value condition) VNone in
    let operator := or_default (cond_operator condition) "eq" in
    match match param_name with
          | Some k => PyDict.get k parameters
          | None => None
          end with
    | None => ret (failure (parameter_not_found param_name))
    | Some actual_value =>
        (result <- (fun st => (_evaluate_condition actual_value param_value operator, st)) ;;
         if result : bool then
           run_branch nested (step_then s) ;;
           ret (success "Condition evaluated to true")
         else
           run_branch nested (step_else s) ;;
           ret (success "Condition evaluated to false"))%exec
    end
  else if condition_type =? "result" then
    let step_index := (or_default (cond_step condition) 1 - 1)%Z in
    if (step_index <? 0)%Z || (step_index >=? Z.of_nat (List.length results))%Z then
      ret (failure ("Step " ++ PyStr.of_Z (step_index + 1) ++ " result not found"))
    else
      match nth_error results (Z.to_nat step_index) with
      | None => raise "list index out of range"
      | Some r =>
          match res_result r with
          | VDict d =>
              if Py.truthy (PyDict.get_default "success" (VBool false) d) then
                (run_branch nested (step_then s) ;;
                 ret (success "Condition evaluated to true"))%exec
              else
                (run_branch nested (step_else s) ;;
                 ret (success "Condition evaluated to false"))%exec
          | _ => ret unknown
          end
      end
  else ret unknown.

(** The body of the loop of [_execute_workflow] for the [i]-th step: the
    results with this step's entry appended, and whether the function
    returns here (a failed result, or an exception). [depth] is ghost. *)
Fixpoint run_step (depth : nat) (parameters : dict) (i : nat) (s : step)
         (results : list step_result) {struct s}
  : exec W (list step_result * bool) :=
  let name := step_name_at i s in
  let type := step_type_of s in
  let step_params :=
    _replace_parameters (or_default (step_parameters s) []) parameters in
  (emit (EvStep depth i name type) ;;
   try_except
     (result <-
        (if type =? "jenkins" then
           emit (EvAdapter "jenkins" step_params) ;;
           _execute_jenkins_step step_params
         else if type =? "ansible" then
           emit (EvAdapter "ansible" step_params) ;;
           _execute_ansible_step step_params
         else if type =? "terraform" then
           emit (EvAdapter "terraform" step_params) ;;
           _execute_terraform_step step_params
         else if type =? "condition" then
           _execute_condition_step_with
             (fun t =>
                r <- run_step (S depth) parameters 1 t [] ;;
                ret (_format_workflow_result "Unnamed workflow" (fst r)))
             s parameters results
         else if type =? "notification" then
           emit (EvAdapter "notification" step_params) ;;
           _execute_notification_step step_params
         else ret (VStr ("Unknown step type: " ++ type))) ;;
      ret ((results ++ [mkResult i name type result])%list, is_failure result))
     (fun e => ret ((results ++ [mkResult i name type (failure e)])%list, true)))%exec.

(** The loop of [_execute_workflow] from its [i]-th step on. *)
Fixpoint run_steps (depth : nat) (parameters : dict) (i : nat)
         (steps : list step) (results : list step_result) {struct steps}
  : exec W (list step_result) :=
  match steps with
  | [] => ret results
  | s :: rest =>
      (r <- run_step depth parameters i s results ;;
       if snd r then ret (fst r)
       else run_steps depth parameters (S i) rest (fst r))%exec
  end.

(** [_execute_workflow]; the text returned is the formatted report of the
    results gathered by the loop. *)
Definition _execute_workflow (depth : nat) (wf : workflow) (parameters : dict)
  : exec W string :=
  let workflow_name := or_default (wf_name wf) "Unnamed workflow" in
  match wf_steps wf with
  | [] => ret ("Workflow '" ++ workflow_name ++ "' has no steps to execute")
  | steps =>
      (results <- run_steps depth parameters 1 steps [] ;;
       ret (_format_workflow_result workflow_name results))%exec
  end.

(** [_execute_condition_step] *)
Definition _execute_condition_step (depth : nat) (s : step) (parameters : dict)
           (results : list step_result) : exec W value :=
  _execute_condition_step_with
    (fun t => _execute_workflow (S depth) (mkWorkflow None [t]) parameters)
    s parameters results.

(** The nested invocation as [run_step] makes it, and the dispatch on the
    step type in the body of [run_step], named for the proofs. *)
Definition nested_call (depth : nat) (parameters : dict) (t : step)
  : exec W string :=
  (r <- run_step (S depth) parameters 1 t [] ;;
   ret (_format_workflow_result "Unnamed workflow" (fst r)))%exec.

Definition dispatch (depth : nat) (parameters : dict) (s : step)
           (results : list step_result) : exec W value :=
  let type := step_type_of s in
  let step_params :=
    _replace_parameters (or_default (step_parameters s) []) parameters in
  (if type =? "jenkins" then
     emit (EvAdapter "jenkins" step_params) ;;
     _execute_jenkins_step step_params
   else if type =? "ansible" then
     emit (EvAdapter "ansible" step_params) ;;
     _execute_ansible_step step_params
   else if type =? "terraform" then
     emit (EvAdapter "terraform" step_params) ;;
     _execute_terraform_step step_params
   else if type =? "condition" then
     _execute_condition_step_with (nested_call depth parameters)
                                  s parameters results
   else if type =? "notification" then
     emit (EvAdapter "notification" step_params) ;;
     _execute_notification_step step_params
   else ret (VStr ("Unknown step type: " ++ type)))%exec.

End Engine.

End WorkflowManager.

(** ** Notions used to state the properties of the engine *)

Module WorkflowSpec.

Import WorkflowManager.

(** The placeholder for [name]. *)
Definition placeholder (name : string) : string := "${" ++ name ++ "}".

(** Placeholder substitution as the specification words it: a string that is
    a placeholder for a command parameter becomes that parameter's value as
    it stands, any other string and any scalar is kept, and lists and
    mappings are substituted element by element, keys unchanged. *)
Inductive substituted (parameters : dict) : value -> value -> Prop :=
| sub_found (name : string) (v : value) :
    PyDict.get name parameters = Some v ->
    substituted parameters (VStr (placeholder name)) v
| sub_missing (name : string) :
    PyDict.get name parameters = None ->
    substituted parameters (VStr (placeholder name)) (VStr (placeholder name))
| sub_plain (s : string) :
    (forall name, s <> placeholder name) ->
    substituted parameters (VStr s) (VStr s)
| sub_none : substituted parameters VNone VNone
| sub_bool (b : bool) : substituted parameters (VBool b) (VBool b)
| sub_int (z : Z) : substituted parameters (VInt z) (VInt z)
| sub_list (l l' : list value) :
    Forall2 (substituted parameters) l l' ->
    substituted parameters (VList l) (VList l')
| sub_dict (d d' : dict) :
    Forall2 (fun kv kv' => fst kv = fst kv' /\
                           substituted parameters (snd kv) (snd kv')) d d' ->
    substituted parameters (VDict d) (VDict d').

(** The step kinds the loop of [_execute_workflow] knows. *)
Definition known_kind (type : string) : bool :=
  (type =? "jenkins") || (type =? "ansible") || (type =? "terraform") ||
  (type =? "condition") || (type =? "notification").

(** The steps an invocation at [depth] took up itself, as its trace shows
    them. *)
Definition is_step_at (depth : nat) (e : event) : bool :=
  match e with
  | EvStep d _ _ _ => (d =? depth)%nat
  | EvAdapter _ _ => false
  end.

Definition top_steps (depth : nat) (events : list event) : list event :=
  filter (is_step_at depth) events.

(** The event of taking up the step a result belongs to. *)
Definition event_of_result (depth : nat) (r : step_result) : event :=
  EvStep depth (res_step r) (res_name r) (res_type r).

(** The events of taking up [steps] in order, numbered from [i]. *)
Fixpoint step_events (depth : nat) (i : nat) (steps : list step) : list event :=
  match steps with
  | [] => []
  | s :: rest =>
      EvStep depth i (step_name_at i s) (step_type_of s)
      :: step_events depth (S i) rest
  end.

(** Events that belong to nested invocations below [depth], or to adapters. *)
Definition below (depth : nat) (e : event) : Prop :=
  match e with
  | EvStep d _ _ _ => (depth < d)%nat
  | EvAdapter _ _ => True
  end.

(** [st'] continues [st] with events of nested invocations and adapters
    only. *)
Definition continues {W : Type} (depth : nat) (st st' : state W) : Prop :=
  exists events, trace st' = (trace st ++ events)%list /\ Forall (below depth) events.

(** A nested invocation that returns and leaves only nested events. *)
Definition tame {W : Type} (depth : nat) (nested : step -> exec W string)
           (t : step) : Prop :=
  forall st, exists r st',
      nested t st = (Returned r, st') /\ continues depth st st'.

(** The operators [_evaluate_condition] knows. *)
Definition known_operator (operator : string) : bool :=
  (operator =? "eq") || (operator =? "ne") || (operator =? "gt") ||
  (operator =? "lt") || (operator =? "ge") || (operator =? "le") ||
  (operator =? "contains") || (operator =? "not_contains").

(** The message of a condition step whose predicate gave [b]. *)
Definition branch_message (b : bool) : string :=
  if b then "Condition evaluated to true" else "Condition evaluated to false".

(** The step [s] with another [else] branch. *)
Definition with_else (s : step) (else_steps : list step) : step :=
  mkStep (step_name s) (step_type s) (step_parameters s) (step_condition s)
         (step_then s) else_steps.

(** The state in which the loop has taken up step [s] as its [i]-th. *)
Definition taken_up {W : Type} (depth i : nat) (s : step) (st : state W)
  : state W :=
  mkState (world st)
          (trace st ++ [EvStep depth i (step_name_at i s) (step_type_of s)]).

(** [fires type_error s parameters results b]: the predicate of the condition
    step [s] is evaluated and selects the [then] branch ([b = true]) or the
    [else] branch ([b = false]). *)
Inductive fires (type_error : string -> value -> value -> string)
          (s : step) (parameters : dict) (results : list step_result)
  : bool -> Prop :=
| fires_parameter (c : condition) (name : string) (actual : value) (b : bool) :
    step_condition s = Some c ->
    cond_type c = Some "parameter" ->
    cond_parameter c = Some name ->
    PyDict.get name parameters = Some actual ->
    _evaluate_condition type_error actual (or_default (cond_value c) VNone)
                        (or_default (cond_operator c) "eq") = Returned b ->
    fires type_error s parameters results b
| fires_result (c : condition) (r : step_result) (d : dict) :
    step_condition s = Some c ->
    cond_type c = Some "result" ->
    (1 <= or_default (cond_step c) 1)%Z ->
    nth_error results (Z.to_nat (or_default (cond_step c) 1 - 1)%Z) = Some r ->
    res_result r = VDict d ->
    fires type_error s parameters results
          (Py.truthy (PyDict.get_default "success" (VBool false) d)).

(** [refused type_error s parameters results message]: the predicate of the
    condition step [s] cannot be evaluated, for the reason [message] gives:
    the parameter is absent (or none is named), the comparison raises, the
    step number is out of range, the result looked at is no mapping, or the
    condition type is unknown (or there is no condition at all). *)
Inductive refused (type_error : string -> value -> value -> string)
          (s : step) (parameters : dict) (results : list step_result)
  : string -> Prop :=
| refused_parameter_absent (c : condition) :
    step_condition s = Some c ->
    cond_type c = Some "parameter" ->
    match cond_parameter c with
    | Some name => PyDict.get name parameters
    | None => None
    end = None ->
    refused type_error s parameters results
            (parameter_not_found (cond_parameter c))
| refused_comparison_raises (c : condition) (name : string) (actual : value)
                            (e : string) :
    step_condition s = Some c ->
    cond_type c = Some "parameter" ->
    cond_parameter c = Some name ->
    PyDict.get name parameters = Some actual ->
    _evaluate_condition type_error actual (or_default (cond_value c) VNone)
                        (or_default (cond_operator c) "eq") = Raised e ->
    refused type_error s parameters results e
| refused_step_not_found (c : condition) :
    step_condition s = Some c ->
    cond_type c = Some "result" ->
    (or_default (cond_step c) 1 < 1
     \/ Z.of_nat (List.length results) < or_default (cond_step c) 1)%Z ->
    refused type_error s parameters results
            ("Step " ++ PyStr.of_Z (or_default (cond_step c) 1%Z)
                     ++ " result not found")
| refused_result_no_mapping (c : condition) (r : step_result) :
    step_condition s = Some c ->
    cond_type c = Some "result" ->
    (1 <= or_default (cond_step c) 1)%Z ->
    nth_error results (Z.to_nat (or_default (cond_step c) 1 - 1)%Z) = Some r ->
    (forall d, res_result r <> VDict d) ->
    refused type_error s parameters results "Unknown condition type: result"
| refused_unknown_type (type : string) :
    type = or_default
             (cond_type (or_default (step_condition s)
                                    (mkCondition None None None None None)))
             EmptyString ->
    type <> "parameter" ->
    type <> "result" ->
    refused type_error s parameters results
            ("Unknown condition type: " ++ type).

(** *** The execution report, as the specification words it *)

(** The success flag of a recorded result: a result that is a mapping carries
    it under [success], and counts as a success when it carries none; a
    result that is no mapping counts as a success. *)
Definition recorded_success (r : step_result) : bool :=
  match res_result r with
  | VDict d =>
      match PyDict.get "success" d with
      | Some flag => Py.truthy flag
      | None => true
      end
  | _ => true
  end.

(** The overall success: the conjunction of the success flags of the
    recorded results. *)
Definition overall_success (results : list step_result) : bool :=
  forallb recorded_success results.

(** The line of one result: a mark, the number, the name and the type of the
    step, and the message of the result (the result itself when it is no
    mapping). *)
Definition result_mark (r : step_result) : string :=
  match res_result r with
  | VDict _ => if recorded_success r then "  ✅" else "  ❌"
  | _ => "  ✓"
  end.

Definition result_text (py_repr : value -> string) (r : step_result) : string :=
  match res_result r with
  | VDict d =>
      match PyDict.get "message" d with
      | Some message => Py.str py_repr message
      | None => "No message"
      end
  | other => Py.str py_repr other
  end.

Definition report_line (py_repr : value -> string) (r : step_result) : string :=
  result_mark r ++
  (" Step " ++ PyStr.of_nat (res_step r) ++ ": " ++ res_name r ++
   " (" ++ res_type r ++ ") - ") ++
  result_text py_repr r ++ PyStr.nl.

(** The report: a head line that tells the overall success, then one line
    per recorded result, in the order of the results. *)
Definition report (py_repr : value -> string) (workflow_name : string)
           (results : list step_result) : string :=
  (if overall_success results
   then "✅ Workflow '" ++ workflow_name ++ "' completed successfully"
   else "❌ Workflow '" ++ workflow_name ++ "' failed") ++
  PyStr.nl ++ PyStr.nl ++ "Steps:" ++ PyStr.nl ++
  String.concat EmptyString (map (report_line py_repr) results).

End WorkflowSpec.

(** ** Pipeline entry point and Authorization Gate ([bot/app.py]) *)

Module ChatOpsApp.

(** [self.config['security']] *)
Record security : Type := mkSecurity {
  authorized_users : list string;
  restricted_commands : list string;
  admin_users : list string;
  approval_required : list string
}.

(** The collaborators [process_message] calls, in the order of the calls
    (ghost). *)
Inductive component : Type :=
| CallIsUserAuthorized
| CallNlpProcess
| CallCommandParser
| CallRequiresApproval
| CallWorkflowManager.

(** [x in l] for a list of strings. *)
Definition list_mem (x : string) (l : list string) : bool :=
  existsb (String.eqb x) l.

(** The loop over [restricted_commands] of [_is_user_authorized]. *)
Fixpoint restricted_loop (restricted_commands admin_users : list string)
         (user_id message : string) : bool :=
  match restricted_commands with
  | [] => true
  | restricted :: rest =>
      if PyStr.contains (PyStr.lower restricted) (PyStr.lower message)
         && negb (list_mem user_id admin_users)
      then false
      else restricted_loop rest admin_users user_id message
  end.

(** [_is_user_authorized] *)
Definition _is_user_authorized (sec : security) (user_id message : string)
  : bool :=
  if negb (list_mem user_id (authorized_users sec)) then false
  else restricted_loop (restricted_commands sec) (admin_users sec)
                       user_id message.

(** [_requires_approval] *)
Fixpoint approval_loop (approval_required : list string) (message : string)
  : bool :=
  match approval_required with
  | [] => false
  | command :: rest =>
      if PyStr.contains (PyStr.lower command) (PyStr.lower message) then true
      else approval_loop rest message
  end.

Definition _requires_approval (sec : security) (message : string) : bool :=
  approval_loop (approval_required sec) message.

Section Pipeline.

(** Confidence scores are compared only. *)
Variable score : Type.
Variable score_ltb : score -> score -> bool.

Variable sec : security.
Variable confidence_threshold : score.

(** [self.nlp.process] and [self.workflow_manager.execute]. *)
Variable nlp_process : string -> string * dict * score.
Variable workflow_manager_execute : CommandParser.command -> outcome string.

(** [process_message]: the reply, and the collaborators called on the way. *)
Definition process_message (message user_id channel_id : string)
  : string * list component :=
  if negb (_is_user_authorized sec user_id message) then
    ("You are not authorized to perform this action.",
     [CallIsUserAuthorized])
  else
    let '(intent, entities, confidence) := nlp_process message in
    if score_ltb confidence confidence_threshold then
      ("I'm not sure what you want to do. Could you please be more specific?",
       [CallIsUserAuthorized; CallNlpProcess])
    else
      match CommandParser.parse intent entities with
      | None =>
          ("I couldn't understand your command. Please try again.",
           [CallIsUserAuthorized; CallNlpProcess; CallCommandParser])
      | Some command =>
          if _requires_approval sec message then
            ("This command requires approval. Please have an admin confirm this action.",
             [CallIsUserAuthorized; CallNlpProcess; CallCommandParser;
              CallRequiresApproval])
          else
            (match workflow_manager_execute command with
             | Returned result => result
             | Raised e => "Error executing command: " ++ e
             end,
             [CallIsUserAuthorized; CallNlpProcess; CallCommandParser;
              CallRequiresApproval; CallWorkflowManager])
      end.

End Pipeline.

End ChatOpsApp.

(** ** Sample configurations, workflows and integrations *)

Module Scenarios.

Import WorkflowManager.

(** Integrations over a world without state: the build server succeeds, the
    playbook runner fails, the provisioning engine succeeds. *)
Definition jenkins_ok (job params wait : value) (w : unit)
  : outcome value * unit :=
  (Returned (success "Job triggered"), w).

Definition ansible_fails (playbook inventory extra_vars : value) (w : unit)
  : outcome value * unit :=
  (Returned (failure "Playbook failed with return code 2"), w).

Definition terraform_ok (action workspace var_file vars : value) (w : unit)
  : outcome value * unit :=
  (Returned (success "Terraform apply completed successfully"), w).

Definition type_error (operator : string) (left right : value) : string :=
  "unsupported operand for " ++ operator.

Definition py_repr (v : value) : string := "<container>".

Definition start : state unit := mkState tt [].

Definition run_steps_here :=
  run_steps jenkins_ok ansible_fails terraform_ok type_error py_repr.

Definition run_step_here :=
  run_step jenkins_ok ansible_fails terraform_ok type_error py_repr.

Definition notify (name message : string) : step :=
  mkStep (Some name) (Some "notification") (Some [("message", VStr message)])
         None [] [].

Definition build : step :=
  mkStep (Some "build") (Some "jenkins") (Some [("job", VStr "${service}")])
         None [] [].

Definition configure : step :=
  mkStep (Some "configure") (Some "ansible")
         (Some [("playbook", VStr "site.yml")]) None [] [].

(** Scenario B: the first step succeeds, the second fails, a third is
    declared. *)
Definition scenario_b : workflow :=
  mkWorkflow (Some "deploy") [build; configure; notify "announce" "deployed"].

Definition deploy_parameters : dict :=
  [("environment", VStr "production"); ("version", VStr "latest");
   ("service", VStr "api")].

(** Scenario C: [count] is compared with [eq] to the string 3. *)
Definition count_is_3 (operator : string) : condition :=
  mkCondition (Some "parameter") (Some "count") (Some (VStr "3"))
              (Some operator) None.

Definition check_count : step :=
  mkStep (Some "check") (Some "condition") None (Some (count_is_3 "eq"))
         [notify "grow" "scaling out"] [notify "shrink" "scaling in"].

Definition scale_parameters : dict :=
  [("environment", VStr "development"); ("count", VStr "3");
   ("direction", VStr "up"); ("service", VStr "web")].

(** A condition whose [then] branch holds a step that fails. *)
Definition check_then_fail : step :=
  mkStep (Some "check") (Some "condition") None (Some (count_is_3 "eq"))
         [configure] [].

(** A condition on a parameter the command does not have. *)
Definition check_replicas : step :=
  mkStep (Some "check") (Some "condition") None
         (Some (mkCondition (Some "parameter") (Some "replicas")
                            (Some (VStr "3")) (Some "eq") None))
         [notify "grow" "scaling out"] [notify "shrink" "scaling in"].

(** A condition with an operator that does not exist. *)
Definition check_about : step :=
  mkStep (Some "check") (Some "condition") None (Some (count_is_3 "about"))
         [notify "grow" "scaling out"] [notify "shrink" "scaling in"].

(** A step of a kind without adapter. *)
Definition mystery : step :=
  mkStep (Some "mystery") (Some "Shell") (Some [("command", VStr "ls")])
         None [] [].

(** A configuration of the gate, a resolver that finds the intent [deploy]
    and no entity, and a workflow manager that does nothing. *)
Definition sec : ChatOpsApp.security :=
  ChatOpsApp.mkSecurity ["U100"; "U200"] ["destroy"] ["U100"] ["production"].

Definition resolver (message : string) : string * dict * nat :=
  ("deploy", [], 92).

Definition manager (command : CommandParser.command) : outcome string :=
  Returned "done".

Definition process_here : string -> string -> string -> string * list ChatOpsApp.component :=
  ChatOpsApp.process_message nat Nat.ltb sec 70 resolver manager.

End Scenarios.

(** ** Discord transport: sending a reply ([bot/discord_bot.py]) *)

Module DiscordBot.

Definition chunk_size : nat := 1900.
Definition message_limit : nat := 2000.

(** [range(0, n, step)] for a positive [step]: the multiples of [step]
    below [n]. *)
Definition range_from_0 (n step : nat) : list nat :=
  map (fun k => k * step) (seq 0 ((n + (step - 1)) / step)).

Section Text.

(** A text is the sequence of its characters, whatever the alphabet: [len]
    and slicing count characters (code points), not bytes. *)
Context {char : Type}.

(** The character of an ASCII character, for the literal the code appends. *)
Variable of_ascii : ascii -> char.

Definition literal (s : string) : list char :=
  map of_ascii (list_ascii_of_string s).

(** [text[i:i+n]] *)
Definition slice (i n : nat) (text : list char) : list char :=
  firstn n (skipn i text).

(** [[text[i:i+1900] for i in range(0, len(text), 1900)]] *)
Definition chunks (text : list char) : list (list char) :=
  map (fun i => slice i chunk_size text)
      (range_from_0 (List.length text) chunk_size).

(** The loop over [enumerate(chunks)]: every chunk but the last gets the
    mark that more follows. *)
Fixpoint continued (i total : nat) (chunks : list (list char))
  : list (list char) :=
  match chunks with
  | [] => []
  | chunk :: rest =>
      (if (i <? total - 1)%nat
       then (chunk ++ literal "... (continued)")%list else chunk)
      :: continued (S i) total rest
  end.

(** The contents [send_message] passes to [channel.send] when there is no
    embed. *)
Definition contents (text : list char) : list (list char) :=
  if (List.length text <=? message_limit)%nat then [text]
  else continued 0 (List.length (chunks text)) (chunks text).

Section Send.

Context {W E : Type}.

(** [channel.send(content=..., embed=...)], and the truth value of an
    embed. *)
Variable channel_send : list char -> option E -> W -> outcome unit * W.
Variable embed_truthy : E -> bool.

Fixpoint send_all (messages : list (list char)) (w : W) : outcome unit * W :=
  match messages with
  | [] => (Returned tt, w)
  | m :: rest =>
      match channel_send m None w with
      | (Returned _, w') => send_all rest w'
      | (Raised e, w') => (Raised e, w')
      end
  end.

(** [send_message]: [True] when everything was sent, [False] as soon as a
    send raises. *)
Definition send_message (text : list char) (embed : option E) (w : W)
  : bool * W :=
  let attempt :=
    match embed with
    | Some e =>
        if embed_truthy e then channel_send text (Some e) w
        else send_all (contents text) w
    | None => send_all (contents text) w
    end in
  match attempt with
  | (Returned _, w') => (true, w')
  | (Raised _, w') => (false, w')
  end.

End Send.

End Text.

End DiscordBot.

(** ** Terraform integration ([integrations/terraform_integration.py]) *)

Module TerraformIntegration.

(** The world of the integration: the file system and the processes outside,
    and (ghost) the argument vectors handed to [subprocess.run] so far. *)
Record tf_world (W : Type) : Type := mkTfWorld {
  tf_outside : W;
  tf_commands : list (list string)
}.
Arguments mkTfWorld {W} tf_outside tf_commands.
Arguments tf_outside {W} t.
Arguments tf_commands {W} t.

Definition valid_actions : list string :=
  ["init"; "plan"; "apply"; "destroy"; "output"; "validate"; "refresh"].

(** [x in l] for a list of strings. *)
Definition among (x : string) (l : list string) : bool :=
  existsb (String.eqb x) l.

(** [self.var_files[name]] when [name] is a key. *)
Fixpoint mapped (name : string) (var_files : list (string * string))
  : option string :=
  match var_files with
  | [] => None
  | (k, v) :: rest => if name =? k then Some v else mapped name rest
  end.

Section Terraform.

(** [P] stands for [pathlib.Path]. *)
Context {W P : Type}.

(** [self.working_dir / name], [Path(name)], [path.exists()], [str(path)],
    [os.path.isabs(name)] and [self.var_files]. *)
Variable in_working_dir : string -> P.
Variable path_of : string -> P.
Variable path_exists : P -> W -> bool.
Variable path_str : P -> string.
Variable isabs : string -> bool.
Variable var_files : list (string * string).

(** [subprocess.run(cmd, ...)]: return code, standard output and standard
    error, or an exception. *)
Variable subprocess_run : list string -> W -> outcome (Z * string * string) * W.

(** Writing [vars_dict] to a fresh temporary file (with the removal of the
    file in the [except] branch when that fails), which gives the name of the
    file or raises; and [if os.path.exists(name): os.unlink(name)]. *)
Variable write_temp_var_file : dict -> W -> outcome string * W.
Variable remove_if_exists : string -> W -> outcome unit * W.

(** [_resolve_var_file_path] *)
Definition _resolve_var_file_path (var_file : string) (w : W) : P :=
  let var_file :=
    match mapped var_file var_files with Some v => v | None => var_file end in
  if isabs var_file then path_of var_file
  else if path_exists (in_working_dir var_file) w then in_working_dir var_file
  else if negb (PyStr.endswith var_file ".tfvars")
          && negb (PyStr.endswith var_file ".tfvars.json") then
    if path_exists (in_working_dir (var_file ++ ".tfvars")) w
    then in_working_dir (var_file ++ ".tfvars")
    else if path_exists (in_working_dir (var_file ++ ".tfvars.json")) w
    then in_working_dir (var_file ++ ".tfvars.json")
    else in_working_dir var_file
  else in_working_dir var_file.

(** [_run_terraform_command]: it never raises. *)
Definition _run_terraform_command (command : string) (args : list string)
  : exec (tf_world W) value :=
  fun st =>
    let cmd := "terraform" :: command :: args in
    let (r, w') := subprocess_run cmd (tf_outside (world st)) in
    let st' := mkState (mkTfWorld w' (tf_commands (world st) ++ [cmd]))
                       (trace st) in
    match r with
    | Returned (returncode, stdout, stderr) =>
        if (returncode =? 0)%Z then
          (Returned (VDict [("success", VBool true);
                            ("message", VStr ("Terraform " ++ command
                                              ++ " completed successfully"));
                            ("stdout", VStr stdout); ("stderr", VStr stderr)]),
           st')
        else
          (Returned (VDict [("success", VBool false);
                            ("message", VStr ("Terraform " ++ command
                                              ++ " failed with return code "
                                              ++ PyStr.of_Z returncode));
                            ("stdout", VStr stdout); ("stderr", VStr stderr)]),
           st')
    | Raised e =>
        (Returned (WorkflowManager.failure
                     ("Error running Terraform " ++ command ++ ": " ++ e)), st')
    end.

(** A call that touches the outside only. *)
Definition outside {A : Type} (call : W -> outcome A * W)
  : exec (tf_world W) A :=
  fun st =>
    let (r, w') := call (tf_outside (world st)) in
    (r, mkState (mkTfWorld w' (tf_commands (world st))) (trace st)).

(** [result.get('success', False)] as a condition. *)
Definition succeeded (result : value) : bool :=
  match result with
  | VDict d => Py.truthy (PyDict.get_default "success" (VBool false) d)
  | _ => false
  end.

(** [workspace_list.get('stdout', '')] *)
Definition stdout_of (result : value) : value :=
  match result with
  | VDict d => PyDict.get_default "stdout" (VStr EmptyString) d
  | _ => VStr EmptyString
  end.

(** The clean-up [if temp_var_file and os.path.exists(...): os.unlink(...)]. *)
Definition clean_up (temp_var_file : option string) : exec (tf_world W) unit :=
  match temp_var_file with
  | Some name => outside (remove_if_exists name)
  | None => ret tt
  end.

(** [run_terraform] *)
Definition run_terraform (action workspace : string) (var_file : option string)
           (vars_dict : option dict) : exec (tf_world W) value :=
  if negb (among action valid_actions) then
    ret (WorkflowManager.failure ("Invalid Terraform action: " ++ action))
  else
    fun st =>
      let var_file_path :=
        match var_file with
        | Some name =>
            if negb (name =? EmptyString) then
              let path := _resolve_var_file_path name (tf_outside (world st)) in
              if path_exists path (tf_outside (world st)) then Some path else None
            else None
        | None => None
        end in
      let created :=
        match vars_dict with
        | Some ((_ :: _) as vars) =>
            match outside (write_temp_var_file vars) st with
            | (Returned name, st1) => (Returned (Some name), st1)
            | (Raised e, st1) => (Raised e, st1)
            end
        | _ => (Returned None, st)
        end in
      match created with
      | (Raised e, st1) =>
          (Returned (WorkflowManager.failure
                       ("Error creating temporary var file: " ++ e)), st1)
      | (Returned temp_var_file, st1) =>
          let run_action : exec (tf_world W) value :=
            (let args :=
               (match var_file_path with
                | Some path => ["-var-file"; path_str path]
                | None => []
                end ++
                match temp_var_file with
                | Some name => ["-var-file"; name]
                | None => []
                end ++
                (if among action ["apply"; "destroy"]
                 then ["-auto-approve"] else []))%list in
             result <- _run_terraform_command action args ;;
             clean_up temp_var_file ;;
             ret result)%exec in
          let select_workspace : exec (tf_world W) value :=
            (if negb (workspace =? "default") then
               workspace_list <- _run_terraform_command "workspace" ["list"] ;;
               match Py.is_in (VStr workspace) (stdout_of workspace_list) with
               | Some false =>
                   workspace_new <-
                     _run_terraform_command "workspace" ["new"; workspace] ;;
                   if negb (succeeded workspace_new) then ret workspace_new
                   else run_action
               | Some true =>
                   workspace_select <-
                     _run_terraform_command "workspace" ["select"; workspace] ;;
                   if negb (succeeded workspace_select) then ret workspace_select
                   else run_action
               | None => raise "argument is not iterable"
               end
             else run_action)%exec in
          try_except
            (if negb (action =? "init") then
               init_result <- _run_terraform_command "init" [] ;;
               if negb (succeeded init_result) then ret init_result
               else select_workspace
             else select_workspace)%exec
            (fun e =>
               clean_up temp_var_file ;;
               ret (WorkflowManager.failure
                      ("Error running Terraform " ++ action ++ ": " ++ e)))%exec
            st1
      end.

(** [temp_created vars_dict st temp st1]: the temporary var file asked for by
    [vars_dict], if any, has been written, taking [st] to [st1]. *)
Inductive temp_created :
  option dict -> state (tf_world W) -> option string -> state (tf_world W) -> Prop :=
| temp_none (st : state (tf_world W)) : temp_created None st None st
| temp_empty (st : state (tf_world W)) : temp_created (Some []) st None st
| temp_written (kv : string * value) (vars : dict) (name : string)
               (st st1 : state (tf_world W)) :
    outside (write_temp_var_file (kv :: vars)) st = (Returned name, st1) ->
    temp_created (Some (kv :: vars)) st (Some name) st1.

End Terraform.

End TerraformIntegration.

(** ** More sample workflows, integrations and worlds *)

Module MoreScenarios.

Import WorkflowManager Scenarios.

(** A build server that cannot be reached, and one whose answer carries no
    [success] flag. *)
Definition jenkins_down (job params wait : value) (w : unit)
  : outcome value * unit :=
  (Raised "connection refused", w).

Definition jenkins_flagless (job params wait : value) (w : unit)
  : outcome value * unit :=
  (Returned (VDict [("message", VStr "queued")]), w).

Definition run_step_down :=
  run_step jenkins_down ansible_fails terraform_ok type_error py_repr.

Definition run_step_flagless :=
  run_step jenkins_flagless ansible_fails terraform_ok type_error py_repr.

(** A Jenkins step that names no job. *)
Definition bare_build : step :=
  mkStep (Some "build") (Some "Jenkins") None None [] [].

(** A condition on the result of step [n]. *)
Definition check_step (n : Z) : step :=
  mkStep (Some "check") (Some "condition") None
         (Some (mkCondition (Some "result") None None None (Some n)))
         [notify "grow" "scaling out"] [notify "shrink" "scaling in"].

(** A condition step without a [condition] mapping. *)
Definition check_nothing : step :=
  mkStep (Some "check") (Some "condition") None None [] [].

(** [count] (a string) compared to the number 2. *)
Definition check_more_than_2 : step :=
  mkStep (Some "check") (Some "condition") None
         (Some (mkCondition (Some "parameter") (Some "count") (Some (VInt 2))
                            (Some "gt") None))
         [notify "grow" "scaling out"] [].

Definition queued : step_result :=
  mkResult 1 "build" "jenkins" (VDict [("message", VStr "queued")]).

Definition unknown_result : step_result :=
  mkResult 1 "mystery" "shell" (VStr "Unknown step type: shell").

(** A resolver that finds a status request for the service [api], a
    workflow manager that raises, and the pipeline over them. *)
Definition resolver_status (message : string) : string * dict * nat :=
  ("status", [("service", VStr "api")], 92).

Definition manager_down (command : CommandParser.command) : outcome string :=
  Raised "template not found".

Definition process_status (execute : CommandParser.command -> outcome string)
  : string -> string -> string -> string * list ChatOpsApp.component :=
  ChatOpsApp.process_message nat Nat.ltb sec 70 resolver_status execute.

(** Texts over code points: a reply of 2001 times the letter e with an acute
    accent (code point 233), which goes out in two parts, and one of 4000,
    which goes out in three. *)
Definition code_point (c : ascii) : nat := nat_of_ascii c.

Definition long_reply : list nat := repeat 233 2001.

Definition longer_reply : list nat := repeat 233 4000.

(** A channel that accepts one message and refuses the next; the world
    counts the messages accepted. *)
Definition channel_closing (content : list nat) (embed : option unit) (w : nat)
  : outcome unit * nat :=
  if (w =? 1)%nat then (Raised "Cannot send messages to this user", w)
  else (Returned tt, S w).

(** A Terraform working directory that holds [prod.tfvars], processes that
    end with a given return code, and a temporary directory. *)
Definition tf_in_working_dir (name : string) : string := "terraform/" ++ name.
Definition tf_path_of (name : string) : string := name.
Definition tf_path_exists (path : string) (w : unit) : bool :=
  path =? "terraform/prod.tfvars".
Definition tf_path_str (path : string) : string := path.
Definition tf_isabs (name : string) : bool := String.prefix "/" name.
Definition tf_var_files : list (string * string) := [("production", "prod")].

Definition tf_listing : string := "  default" ++ PyStr.nl ++ "* production".

Definition processes_end_with (code : Z) (cmd : list string) (w : unit)
  : outcome (Z * string * string) * unit :=
  (Returned (code, tf_listing, EmptyString), w).

Definition tf_write_temp (vars : dict) (w : unit) : outcome string * unit :=
  (Returned "/tmp/tmpvars.tfvars.json", w).

Definition tf_remove (name : string) (w : unit) : outcome unit * unit :=
  (Returned tt, w).

Definition tf_start : state (TerraformIntegration.tf_world unit) :=
  mkState (TerraformIntegration.mkTfWorld tt []) [].

Definition run_terraform_here (code : Z) :=
  TerraformIntegration.run_terraform
    tf_in_working_dir tf_path_of tf_path_exists tf_path_str tf_isabs
    tf_var_files (processes_end_with code) tf_write_temp tf_remove.

End MoreScenarios.

(** * Properties *)

(** ** Dictionaries *)

Module PyDictFacts.

Import PyDict.

Lemma get_set_eq (k : string) (v : value) (d : dict) :
  get k (set k v d) = Some v.
Proof.
  induction d as [|[k' v'] d IH]; simpl.
  - now rewrite String.eqb_refl.
  - destruct (k =? k') eqn:E; simpl.
    + now rewrite String.eqb_refl.
    + now rewrite E.
Qed.

Lemma get_set_neq (k k' : string) (v : value) (d : dict) :
  k <> k' -> get k (set k' v d) = get k d.
Proof.
  intros Hne. induction d as [|[k0 v0] d IH]; simpl.
  - apply String.eqb_neq in Hne. now rewrite Hne.
  - destruct (k' =? k0) eqn:E; simpl.
    + apply String.eqb_eq in E. subst k0.
      apply String.eqb_neq in Hne. now rewrite Hne.
    + destruct (k =? k0); auto.
Qed.

Lemma get_update_notin (k : string) (items d : dict) :
  get k items = None -> get k (update d items) = get k d.
Proof.
  revert d. induction items as [|[k' v'] items IH]; intros d H; simpl in *.
  - reflexivity.
  - destruct (k =? k') eqn:E; [discriminate|].
    rewrite IH by assumption.
    apply get_set_neq. now apply String.eqb_neq.
Qed.

(** After the assignment loop, a key of [items] holds the value [items]
    gives it (keys of a dict are unique). *)
Lemma get_update_in (k : string) (v : value) (items d : dict) :
  NoDup (keys items) -> get k items = Some v ->
  get k (update d items) = Some v.
Proof.
  revert d. induction items as [|[k' v'] items IH]; intros d Hnd H; simpl in *.
  - discriminate.
  - inversion Hnd as [|? ? Hnotin Hnd']; subst.
    destruct (k =? k') eqn:E.
    + apply String.eqb_eq in E. subst k'. inversion H; subst v'.
      rewrite get_update_notin.
      * apply get_set_eq.
      * clear -Hnotin. induction items as [|[k0 v0] items IH]; simpl in *; auto.
        destruct (k =? k0) eqn:E.
        -- apply String.eqb_eq in E. subst. exfalso. apply Hnotin. now left.
        -- apply IH. intro Hin. apply Hnotin. now right.
    + now apply IH.
Qed.

(** Filling a fresh dict from the items of a dict gives back its bindings. *)
Lemma get_update_nil (k : string) (items : dict) :
  NoDup (keys items) -> get k (update [] items) = get k items.
Proof.
  intros Hnd. destruct (get k items) as [v|] eqn:E.
  - now apply get_update_in.
  - now rewrite get_update_notin.
Qed.

End PyDictFacts.

(** ** Command Builder *)

Module CommandParserFacts.

Import CommandParser.

Lemma first_missing_none (required : list string) (entities : dict) :
  (forall r, In r required -> PyDict.mem r entities = true) ->
  first_missing required entities = None.
Proof.
  induction required as [|r rest IH]; intros H; simpl.
  - reflexivity.
  - rewrite (H r) by now left.
    apply IH. intros r' Hin. apply H. now right.
Qed.

Lemma first_missing_some (required : list string) (entities : dict) (r : string) :
  In r required -> PyDict.mem r entities = false ->
  exists r', first_missing required entities = Some r'.
Proof.
  induction required as [|r0 rest IH]; intros Hin Hmem; simpl.
  - contradiction.
  - destruct (PyDict.mem r0 entities) eqn:E.
    + destruct Hin as [->|Hin]; [congruence|]. now apply IH.
    + now exists r0.
Qed.

(** The defaults of every registered template have distinct keys. *)
Lemma registered_defaults_nodup (intent : string) (t : template) :
  lookup_template _load_command_templates intent = Some t ->
  NoDup (PyDict.keys (defaults t)).
Proof.
  unfold _load_command_templates. simpl.
  repeat match goal with
         | |- context [if ?b then _ else _] => destruct b
         end;
    intros H; inversion H; subst; simpl;
    repeat constructor; simpl; intuition discriminate.
Qed.

(** C6. For every intent with a registered template and every entity map
    that holds all the required entities of the template, [parse] returns the
    command with the template's action and workflow whose parameters are the
    template's defaults overridden by the entities: a key of the entities has
    the entity's value, any other key has its default. In particular the
    intent [deploy] with entities service=api, environment=production gives
    action [deploy], parameters environment=production, version=latest,
    service=api and workflow [deploy_workflow.yaml]. *)
Theorem parse_defaults_overridden_by_entities :
  (forall (intent : string) (t : template) (entities : dict),
      lookup_template _load_command_templates intent = Some t ->
      (forall r, In r (required_entities t) -> PyDict.mem r entities = true) ->
      NoDup (PyDict.keys entities) ->
      exists parameters : dict,
        parse intent entities =
          Some (mkCommand (action t) parameters (workflow_if_truthy (workflow t)))
        /\ forall k,
            PyDict.get k parameters =
              match PyDict.get k entities with
              | Some v => Some v
              | None => PyDict.get k (defaults t)
              end)
  /\ parse "deploy" [("service", VStr "api"); ("environment", VStr "production")]
     = Some (mkCommand "deploy"
               [("environment", VStr "production"); ("version", VStr "latest");
                ("service", VStr "api")]
               (Some "deploy_workflow.yaml")).
Proof.
  split; [|reflexivity].
  intros intent t entities Hlookup Hrequired Hnodup.
  unfold parse, parse_with. rewrite Hlookup.
  rewrite (first_missing_none _ _ Hrequired).
  eexists. split; [reflexivity|].
  intros k. destruct (PyDict.get k entities) as [v|] eqn:E.
  - now apply PyDictFacts.get_update_in.
  - rewrite PyDictFacts.get_update_notin by assumption.
    apply PyDictFacts.get_update_nil.
    eapply registered_defaults_nodup; eassumption.
Qed.

Lemma parse_defaults_overridden_by_entities_witness :
  exists parameters : dict,
    parse "scale" [("service", VStr "web"); ("count", VStr "3")] =
      Some (mkCommand "scale" parameters (Some "scale_workflow.yaml"))
    /\ forall k,
        PyDict.get k parameters =
          match PyDict.get k [("service", VStr "web"); ("count", VStr "3")] with
          | Some v => Some v
          | None =>
              PyDict.get k [("environment", VStr "development");
                            ("count", VStr "1"); ("direction", VStr "up")]
          end.
Proof.
  apply (proj1 parse_defaults_overridden_by_entities "scale"
           (mkTemplate "scale" ["service"] ["count"; "direction"; "environment"]
              [("environment", VStr "development"); ("count", VStr "1");
               ("direction", VStr "up")]
              (Some "scale_workflow.yaml"))
           [("service", VStr "web"); ("count", VStr "3")]).
  - reflexivity.
  - intros r [<-|[]]. reflexivity.
  - repeat constructor; simpl; intuition discriminate.
Defined.

End CommandParserFacts.

(** ** Placeholder substitution *)

Module ReplaceFacts.

Import WorkflowManager WorkflowSpec.

(** Induction on values that goes into lists and mappings. *)
Lemma value_nested_ind (P : value -> Prop) :
  P VNone ->
  (forall b, P (VBool b)) ->
  (forall z, P (VInt z)) ->
  (forall s, P (VStr s)) ->
  (forall l, Forall P l -> P (VList l)) ->
  (forall d, Forall (fun kv => P (snd kv)) d -> P (VDict d)) ->
  forall v, P v.
Proof.
  intros HNone HBool HInt HStr HList HDict.
  fix IH 1. intros [| b | z | s | l | d].
  - exact HNone.
  - apply HBool.
  - apply HInt.
  - apply HStr.
  - apply HList. induction l as [|x l IHl]; constructor; [apply IH | exact IHl].
  - apply HDict. induction d as [|[k x] d IHd]; constructor; [apply IH | exact IHd].
Qed.

Lemma endswith_app (a p : string) : PyStr.endswith (a ++ p) p = true.
Proof.
  induction a as [|c a IH]; cbn [PyStr.endswith String.append].
  - destruct p; cbn [PyStr.endswith]; now rewrite String.eqb_refl.
  - rewrite IH. apply orb_true_r.
Qed.

Lemma endswith_inv (s p : string) :
  PyStr.endswith s p = true -> exists a, s = a ++ p.
Proof.
  induction s as [|c s IH]; cbn [PyStr.endswith]; intros H.
  - apply orb_true_iff in H as [H|H]; [|discriminate].
    apply String.eqb_eq in H. subst p. now exists EmptyString.
  - apply orb_true_iff in H as [H|H].
    + apply String.eqb_eq in H. subst p. now exists EmptyString.
    + destruct (IH H) as [a ->]. now exists (String c a).
Qed.

Lemma is_placeholder_placeholder (name : string) :
  is_placeholder (placeholder name) = true.
Proof.
  unfold is_placeholder, PyStr.startswith. apply andb_true_iff. split.
  - unfold placeholder. simpl.
    repeat (destruct (ascii_dec _ _); [|congruence]).
    now destruct (name ++ "}").
  - unfold placeholder.
    change ("${" ++ name ++ "}") with (String "$" (String "{" name) ++ "}").
    apply endswith_app.
Qed.

Lemma is_placeholder_inv (s : string) :
  is_placeholder s = true -> exists name, s = placeholder name.
Proof.
  unfold is_placeholder, PyStr.startswith. intros H.
  apply andb_true_iff in H as [Hpre Hsuf].
  destruct s as [|c1 [|c2 t]]; try discriminate.
  - cbn [String.prefix] in Hpre.
    destruct (ascii_dec "$" c1); discriminate.
  - revert Hpre Hsuf. cbn [String.prefix].
  destruct (ascii_dec "$" c1) as [<-|]; [|discriminate].
  destruct (ascii_dec "{" c2) as [<-|]; [|discriminate].
  intros _ Hsuf.
  cbn [PyStr.endswith] in Hsuf.
  replace (String "$" (String "{" t) =? "}") with false in Hsuf
    by (destruct t; reflexivity).
  replace (String "{" t =? "}") with false in Hsuf by reflexivity.
  simpl in Hsuf.
  destruct (endswith_inv _ _ Hsuf) as [name ->]. now exists name.
Qed.

Lemma substring_0_app (a b : string) :
  String.substring 0 (String.length a) (a ++ b) = a.
Proof.
  induction a as [|c a IH]; simpl.
  - now destruct b.
  - now rewrite IH.
Qed.

Lemma length_app (a b : string) :
  String.length (a ++ b) = String.length a + String.length b.
Proof. induction a as [|c a IH]; simpl; [reflexivity | now rewrite IH]. Qed.

Lemma slice_placeholder (name : string) :
  PyStr.slice_2_m1 (placeholder name) = name.
Proof.
  unfold PyStr.slice_2_m1, placeholder. simpl.
  rewrite length_app. simpl.
  replace (String.length name + 1 - 1) with (String.length name) by lia.
  apply substring_0_app.
Qed.

Lemma placeholder_inj (a b : string) : placeholder a = placeholder b -> a = b.
Proof.
  intros H. rewrite <- (slice_placeholder a), <- (slice_placeholder b).
  now rewrite H.
Qed.

(** [_replace_item] computes the substitution of the specification. *)
Lemma replace_item_substituted (parameters : dict) (item : value) :
  substituted parameters item (_replace_item parameters item).
Proof.
  induction item as [| b | z | s | l IH | d IH] using value_nested_ind;
    cbn [_replace_item]; try constructor.
  - destruct (is_placeholder s) eqn:E.
    + destruct (is_placeholder_inv s E) as [name ->].
      rewrite slice_placeholder.
      destruct (PyDict.get name parameters) eqn:G; now constructor.
    + apply sub_plain. intros name ->.
      now rewrite is_placeholder_placeholder in E.
  - induction IH; simpl; constructor; auto.
  - induction IH; simpl; constructor; auto.
Qed.

Lemma Forall2_is_map {A B : Type} (R : A -> B -> Prop) (f : A -> B)
      (l : list A) (l' : list B) :
  Forall2 R l l' ->
  Forall (fun a => forall b, R a b -> b = f a) l ->
  l' = map f l.
Proof.
  induction 1 as [|a b l l' Hab _ IH]; intros HF; simpl.
  - reflexivity.
  - inversion HF; subst. f_equal; auto.
Qed.

(** Conversely the specification leaves no other choice. *)
Lemma substituted_replace_item (parameters : dict) (item v : value) :
  substituted parameters item v -> v = _replace_item parameters item.
Proof.
  revert v.
  induction item as [| b | z | s | l IH | d IH] using value_nested_ind;
    intros v H; inversion H; subst; cbn [_replace_item]; try reflexivity.
  - rewrite is_placeholder_placeholder, slice_placeholder.
    match goal with G : PyDict.get _ _ = Some _ |- _ => now rewrite G end.
  - rewrite is_placeholder_placeholder, slice_placeholder.
    match goal with G : PyDict.get _ _ = None |- _ => now rewrite G end.
  - destruct (is_placeholder s) eqn:E; [|reflexivity].
    destruct (is_placeholder_inv s E) as [name ->].
    match goal with G : forall _, _ <> _ |- _ => now destruct (G name) end.
  - f_equal. eapply Forall2_is_map; eassumption.
  - f_equal. eapply Forall2_is_map; [eassumption|].
    eapply Forall_impl; [|exact IH].
    intros [k a] Ha [k' a'] [Hk Hv]. simpl in *. subst k'. f_equal. auto.
Qed.

(** C2. Placeholder substitution does what the specification says, and
    nothing else: the dict [_replace_parameters] returns is the substitution
    of the step parameters, in which a string is replaced only when the whole
    of it is a placeholder [${name}], by the value of the command parameter
    [name] as it stands when there is one and by itself otherwise, and lists
    and mappings are substituted element by element. The function is total,
    so no input raises. A value that is itself a placeholder is inserted as
    it stands: with parameters a=${b}, b=z the step parameter ${a} becomes
    the string ${b}. *)
Theorem replace_parameters_substitutes_once :
  (forall (step_params parameters : dict) (result : dict),
      substituted parameters (VDict step_params) (VDict result) <->
      result = _replace_parameters step_params parameters)
  /\ _replace_parameters [("x", VStr "${a}")]
                         [("a", VStr "${b}"); ("b", VStr "z")]
     = [("x", VStr "${b}")].
Proof.
  split; [|reflexivity].
  intros step_params parameters result. split.
  - intros H. apply substituted_replace_item in H.
    cbn [_replace_item] in H. now inversion H.
  - intros ->.
    exact (replace_item_substituted parameters (VDict step_params)).
Qed.

End ReplaceFacts.

(** ** Step Execution Engine *)

Module EngineFacts.

Import WorkflowManager WorkflowSpec.

(** Induction on steps that goes into the branches. *)
Lemma step_nested_ind (P : step -> Prop) :
  (forall name type params cond then_steps else_steps,
      Forall P then_steps -> Forall P else_steps ->
      P (mkStep name type params cond then_steps else_steps)) ->
  forall s, P s.
Proof.
  intros H. fix IH 1. intros [name type params cond then_steps else_steps].
  apply H.
  - induction then_steps as [|t l IHl]; constructor; [apply IH | exact IHl].
  - induction else_steps as [|t l IHl]; constructor; [apply IH | exact IHl].
Qed.

Lemma below_S (depth : nat) (e : event) : below (S depth) e -> below depth e.
Proof. destruct e; simpl; [lia | trivial]. Qed.

Lemma top_steps_below (depth : nat) (events : list event) :
  Forall (below depth) events -> top_steps depth events = [].
Proof.
  induction 1 as [|e l He _ IH]; simpl; [reflexivity|].
  destruct e as [d' i name type | kind params]; simpl in *.
  - replace (d' =? depth)%nat with false by (symmetry; apply Nat.eqb_neq; lia).
    exact IH.
  - exact IH.
Qed.

Lemma top_steps_app (depth : nat) (l l' : list event) :
  top_steps depth (l ++ l') = (top_steps depth l ++ top_steps depth l')%list.
Proof. apply filter_app. Qed.

Section Continues.

Context {W : Type}.

Lemma continues_refl (depth : nat) (st : state W) : continues depth st st.
Proof. exists []. split; [now rewrite app_nil_r | constructor]. Qed.

Lemma continues_trans (depth : nat) (st1 st2 st3 : state W) :
  continues depth st1 st2 -> continues depth st2 st3 -> continues depth st1 st3.
Proof.
  intros [e1 [H1 F1]] [e2 [H2 F2]]. exists (e1 ++ e2)%list. split.
  - now rewrite H2, H1, app_assoc.
  - apply Forall_app. now split.
Qed.

Lemma continues_emit (depth : nat) (e : event) (st : state W) :
  below depth e -> continues depth st (mkState (world st) (trace st ++ [e])).
Proof. intros He. exists [e]. split; [reflexivity | now constructor]. Qed.

Lemma continues_external {A : Type} (depth : nat)
      (call : W -> outcome A * W) (st : state W) :
  continues depth st (snd (external call st)).
Proof.
  unfold external. destruct (call (world st)) as [r w']. simpl.
  exists []. split; [now rewrite app_nil_r | constructor].
Qed.

Lemma continues_deeper (depth : nat) (st st' : state W) :
  continues (S depth) st st' -> continues depth st st'.
Proof.
  intros [e [H F]]. exists e. split; [exact H|].
  eapply Forall_impl; [|exact F]. apply below_S.
Qed.

End Continues.

Section Engine.

Context {W : Type}.
Variable jenkins_trigger_job : value -> value -> value -> W -> outcome value * W.
Variable ansible_run_playbook : value -> value -> value -> W -> outcome value * W.
Variable terraform_run_terraform :
  value -> value -> value -> value -> W -> outcome value * W.
Variable type_error : string -> value -> value -> string.
Variable py_repr : value -> string.

Local Abbreviation run_step' :=
  (run_step jenkins_trigger_job ansible_run_playbook terraform_run_terraform
            type_error py_repr).
Local Abbreviation run_steps' :=
  (run_steps jenkins_trigger_job ansible_run_playbook terraform_run_terraform
             type_error py_repr).
Local Abbreviation _execute_workflow' :=
  (_execute_workflow jenkins_trigger_job ansible_run_playbook
                     terraform_run_terraform type_error py_repr).
Local Abbreviation nested_call' :=
  (nested_call jenkins_trigger_job ansible_run_playbook terraform_run_terraform
               type_error py_repr).
Local Abbreviation dispatch' :=
  (dispatch jenkins_trigger_job ansible_run_playbook terraform_run_terraform
            type_error py_repr).
Local Abbreviation _execute_condition_step' :=
  (_execute_condition_step jenkins_trigger_job ansible_run_playbook
                           terraform_run_terraform type_error py_repr).

Lemma run_step_eq (depth : nat) (parameters : dict) (i : nat) (s : step)
      (results : list step_result) (st : state W) :
  run_step' depth parameters i s results st =
  match dispatch' depth parameters s results (taken_up depth i s st) with
  | (Returned result, st') =>
      (Returned ((results ++ [mkResult i (step_name_at i s) (step_type_of s) result])%list,
                 is_failure result), st')
  | (Raised e, st') =>
      (Returned ((results ++ [mkResult i (step_name_at i s) (step_type_of s) (failure e)])%list,
                 true), st')
  end.
Proof.
  destruct s as [name type params cond then_steps else_steps].
  cbn [run_step]. unfold bind at 1. unfold emit at 1.
  unfold try_except, taken_up.
  unfold bind at 1.
  fold (nested_call' depth parameters).
  unfold dispatch.
  match goal with
  | |- context [match ?c ?st with _ => _ end] => destruct (c st) as [[result|e] st']
  end; reflexivity.
Qed.

(** The nested invocation in [run_step] is [_execute_workflow] on the
    one-step workflow. *)
Lemma nested_call_eq (depth : nat) (parameters : dict) (t : step) (st : state W) :
  nested_call' depth parameters t st =
  _execute_workflow' (S depth) (mkWorkflow None [t]) parameters st.
Proof.
  unfold nested_call, _execute_workflow. cbn [wf_steps wf_name or_default run_steps].
  unfold bind, ret.
  destruct (run_step' (S depth) parameters 1 t [] st) as [[[results stop]|e] st'];
    [|reflexivity].
  cbn [fst snd]. now destruct stop.
Qed.

Lemma run_branch_ext (f g : step -> exec W string) (steps : list step) :
  (forall t st, f t st = g t st) ->
  forall st, run_branch f steps st = run_branch g steps st.
Proof.
  intros Hfg. induction steps as [|t rest IH]; intros st; cbn [run_branch].
  - reflexivity.
  - unfold bind. rewrite Hfg. destruct (g t st) as [[r|e] st']; auto.
Qed.

Lemma condition_step_with_ext (f g : step -> exec W string) (s : step)
      (parameters : dict) (results : list step_result) :
  (forall t st, f t st = g t st) ->
  forall st,
    _execute_condition_step_with type_error f s parameters results st =
    _execute_condition_step_with type_error g s parameters results st.
Proof.
  intros Hfg st. unfold _execute_condition_step_with.
  repeat match goal with
         | |- context [if ?b then _ else _] => destruct b
         | |- context [match ?x with _ => _ end] =>
             lazymatch x with
             | context [run_branch] => fail
             | _ => destruct x
             end
         end; try reflexivity;
    unfold bind;
    repeat match goal with
           | |- context [match ?x with _ => _ end] =>
               lazymatch x with
               | context [run_branch] => fail
               | _ => destruct x
               end
           end; try reflexivity;
    rewrite (run_branch_ext f g _ Hfg); reflexivity.
Qed.

(** In [run_step] a condition step is handed to [_execute_condition_step]. *)
Lemma dispatch_condition (depth : nat) (parameters : dict) (s : step)
      (results : list step_result) (st : state W) :
  step_type_of s = "condition" ->
  dispatch' depth parameters s results st =
  _execute_condition_step' depth s parameters results st.
Proof.
  intros Htype. unfold dispatch, _execute_condition_step. rewrite Htype.
  cbn [String.eqb Ascii.eqb Bool.eqb].
  apply condition_step_with_ext. apply nested_call_eq.
Qed.

(** *** Every step returns, and leaves only nested events behind *)

Lemma emit_then_continues {A : Type} (depth : nat) (e : event) (c : exec W A)
      (st : state W) :
  below depth e ->
  (forall st1, continues depth st1 (snd (c st1))) ->
  continues depth st (snd ((emit e ;; c)%exec st)).
Proof.
  intros He Hc. unfold bind, emit.
  eapply continues_trans; [apply (continues_emit depth e st He)|].
  apply Hc.
Qed.

Lemma jenkins_step_continues (depth : nat) (params : dict) (st : state W) :
  continues depth st (snd (_execute_jenkins_step jenkins_trigger_job params st)).
Proof.
  unfold _execute_jenkins_step.
  destruct (negb _); [apply continues_refl | apply continues_external].
Qed.

Lemma ansible_step_continues (depth : nat) (params : dict) (st : state W) :
  continues depth st (snd (_execute_ansible_step ansible_run_playbook params st)).
Proof.
  unfold _execute_ansible_step.
  destruct (negb _); [apply continues_refl | apply continues_external].
Qed.

Lemma terraform_step_continues (depth : nat) (params : dict) (st : state W) :
  continues depth st
            (snd (_execute_terraform_step terraform_run_terraform params st)).
Proof. unfold _execute_terraform_step. apply continues_external. Qed.

Lemma run_branch_returns (depth : nat) (nested : step -> exec W string)
      (steps : list step) :
  Forall (tame depth nested) steps ->
  forall st, exists st',
      run_branch nested steps st = (Returned tt, st') /\ continues depth st st'.
Proof.
  induction 1 as [|t rest Ht _ IH]; intros st; cbn [run_branch].
  - exists st. split; [reflexivity | apply continues_refl].
  - unfold bind. destruct (Ht st) as (r & st1 & -> & H1).
    destruct (IH st1) as (st2 & -> & H2).
    exists st2. split; [reflexivity|]. eapply continues_trans; eassumption.
Qed.

Lemma branch_then_continues (depth : nat) (nested : step -> exec W string)
      (steps : list step) (v : value) (st : state W) :
  Forall (tame depth nested) steps ->
  continues depth st (snd ((run_branch nested steps ;; ret v)%exec st)).
Proof.
  intros H. unfold bind, ret.
  destruct (run_branch_returns depth nested steps H st) as (st' & -> & Hc).
  exact Hc.
Qed.

Lemma condition_step_continues (depth : nat) (nested : step -> exec W string)
      (s : step) (parameters : dict) (results : list step_result) (st : state W) :
  Forall (tame depth nested) (step_then s) ->
  Forall (tame depth nested) (step_else s) ->
  continues depth st
    (snd (_execute_condition_step_with type_error nested s parameters results st)).
Proof.
  intros Hthen Helse. unfold _execute_condition_step_with.
  repeat match goal with
         | |- context [if ?b then _ else _] =>
             lazymatch b with
             | context [run_branch] => fail
             | _ => destruct b
             end
         | |- context [match ?x with _ => _ end] =>
             lazymatch x with
             | context [run_branch] => fail
             | _ => destruct x
             end
         end;
    try apply continues_refl;
    try (apply branch_then_continues; assumption).
  all: unfold bind at 1;
    destruct (_evaluate_condition _ _ _ _) as [[|]|e];
    try apply continues_refl;
    apply branch_then_continues; assumption.
Qed.

(** The loop body never raises: it returns the results with one entry
    appended for the step, the flag tells whether that entry is a failure,
    and whatever happened inside the step left only nested events. *)
Lemma run_step_returns (s : step) :
  forall (depth : nat) (parameters : dict) (i : nat)
         (results : list step_result) (st : state W),
  exists (result : value) (st' : state W),
    run_step' depth parameters i s results st =
      (Returned ((results ++ [mkResult i (step_name_at i s) (step_type_of s) result])%list,
                 is_failure result), st')
    /\ continues depth (taken_up depth i s st) st'.
Proof.
  induction s as [name type params cond then_steps else_steps IHthen IHelse]
    using step_nested_ind.
  intros depth parameters i results st.
  rewrite run_step_eq.
  set (s := mkStep name type params cond then_steps else_steps).
  assert (Hnested : forall l,
             Forall (fun t => forall depth parameters i results st,
                         exists result st',
                           run_step' depth parameters i t results st =
                             (Returned ((results ++ [mkResult i (step_name_at i t) (step_type_of t) result])%list,
                                        is_failure result), st')
                           /\ continues depth (taken_up depth i t st) st') l ->
             Forall (tame depth (nested_call' depth parameters)) l).
  { intros l Hl. eapply Forall_impl; [|exact Hl].
    intros t Ht st0. unfold nested_call, bind, ret.
    destruct (Ht (S depth) parameters 1 [] st0) as (result & st1 & -> & Hc).
    eexists. exists st1. split; [reflexivity|].
    apply continues_deeper in Hc.
    eapply continues_trans; [|exact Hc].
    apply continues_emit. simpl. lia. }
  assert (Hd : continues depth (taken_up depth i s st)
                 (snd (dispatch' depth parameters s results (taken_up depth i s st)))).
  { generalize (taken_up depth i s st). intros st1.
    unfold dispatch.
    repeat match goal with
           | |- context [if ?b then _ else _] => destruct b
           end.
    - apply emit_then_continues; [exact I|]. apply jenkins_step_continues.
    - apply emit_then_continues; [exact I|]. apply ansible_step_continues.
    - apply emit_then_continues; [exact I|]. apply terraform_step_continues.
    - apply condition_step_continues; apply Hnested; assumption.
    - apply emit_then_continues; [exact I|]. intros st2. apply continues_refl.
    - apply continues_refl. }
  destruct (dispatch' depth parameters s results (taken_up depth i s st))
    as [[result|e] st'].
  - exists result, st'. split; [reflexivity | exact Hd].
  - exists (failure e), st'. split; [reflexivity | exact Hd].
Qed.

Lemma nested_call_tame (depth : nat) (parameters : dict) (t : step) :
  tame depth (nested_call' depth parameters) t.
Proof.
  intros st. unfold nested_call, bind, ret.
  destruct (run_step_returns t (S depth) parameters 1 [] st)
    as (result & st1 & -> & Hc).
  eexists. exists st1. split; [reflexivity|].
  apply continues_deeper in Hc.
  eapply continues_trans; [|exact Hc].
  apply continues_emit. simpl. lia.
Qed.

(** *** The loop over the steps *)

(** What the loop of [_execute_workflow] guarantees from any point on: it
    returns; the new results are one per step taken up, in order; only the
    last of them can be a failure, and it is one when steps are left over. *)
Lemma run_steps_spec (depth : nat) (parameters : dict) (steps : list step) :
  forall (i : nat) (results : list step_result) (st : state W),
  exists (new : list step_result) (events : list event) (st' : state W),
    run_steps' depth parameters i steps results st =
      (Returned (results ++ new)%list, st')
    /\ trace st' = (trace st ++ events)%list
    /\ top_steps depth events = map (event_of_result depth) new
    /\ map (event_of_result depth) new =
         step_events depth i (firstn (List.length new) steps)
    /\ (forall k r, nth_error new k = Some r ->
                    is_failure (res_result r) = true -> List.length new = S k)
    /\ (List.length new = List.length steps \/
        exists r, nth_error new (List.length new - 1) = Some r /\
                  is_failure (res_result r) = true).
Proof.
  induction steps as [|s rest IH]; intros i results st.
  - exists [], [], st. cbn [run_steps]. unfold ret.
    rewrite !app_nil_r. repeat split; auto.
    intros [|k] r H; discriminate.
  - cbn [run_steps]. unfold bind.
    destruct (run_step_returns s depth parameters i results st)
      as (result & st1 & -> & inner & Htrace & Hinner).
    cbn [fst snd]. cbn [taken_up trace] in Htrace.
    set (r0 := mkResult i (step_name_at i s) (step_type_of s) result).
    assert (Htop : top_steps depth
                     ([EvStep depth i (step_name_at i s) (step_type_of s)] ++ inner)
                   = [event_of_result depth r0]).
    { rewrite top_steps_app, (top_steps_below _ _ Hinner), app_nil_r.
      cbn. now rewrite Nat.eqb_refl. }
    destruct (is_failure result) eqn:Hfail.
    + exists [r0], ([EvStep depth i (step_name_at i s) (step_type_of s)] ++ inner)%list, st1.
      unfold ret. repeat split.
      * now rewrite Htrace, <- app_assoc.
      * exact Htop.
      * intros [|[|k]] r H; try discriminate. reflexivity.
      * right. exists r0. split; [reflexivity | exact Hfail].
    + destruct (IH (S i) (results ++ [r0])%list st1)
        as (new & events & st' & -> & Htrace' & Htop' & Hsteps' & Hlast' & Hend').
      exists (r0 :: new),
        (([EvStep depth i (step_name_at i s) (step_type_of s)] ++ inner) ++ events)%list,
        st'.
      repeat split.
      * now rewrite <- app_assoc.
      * rewrite Htrace', Htrace. now rewrite <- !app_assoc.
      * rewrite top_steps_app, Htop, Htop'. reflexivity.
      * cbn [map List.length firstn step_events]. now rewrite Hsteps'.
      * intros [|k] r H Hr; cbn [nth_error] in H.
        -- inversion H; subst r. cbn [res_result r0] in Hr. congruence.
        -- cbn [List.length]. f_equal. eapply Hlast'; eassumption.
      * destruct Hend' as [Hlen | (r & Hr & Hf)].
        -- left. cbn [List.length]. now rewrite Hlen.
        -- right. exists r. split; [|exact Hf].
           destruct new as [|r1 new]; [discriminate|].
           cbn [List.length] in *.
           replace (S (S (List.length new)) - 1) with (S (List.length new)) by lia.
           replace (S (List.length new) - 1) with (List.length new) in Hr by lia.
           exact Hr.
Qed.

(** [_execute_workflow] formats the results its loop gathered. *)
Lemma execute_workflow_formats (depth : nat) (wf : workflow) (parameters : dict)
      (st st' : state W) (results : list step_result) :
  wf_steps wf <> [] ->
  run_steps' depth parameters 1 (wf_steps wf) [] st = (Returned results, st') ->
  _execute_workflow' depth wf parameters st =
    (Returned (_format_workflow_result py_repr
                 (or_default (wf_name wf) "Unnamed workflow") results), st').
Proof.
  intros Hne Hrun. unfold _execute_workflow.
  destruct (wf_steps wf) as [|s rest]; [congruence|].
  unfold bind. now rewrite Hrun.
Qed.

(** *** Condition steps *)

Local Abbreviation invoke depth parameters :=
  (fun t : step => _execute_workflow' (S depth) (mkWorkflow None [t]) parameters).

Lemma invoke_tame (depth : nat) (parameters : dict) (t : step) :
  tame depth (invoke depth parameters) t.
Proof.
  intros st. rewrite <- nested_call_eq. apply nested_call_tame.
Qed.

(** A branch always runs to its end, whatever its steps do. *)
Lemma branch_runs (depth : nat) (parameters : dict) (steps : list step)
      (st : state W) :
  exists st',
    run_branch (invoke depth parameters) steps st = (Returned tt, st')
    /\ continues depth st st'.
Proof.
  apply run_branch_returns. apply Forall_forall. intros t _. apply invoke_tame.
Qed.

(** A condition step whose predicate is evaluated runs the selected branch
    and reports success. *)
Lemma fired_condition_step (depth : nat) (parameters : dict) (s : step)
      (results : list step_result) (b : bool) (st : state W) :
  fires type_error s parameters results b ->
  exists st',
    run_branch (invoke depth parameters)
               (if b then step_then s else step_else s) st = (Returned tt, st')
    /\ _execute_condition_step' depth s parameters results st =
         (Returned (success (branch_message b)), st').
Proof.
  intros Hf.
  destruct (branch_runs depth parameters (if b then step_then s else step_else s) st)
    as (st' & Hrun & _).
  exists st'. split; [exact Hrun|].
  unfold _execute_condition_step, _execute_condition_step_with.
  destruct Hf as [c name actual b Hc Htype Hname Hget Heval
                 | c r d Hc Htype Hpos Hnth Hres].
  - rewrite Hc. cbn [or_default]. rewrite Htype, Hname. cbn [or_default].
    rewrite Hget. cbn [String.eqb Ascii.eqb Bool.eqb].
    unfold bind at 1. rewrite Heval.
    destruct b; unfold bind, ret; cbn [branch_message] in *; now rewrite Hrun.
  - rewrite Hc. cbn [or_default]. rewrite Htype. cbn [or_default].
    cbn [String.eqb Ascii.eqb Bool.eqb].
    assert (Hlt : (Z.to_nat (or_default (cond_step c) 1%Z - 1) < List.length results)%nat)
      by (apply nth_error_Some; congruence).
    replace ((or_default (cond_step c) 1 - 1 <? 0)%Z) with false
      by (symmetry; apply Z.ltb_ge; lia).
    replace ((or_default (cond_step c) 1 - 1 >=? Z.of_nat (List.length results))%Z)
      with false by (symmetry; rewrite Z.geb_leb; apply Z.leb_gt; lia).
    cbn [orb]. rewrite Hnth, Hres.
    destruct (Py.truthy (PyDict.get_default "success" (VBool false) d));
      unfold bind, ret; cbn [branch_message] in *; now rewrite Hrun.
Qed.

(** The loop body on a condition step whose predicate is evaluated. *)
Lemma run_step_fired_condition (depth : nat) (parameters : dict) (i : nat)
      (s : step) (results : list step_result) (b : bool) (st : state W) :
  step_type_of s = "condition" ->
  fires type_error s parameters results b ->
  exists st',
    run_branch (invoke depth parameters)
               (if b then step_then s else step_else s)
               (taken_up depth i s st) = (Returned tt, st')
    /\ run_step' depth parameters i s results st =
         (Returned ((results ++
                     [mkResult i (step_name_at i s) "condition"
                               (success (branch_message b))])%list, false), st').
Proof.
  intros Htype Hf.
  destruct (fired_condition_step depth parameters s results b
              (taken_up depth i s st) Hf) as (st' & Hrun & Hstep).
  exists st'. split; [exact Hrun|].
  rewrite run_step_eq, dispatch_condition by exact Htype.
  rewrite Hstep, Htype. reflexivity.
Qed.

(** When the loop body does not stop, the loop goes on with the next step. *)
Lemma run_steps_goes_on (depth : nat) (parameters : dict) (i : nat) (s : step)
      (rest : list step) (results results' : list step_result)
      (st st' : state W) :
  run_step' depth parameters i s results st = (Returned (results', false), st') ->
  run_steps' depth parameters i (s :: rest) results st =
  run_steps' depth parameters (S i) rest results' st'.
Proof.
  intros H. cbn [run_steps]. unfold bind. now rewrite H.
Qed.

Lemma known_kind_false (type : string) :
  known_kind type = false ->
  (type =? "jenkins") = false /\ (type =? "ansible") = false /\
  (type =? "terraform") = false /\ (type =? "condition") = false /\
  (type =? "notification") = false.
Proof.
  unfold known_kind. intros H.
  repeat (apply orb_false_iff in H as [H ?]). auto.
Qed.

Lemma result_numbers (depth : nat) (results : list step_result) :
  forall (i : nat) (steps : list step),
    map (event_of_result depth) results = step_events depth i steps ->
    map res_step results = seq i (List.length results).
Proof.
  induction results as [|r rest IH]; intros i steps H.
  - reflexivity.
  - destruct steps as [|s steps]; [discriminate|].
    cbn in H. inversion H. cbn. f_equal. eapply IH. eassumption.
Qed.

(** *** The claims about the engine *)

(** C1. Every execution of the loop of [_execute_workflow] returns a list of
    results, and when one of them is a failure (a dict whose [success] is
    false) it is the last one: no result with a higher index exists, and the
    steps the invocation has taken up are exactly the steps up to the failed
    one, so that no later top-level step is dispatched. The text
    [_execute_workflow] returns is the report of these results. *)
Theorem first_failure_halts_workflow
        (depth : nat) (wf : workflow) (parameters : dict) (st : state W) :
  exists (results : list step_result) (events : list event) (st' : state W),
    run_steps' depth parameters 1 (wf_steps wf) [] st = (Returned results, st')
    /\ (wf_steps wf <> [] ->
        _execute_workflow' depth wf parameters st =
          (Returned (_format_workflow_result py_repr
                       (or_default (wf_name wf) "Unnamed workflow") results), st'))
    /\ trace st' = (trace st ++ events)%list
    /\ forall k r,
        nth_error results k = Some r ->
        is_failure (res_result r) = true ->
        List.length results = S k
        /\ top_steps depth events = step_events depth 1 (firstn (S k) (wf_steps wf)).
Proof.
  destruct (run_steps_spec depth parameters (wf_steps wf) 1 [] st)
    as (results & events & st' & Hrun & Htrace & Htop & Hsteps & Hlast & _).
  cbn [app] in Hrun.
  exists results, events, st'. repeat split; try assumption.
  - intros Hne. now apply execute_workflow_formats.
  - eapply Hlast; eassumption.
  - rewrite Htop, Hsteps. now rewrite (Hlast k r) by assumption.
Qed.

Lemma all_success_overall (results : list step_result) :
  all_success results = overall_success results.
Proof.
  induction results as [|r rest IH]; [reflexivity|].
  cbn [all_success overall_success forallb]. fold (overall_success rest).
  rewrite <- IH. unfold recorded_success, is_failure.
  destruct (res_result r) as [| | | |l|d]; try reflexivity.
  unfold PyDict.get_default.
  destruct (PyDict.get "success" d) as [flag|]; [|reflexivity].
  now destruct (Py.truthy flag).
Qed.

Lemma format_step_line (r : step_result) :
  format_step py_repr r = report_line py_repr r.
Proof.
  unfold format_step, report_line, result_mark, result_text, recorded_success.
  destruct (res_result r) as [| | | |l|d]; try reflexivity.
  unfold PyDict.get_default.
  destruct (PyDict.get "success" d) as [flag|];
    destruct (PyDict.get "message" d) as [message|]; reflexivity.
Qed.

(** The formatter writes the report the specification describes. *)
Lemma format_is_report (workflow_name : string) (results : list step_result) :
  _format_workflow_result py_repr workflow_name results =
  report py_repr workflow_name results.
Proof.
  unfold _format_workflow_result, report.
  rewrite all_success_overall.
  now rewrite (map_ext _ _ format_step_line).
Qed.

(** The head of the report shows the overall success. *)
Lemma report_head (workflow_name : string) (results : list step_result) :
  String.prefix "✅" (report py_repr workflow_name results) =
  overall_success results.
Proof.
  unfold report. now destruct (overall_success results).
Qed.

(** C7, as the code has it. The text [_execute_workflow] returns is the
    report of the results its loop recorded: headed as completed
    successfully exactly when every recorded result has its success flag (a
    result that is no mapping, or that carries no flag, counting as a
    success), followed by one line per recorded result, in order. The
    recorded results are, one for one and in order, the steps this invocation
    took up itself: a prefix of the declared steps, numbered from 1, whatever
    the kind and the outcome of each step. The steps of a [then] or [else]
    branch are taken up by nested invocations and have no result in this
    report. *)
Theorem report_lists_the_top_level_steps_in_order
        (depth : nat) (wf : workflow) (parameters : dict) (st : state W) :
  wf_steps wf <> [] ->
  exists (results : list step_result) (events : list event) (st' : state W),
    run_steps' depth parameters 1 (wf_steps wf) [] st = (Returned results, st')
    /\ _execute_workflow' depth wf parameters st =
         (Returned (report py_repr (or_default (wf_name wf) "Unnamed workflow")
                           results), st')
    /\ String.prefix "✅" (report py_repr
                                  (or_default (wf_name wf) "Unnamed workflow")
                                  results)
       = overall_success results
    /\ trace st' = (trace st ++ events)%list
    /\ top_steps depth events = map (event_of_result depth) results
    /\ map (event_of_result depth) results =
         step_events depth 1 (firstn (List.length results) (wf_steps wf))
    /\ map res_step results = seq 1 (List.length results).
Proof.
  intros Hne.
  destruct (run_steps_spec depth parameters (wf_steps wf) 1 [] st)
    as (results & events & st' & Hrun & Htrace & Htop & Hsteps & _).
  cbn [app] in Hrun.
  exists results, events, st'. repeat split; try assumption.
  - rewrite <- format_is_report. now apply execute_workflow_formats.
  - apply report_head.
  - eapply result_numbers. eassumption.
Qed.

(** C3, as the code has it. A step whose type is none of the five kinds the
    loop knows raises no error: the text [Unknown step type: <type>] is
    recorded as its result, which is no failure, and the loop goes on with
    the next step. *)
Theorem unknown_step_kind_is_recorded_and_passed
        (depth : nat) (parameters : dict) (i : nat) (s : step) (rest : list step)
        (results : list step_result) (st : state W) :
  known_kind (step_type_of s) = false ->
  let entry := mkResult i (step_name_at i s) (step_type_of s)
                        (VStr ("Unknown step type: " ++ step_type_of s)) in
  run_step' depth parameters i s results st =
    (Returned ((results ++ [entry])%list, false), taken_up depth i s st)
  /\ is_failure (res_result entry) = false
  /\ run_steps' depth parameters i (s :: rest) results st =
       run_steps' depth parameters (S i) rest (results ++ [entry])%list
                  (taken_up depth i s st).
Proof.
  intros Hkind entry.
  assert (Hstep : run_step' depth parameters i s results st =
                    (Returned ((results ++ [entry])%list, false),
                     taken_up depth i s st)).
  { rewrite run_step_eq. unfold dispatch.
    destruct (known_kind_false _ Hkind) as (-> & -> & -> & -> & ->).
    reflexivity. }
  split; [exact Hstep|]. split; [reflexivity|].
  now apply run_steps_goes_on.
Qed.

Lemma unknown_operator_false (operator : string) (actual expected : value) :
  known_operator operator = false ->
  _evaluate_condition type_error actual expected operator = Returned false.
Proof.
  unfold known_operator. intros H.
  repeat (apply orb_false_iff in H as [H ?]).
  unfold _evaluate_condition.
  repeat match goal with E : (operator =? _) = false |- _ => rewrite E; clear E end.
  reflexivity.
Qed.

(** C4, as the code has it. A condition step that compares a parameter with
    [eq] to a value equal to it (count="3" against "3") selects the [then]
    branch: each step of the branch is run as a one-step workflow of its own,
    in order; the report of the enclosing workflow receives the result of the
    condition step alone, success with the message [Condition evaluated to
    true], and none of the results of the branch; and the run is the same
    whatever the [else] branch holds, so no step of it is dispatched. *)
Theorem true_condition_runs_then_branch_only
        (depth : nat) (parameters : dict) (i : nat) (s : step) (c : condition)
        (name : string) (actual : value) (results : list step_result)
        (st : state W) :
  step_type_of s = "condition" ->
  step_condition s = Some c ->
  cond_type c = Some "parameter" ->
  cond_parameter c = Some name ->
  or_default (cond_operator c) "eq" = "eq" ->
  PyDict.get name parameters = Some actual ->
  Py.eq actual (or_default (cond_value c) VNone) = true ->
  exists st',
    run_branch (fun t => _execute_workflow' (S depth) (mkWorkflow None [t]) parameters)
               (step_then s) (taken_up depth i s st) = (Returned tt, st')
    /\ forall else_steps,
        run_step' depth parameters i (with_else s else_steps) results st =
          (Returned ((results ++
                      [mkResult i (step_name_at i s) "condition"
                                (success "Condition evaluated to true")])%list,
                     false), st').
Proof.
  intros Htype Hc Hctype Hname Hop Hget Heq.
  destruct (branch_runs depth parameters (step_then s) (taken_up depth i s st))
    as (st' & Hrun & _).
  exists st'. split; [exact Hrun|].
  intros else_steps.
  assert (Hf : fires type_error (with_else s else_steps) parameters results true).
  { apply (fires_parameter _ _ _ _ c name actual true); try assumption.
    rewrite Hop. unfold _evaluate_condition. cbn [String.eqb Ascii.eqb Bool.eqb].
    now rewrite Heq. }
  destruct (run_step_fired_condition depth parameters i (with_else s else_steps)
              results true st Htype Hf) as (st2 & Hrun2 & Hstep).
  change (run_branch (invoke depth parameters) (step_then s)
                     (taken_up depth i s st) = (Returned tt, st2)) in Hrun2.
  rewrite Hrun in Hrun2. inversion Hrun2; subst st2.
  exact Hstep.
Qed.

(** C10. For an operator outside eq, ne, gt, lt, ge, le, contains and
    not_contains, [_evaluate_condition] returns false for every pair of
    values and raises nothing; a parameter condition with such an operator
    on a parameter that exists therefore runs the [else] branch and is
    recorded with success and the message [Condition evaluated to false]. *)
Theorem unknown_operator_selects_else_branch (operator : string) :
  known_operator operator = false ->
  (forall actual expected,
      _evaluate_condition type_error actual expected operator = Returned false)
  /\ forall (depth : nat) (parameters : dict) (i : nat) (s : step)
            (c : condition) (name : string) (actual : value)
            (results : list step_result) (st : state W),
      step_type_of s = "condition" ->
      step_condition s = Some c ->
      cond_type c = Some "parameter" ->
      cond_parameter c = Some name ->
      cond_operator c = Some operator ->
      PyDict.get name parameters = Some actual ->
      exists st',
        run_branch (fun t => _execute_workflow' (S depth) (mkWorkflow None [t]) parameters)
                   (step_else s) (taken_up depth i s st) = (Returned tt, st')
        /\ run_step' depth parameters i s results st =
             (Returned ((results ++
                         [mkResult i (step_name_at i s) "condition"
                                   (success "Condition evaluated to false")])%list,
                        false), st').
Proof.
  intros Hop. split.
  - intros actual expected. now apply unknown_operator_false.
  - intros depth parameters i s c name actual results st
           Htype Hc Hctype Hname Hcop Hget.
    apply (run_step_fired_condition depth parameters i s results false st Htype).
    apply (fires_parameter _ _ _ _ c name actual false); try assumption.
    rewrite Hcop. cbn [or_default]. now apply unknown_operator_false.
Qed.

End Engine.

End EngineFacts.

(** ** Pipeline and Authorization Gate *)

Module AppFacts.

Import ChatOpsApp.

Section Pipeline.

Variable score : Type.
Variable score_ltb : score -> score -> bool.
Variable sec : security.
Variable confidence_threshold : score.
Variable nlp_process : string -> string * dict * score.
Variable workflow_manager_execute : CommandParser.command -> outcome string.

Local Abbreviation process_message' :=
  (process_message score score_ltb sec confidence_threshold nlp_process
                   workflow_manager_execute).

Lemma unauthorized_denied (user_id message : string) :
  list_mem user_id (authorized_users sec) = false ->
  _is_user_authorized sec user_id message = false.
Proof. intros H. unfold _is_user_authorized. now rewrite H. Qed.

(** C9. A user outside the list of authorized users is denied whatever the
    message says: [_is_user_authorized] is false for any two messages, and
    the pipeline gives both the same reply after the membership test alone. *)
Theorem unauthorized_user_denied_whatever_the_message
        (user_id message1 message2 channel1 channel2 : string) :
  list_mem user_id (authorized_users sec) = false ->
  _is_user_authorized sec user_id message1 = false
  /\ _is_user_authorized sec user_id message2 = false
  /\ process_message' message1 user_id channel1 =
       ("You are not authorized to perform this action.", [CallIsUserAuthorized])
  /\ process_message' message2 user_id channel2 =
       process_message' message1 user_id channel1.
Proof.
  intros H.
  pose proof (unauthorized_denied user_id message1 H) as H1.
  pose proof (unauthorized_denied user_id message2 H) as H2.
  unfold process_message. rewrite H1, H2. auto.
Qed.

(** C8, as the code has it. When the entities found in a message lack an
    entity the template of the intent requires, [parse] returns no command
    and the pipeline replies that it could not understand the command. The
    authorization test has run first, before the resolver and the Command
    Builder; the approval test and the workflow manager are not called. *)
Theorem missing_entity_rejected_after_authorization
        (message user_id channel_id intent : string) (entities : dict)
        (confidence : score) (t : CommandParser.template) (r : string) :
  _is_user_authorized sec user_id message = true ->
  nlp_process message = (intent, entities, confidence) ->
  score_ltb confidence confidence_threshold = false ->
  CommandParser.lookup_template CommandParser._load_command_templates intent = Some t ->
  In r (CommandParser.required_entities t) ->
  PyDict.mem r entities = false ->
  CommandParser.parse intent entities = None
  /\ process_message' message user_id channel_id =
       ("I couldn't understand your command. Please try again.",
        [CallIsUserAuthorized; CallNlpProcess; CallCommandParser]).
Proof.
  intros Hauth Hnlp Hconf Hlookup Hin Hmem.
  assert (Hparse : CommandParser.parse intent entities = None).
  { unfold CommandParser.parse, CommandParser.parse_with. rewrite Hlookup.
    destruct (CommandParserFacts.first_missing_some _ _ _ Hin Hmem) as [r' ->].
    reflexivity. }
  split; [exact Hparse|].
  unfold process_message. now rewrite Hauth, Hnlp, Hconf, Hparse.
Qed.

End Pipeline.

End AppFacts.

(** ** The properties on the sample workflows *)

Module ScenarioFacts.

Import WorkflowManager WorkflowSpec Scenarios.

(** Scenario B: the report has the two results of [build] and [configure],
    and [announce] is not taken up. *)
Lemma first_failure_halts_workflow_witness :
  exists (results : list step_result) (events : list event) (st' : state unit),
    run_steps_here 0 deploy_parameters 1 (wf_steps scenario_b) [] start =
      (Returned results, st')
    /\ trace st' = (trace start ++ events)%list
    /\ List.length results = 2
    /\ top_steps 0 events = step_events 0 1 [build; configure].
Proof.
  destruct (EngineFacts.first_failure_halts_workflow
              jenkins_ok ansible_fails terraform_ok type_error py_repr
              0 scenario_b deploy_parameters start)
    as (results & events & st' & Hrun & _ & Htrace & Hhalt).
  exists results, events, st'.
  split; [exact Hrun|]. split; [exact Htrace|].
  apply (Hhalt 1 (mkResult 2 "configure" "ansible"
                           (failure "Playbook failed with return code 2"))).
  - vm_compute in Hrun. inversion Hrun. reflexivity.
  - reflexivity.
Defined.

(** Scenario B: the report is headed as failed and has the lines of [build]
    and [configure], the two steps taken up. *)
Lemma report_lists_the_top_level_steps_in_order_witness :
  let results :=
    [mkResult 1 "build" "jenkins" (success "Job triggered");
     mkResult 2 "configure" "ansible"
              (failure "Playbook failed with return code 2")] in
  exists events : list event,
    _execute_workflow jenkins_ok ansible_fails terraform_ok type_error py_repr
                      0 scenario_b deploy_parameters start =
      (Returned (report py_repr "deploy" results), mkState tt events)
    /\ report py_repr "deploy" results =
         "❌ Workflow 'deploy' failed" ++ PyStr.nl ++ PyStr.nl ++
         "Steps:" ++ PyStr.nl ++
         "  ✅ Step 1: build (jenkins) - Job triggered" ++ PyStr.nl ++
         "  ❌ Step 2: configure (ansible) - Playbook failed with return code 2"
         ++ PyStr.nl
    /\ String.prefix "✅" (report py_repr "deploy" results) = false
    /\ overall_success results = false
    /\ top_steps 0 events = [EvStep 0 1 "build" "jenkins";
                             EvStep 0 2 "configure" "ansible"]
    /\ map res_step results = [1; 2].
Proof.
  destruct (EngineFacts.report_lists_the_top_level_steps_in_order
              jenkins_ok ansible_fails terraform_ok type_error py_repr
              0 scenario_b deploy_parameters start ltac:(discriminate))
    as (results & events & st' & Hrun & Hreport & Hhead & Htrace & Htop & _ & Hnum).
  vm_compute in Hrun. inversion Hrun; subst results st'; clear Hrun.
  cbn [trace start app] in Htrace. subst events.
  eexists. split; [exact Hreport|]. split; [reflexivity|].
  split; [exact (eq_trans Hhead eq_refl)|].
  split; [reflexivity|]. split; [exact Htop | exact Hnum].
Defined.

(** C7 as stated fails: in a condition step whose [then] branch holds the
    step [configure], that step is dispatched, reaches its integration and
    fails, yet the report has no result for it, and is headed as completed
    successfully. *)
Lemma dispatched_branch_step_has_no_result :
  let results :=
    [mkResult 1 "check" "condition" (success "Condition evaluated to true");
     mkResult 2 "after" "notification" (success "Notification sent: x")] in
  _execute_workflow jenkins_ok ansible_fails terraform_ok type_error py_repr
                    0 (mkWorkflow (Some "scale")
                                  [check_then_fail; notify "after" "x"])
                    scale_parameters start =
    (Returned (report py_repr "scale" results),
     mkState tt [EvStep 0 1 "check" "condition";
                 EvStep 1 1 "configure" "ansible";
                 EvAdapter "ansible" [("playbook", VStr "site.yml")];
                 EvStep 0 2 "after" "notification";
                 EvAdapter "notification" [("message", VStr "x")]])
  /\ ansible_fails (VStr "site.yml") VNone (VDict []) tt =
       (Returned (failure "Playbook failed with return code 2"), tt)
  /\ existsb (fun r => res_name r =? "configure") results = false
  /\ overall_success results = true.
Proof. repeat split. Qed.

Lemma unknown_step_kind_is_recorded_and_passed_witness :
  run_step_here 0 scale_parameters 1 mystery [] start =
    (Returned ([mkResult 1 "mystery" "shell" (VStr "Unknown step type: shell")],
               false),
     taken_up 0 1 mystery start)
  /\ is_failure (VStr "Unknown step type: shell") = false
  /\ run_steps_here 0 scale_parameters 1 [mystery; notify "after" "x"] [] start =
       run_steps_here 0 scale_parameters 2 [notify "after" "x"]
                      [mkResult 1 "mystery" "shell" (VStr "Unknown step type: shell")]
                      (taken_up 0 1 mystery start).
Proof.
  apply (EngineFacts.unknown_step_kind_is_recorded_and_passed
           jenkins_ok ansible_fails terraform_ok type_error py_repr
           0 scale_parameters 1 mystery [notify "after" "x"] [] start).
  reflexivity.
Defined.

(** C3 as stated fails: the step of the unknown kind [Shell] is recorded
    with a text that is no failure, and the step after it runs. *)
Lemma unknown_kind_neither_fails_nor_halts :
  run_steps_here 0 scale_parameters 1 [mystery; notify "after" "x"] [] start =
    (Returned [mkResult 1 "mystery" "shell" (VStr "Unknown step type: shell");
               mkResult 2 "after" "notification" (success "Notification sent: x")],
     mkState tt [EvStep 0 1 "mystery" "shell";
                 EvStep 0 2 "after" "notification";
                 EvAdapter "notification" [("message", VStr "x")]])
  /\ is_failure (VStr "Unknown step type: shell") = false
  /\ all_success
       [mkResult 1 "mystery" "shell" (VStr "Unknown step type: shell");
        mkResult 2 "after" "notification" (success "Notification sent: x")]
     = true.
Proof. repeat split. Qed.

Lemma true_condition_runs_then_branch_only_witness :
  exists st' : state unit,
    run_branch
      (fun t => _execute_workflow jenkins_ok ansible_fails terraform_ok
                                  type_error py_repr 1 (mkWorkflow None [t])
                                  scale_parameters)
      [notify "grow" "scaling out"] (taken_up 0 1 check_count start) =
      (Returned tt, st')
    /\ forall else_steps,
        run_step_here 0 scale_parameters 1 (with_else check_count else_steps)
                      [] start =
          (Returned ([mkResult 1 "check" "condition"
                               (success "Condition evaluated to true")], false),
           st').
Proof.
  apply (EngineFacts.true_condition_runs_then_branch_only
           jenkins_ok ansible_fails terraform_ok type_error py_repr
           0 scale_parameters 1 check_count (count_is_3 "eq") "count" (VStr "3")
           [] start); reflexivity.
Defined.

(** C4 as stated fails: the [then] step [grow] is dispatched, yet the report
    holds the result of the condition step only. *)
Lemma then_branch_results_are_not_reported :
  run_steps_here 0 scale_parameters 1 [check_count] [] start =
    (Returned [mkResult 1 "check" "condition"
                        (success "Condition evaluated to true")],
     mkState tt [EvStep 0 1 "check" "condition";
                 EvStep 1 1 "grow" "notification";
                 EvAdapter "notification" [("message", VStr "scaling out")]])
  /\ existsb (fun r => res_name r =? "grow")
             [mkResult 1 "check" "condition"
                       (success "Condition evaluated to true")] = false.
Proof. split; reflexivity. Qed.

(** C5 as stated fails: a condition on a parameter the command does not have
    is recorded as a failure, and the step after it does not run. *)
Lemma condition_on_missing_parameter_fails :
  run_steps_here 0 scale_parameters 1 [check_replicas; notify "after" "x"] []
                 start =
    (Returned [mkResult 1 "check" "condition"
                        (failure "Parameter 'replicas' not found")],
     mkState tt [EvStep 0 1 "check" "condition"])
  /\ success_flag (mkResult 1 "check" "condition"
                            (failure "Parameter 'replicas' not found")) = false.
Proof. split; reflexivity. Qed.

Lemma unknown_operator_selects_else_branch_witness :
  _evaluate_condition type_error (VStr "3") (VStr "3") "about" = Returned false
  /\ exists st' : state unit,
      run_branch
        (fun t => _execute_workflow jenkins_ok ansible_fails terraform_ok
                                    type_error py_repr 1 (mkWorkflow None [t])
                                    scale_parameters)
        [notify "shrink" "scaling in"] (taken_up 0 1 check_about start) =
        (Returned tt, st')
      /\ run_step_here 0 scale_parameters 1 check_about [] start =
           (Returned ([mkResult 1 "check" "condition"
                                (success "Condition evaluated to false")], false),
            st').
Proof.
  destruct (EngineFacts.unknown_operator_selects_else_branch
              jenkins_ok ansible_fails terraform_ok type_error py_repr
              "about" eq_refl) as [Heval Hstep].
  split.
  - apply Heval.
  - apply (Hstep 0 scale_parameters 1 check_about (count_is_3 "about") "count"
                 (VStr "3") [] start); reflexivity.
Defined.

Lemma replace_parameters_substitutes_once_witness :
  substituted [("a", VStr "${b}"); ("b", VStr "z")]
              (VDict [("x", VStr "${a}"); ("y", VList [VStr "${c}"; VInt 1])])
              (VDict [("x", VStr "${b}"); ("y", VList [VStr "${c}"; VInt 1])]).
Proof.
  apply (proj1 ReplaceFacts.replace_parameters_substitutes_once).
  reflexivity.
Defined.

Lemma unauthorized_user_denied_whatever_the_message_witness :
  ChatOpsApp._is_user_authorized sec "U999" "status of api" = false
  /\ ChatOpsApp._is_user_authorized sec "U999" "destroy production" = false
  /\ process_here "status of api" "U999" "C1" =
       ("You are not authorized to perform this action.",
        [ChatOpsApp.CallIsUserAuthorized])
  /\ process_here "destroy production" "U999" "C2" =
       process_here "status of api" "U999" "C1".
Proof.
  apply (AppFacts.unauthorized_user_denied_whatever_the_message
           nat Nat.ltb sec 70 resolver manager
           "U999" "status of api" "destroy production" "C1" "C2").
  reflexivity.
Defined.

Lemma missing_entity_rejected_after_authorization_witness :
  CommandParser.parse "deploy" [] = None
  /\ process_here "deploy" "U100" "C1" =
       ("I couldn't understand your command. Please try again.",
        [ChatOpsApp.CallIsUserAuthorized; ChatOpsApp.CallNlpProcess;
         ChatOpsApp.CallCommandParser]).
Proof.
  apply (AppFacts.missing_entity_rejected_after_authorization
           nat Nat.ltb sec 70 resolver manager
           "deploy" "U100" "C1" "deploy" [] 92
           (CommandParser.mkTemplate "deploy" ["service"] ["environment"; "version"]
              [("environment", VStr "development"); ("version", VStr "latest")]
              (Some "deploy_workflow.yaml"))
           "service"); try reflexivity.
  left. reflexivity.
Defined.

(** C8 as stated fails: for a message without the required entity [service]
    the authorization test is called, first of all, and for a user who is
    not authorized it is the gate that rejects, not the Command Builder. *)
Lemma authorization_runs_before_command_builder :
  CommandParser.first_missing ["service"] [] = Some "service"
  /\ process_here "deploy" "U100" "C1" =
       ("I couldn't understand your command. Please try again.",
        [ChatOpsApp.CallIsUserAuthorized; ChatOpsApp.CallNlpProcess;
         ChatOpsApp.CallCommandParser])
  /\ process_here "deploy" "U999" "C1" =
       ("You are not authorized to perform this action.",
        [ChatOpsApp.CallIsUserAuthorized]).
Proof. repeat split. Qed.

End ScenarioFacts.

(** * Further properties of the code *)

(** ** Strings *)

Module PyStrFacts.

Lemma prefix_app (p b : string) : String.prefix p (p ++ b) = true.
Proof.
  induction p as [|c p IH]; simpl.
  - now destruct b.
  - destruct (ascii_dec c c); [exact IH | congruence].
Qed.

(** A string occurs in every text built around it. *)
Lemma contains_infix (a p b : string) : PyStr.contains p (a ++ p ++ b) = true.
Proof.
  induction a as [|c a IH]; cbn [String.append PyStr.contains].
  - pose proof (prefix_app p b) as H.
    destruct (p ++ b); cbn [PyStr.contains]; now rewrite H.
  - rewrite IH. apply orb_true_r.
Qed.

(** The empty string occurs in every text. *)
Lemma contains_empty (hay : string) : PyStr.contains EmptyString hay = true.
Proof. destruct hay; reflexivity. Qed.

End PyStrFacts.

(** ** Command Builder: when a command is refused *)

Module CommandParserMore.

Import CommandParser.

Lemma first_missing_is_missing (required : list string) (entities : dict)
      (r : string) :
  first_missing required entities = Some r ->
  In r required /\ PyDict.mem r entities = false.
Proof.
  induction required as [|r0 rest IH]; simpl; intros H.
  - discriminate.
  - destruct (PyDict.mem r0 entities) eqn:E.
    + destruct (IH H) as [Hin Hmem]. split; [now right | exact Hmem].
    + inversion H; subst. split; [now left | exact E].
Qed.

(** [parse] gives no command in two cases only: the intent has no template,
    or an entity the template requires is not among the entities. *)
Theorem parse_refuses_iff (intent : string) (entities : dict) :
  parse intent entities = None <->
  lookup_template _load_command_templates intent = None
  \/ exists t r,
      lookup_template _load_command_templates intent = Some t
      /\ In r (required_entities t)
      /\ PyDict.mem r entities = false.
Proof.
  unfold parse, parse_with. split.
  - destruct (lookup_template _load_command_templates intent) as [t|] eqn:L;
      [|now left].
    destruct (first_missing (required_entities t) entities) as [r|] eqn:M;
      [|discriminate].
    intros _. right. exists t, r.
    destruct (first_missing_is_missing _ _ _ M). auto.
  - intros [-> | (t & r & -> & Hin & Hmem)]; [reflexivity|].
    destruct (CommandParserFacts.first_missing_some _ _ _ Hin Hmem) as [r' ->].
    reflexivity.
Qed.

End CommandParserMore.

(** ** Authorization Gate and pipeline: who gets through *)

Module AppMore.

Import ChatOpsApp.

Lemma restricted_loop_true_iff (restricted admins : list string)
      (user_id message : string) :
  restricted_loop restricted admins user_id message = true <->
  list_mem user_id admins = true
  \/ forall r, In r restricted ->
               PyStr.contains (PyStr.lower r) (PyStr.lower message) = false.
Proof.
  induction restricted as [|r0 rest IH]; cbn [restricted_loop].
  - split; [|reflexivity]. intros _. right. intros r [].
  - destruct (PyStr.contains (PyStr.lower r0) (PyStr.lower message)) eqn:C;
      destruct (list_mem user_id admins) eqn:A; cbn [andb negb].
    + rewrite IH. split; intros _; now left.
    + split; [discriminate|].
      intros [H|H]; [discriminate|].
      rewrite (H r0) in C by now left. discriminate.
    + rewrite IH. split; intros _; now left.
    + rewrite IH. split.
      * intros [H|H]; [discriminate|]. right.
        intros r [<-|Hin]; [exact C | now apply H].
      * intros [H|H]; [discriminate|]. right.
        intros r Hin. apply H. now right.
Qed.

Lemma restricted_loop_lower (restricted admins : list string)
      (user_id m1 m2 : string) :
  PyStr.lower m1 = PyStr.lower m2 ->
  restricted_loop restricted admins user_id m1 =
  restricted_loop restricted admins user_id m2.
Proof.
  intros H. induction restricted as [|r rest IH]; cbn [restricted_loop].
  - reflexivity.
  - now rewrite H, IH.
Qed.

Lemma approval_loop_lower (approval : list string) (m1 m2 : string) :
  PyStr.lower m1 = PyStr.lower m2 ->
  approval_loop approval m1 = approval_loop approval m2.
Proof.
  intros H. induction approval as [|c rest IH]; cbn [approval_loop].
  - reflexivity.
  - now rewrite H, IH.
Qed.

Lemma authorized_iff_aux (sec : security) (user_id message : string) :
  _is_user_authorized sec user_id message = true <->
  list_mem user_id (authorized_users sec) = true
  /\ (list_mem user_id (admin_users sec) = true
      \/ forall r, In r (restricted_commands sec) ->
                   PyStr.contains (PyStr.lower r) (PyStr.lower message) = false).
Proof.
  unfold _is_user_authorized.
  destruct (list_mem user_id (authorized_users sec)); cbn [negb].
  - rewrite restricted_loop_true_iff. tauto.
  - split; [discriminate | intros [H _]; discriminate].
Qed.

(** [_is_user_authorized] lets a user through exactly when the user is on
    the list of authorized users and either is an admin or sent a message in
    which no restricted command occurs, letter case apart. *)
Theorem authorized_iff (sec : security) (user_id message : string) :
  _is_user_authorized sec user_id message = true <->
  list_mem user_id (authorized_users sec) = true
  /\ (list_mem user_id (admin_users sec) = true
      \/ forall r, In r (restricted_commands sec) ->
                   PyStr.contains (PyStr.lower r) (PyStr.lower message) = false).
Proof. apply authorized_iff_aux. Qed.

(** The test for a restricted command is a substring test on the lowered
    texts: a user who is no admin is refused whenever the lowered restricted
    command occurs anywhere in the lowered message, whatever stands before
    and after it (also inside a longer word). *)
Theorem restricted_word_anywhere_blocks
        (sec : security) (user_id r message before after : string) :
  list_mem user_id (admin_users sec) = false ->
  In r (restricted_commands sec) ->
  PyStr.lower message = before ++ PyStr.lower r ++ after ->
  _is_user_authorized sec user_id message = false.
Proof.
  intros Hadmin Hin Hoccurs.
  destruct (_is_user_authorized sec user_id message) eqn:E; [|reflexivity].
  apply authorized_iff_aux in E.
  destruct E as [_ [H|H]]; [congruence|].
  specialize (H r Hin).
  rewrite Hoccurs, PyStrFacts.contains_infix in H.
  discriminate.
Qed.

(** The two tests on the message see it only up to letter case: messages
    that are equal once lowered get the same answer from
    [_is_user_authorized] and from [_requires_approval]. *)
Theorem gate_ignores_letter_case (sec : security) (user_id m1 m2 : string) :
  PyStr.lower m1 = PyStr.lower m2 ->
  _is_user_authorized sec user_id m1 = _is_user_authorized sec user_id m2
  /\ _requires_approval sec m1 = _requires_approval sec m2.
Proof.
  intros H. split.
  - unfold _is_user_authorized.
    now rewrite (restricted_loop_lower _ _ _ _ _ H).
  - unfold _requires_approval. now apply approval_loop_lower.
Qed.

Section Pipeline.

Variable score : Type.
Variable score_ltb : score -> score -> bool.
Variable sec : security.
Variable confidence_threshold : score.
Variable nlp_process : string -> string * dict * score.
Variable workflow_manager_execute : CommandParser.command -> outcome string.

Local Abbreviation process_message' :=
  (process_message score score_ltb sec confidence_threshold nlp_process
                   workflow_manager_execute).

(** [process_message] hands a command to the workflow manager exactly when
    the user passes [_is_user_authorized], the confidence is not below the
    threshold, [parse] builds a command and the message needs no approval,
    for admins as for anyone else; the reply is then the text of the manager,
    or [Error executing command: ...] with the text of its exception. *)
Theorem manager_called_iff
        (message user_id channel_id intent : string) (entities : dict)
        (confidence : score) :
  nlp_process message = (intent, entities, confidence) ->
  (In CallWorkflowManager (snd (process_message' message user_id channel_id)) <->
   _is_user_authorized sec user_id message = true
   /\ score_ltb confidence confidence_threshold = false
   /\ (exists command, CommandParser.parse intent entities = Some command)
   /\ _requires_approval sec message = false)
  /\ (forall command,
         In CallWorkflowManager (snd (process_message' message user_id channel_id)) ->
         CommandParser.parse intent entities = Some command ->
         fst (process_message' message user_id channel_id) =
           match workflow_manager_execute command with
           | Returned result => result
           | Raised e => "Error executing command: " ++ e
           end).
Proof.
  intros Hnlp. unfold process_message. rewrite Hnlp.
  destruct (_is_user_authorized sec user_id message); cbn [negb];
    [|split; [split; [intros [H|[]]; discriminate | intros [H _]; discriminate]
             | intros c [H|[]]; discriminate]].
  destruct (score_ltb confidence confidence_threshold);
    [split; [split; [cbn; intuition discriminate | intros (_ & H & _); discriminate]
            | intros c H; cbn in H; intuition discriminate]|].
  destruct (CommandParser.parse intent entities) as [command|];
    [|split; [split; [cbn; intuition discriminate
                     | intros (_ & _ & [c H] & _); discriminate]
             | intros c H; cbn in H; intuition discriminate]].
  destruct (_requires_approval sec message).
  - split; [split; [cbn; intuition discriminate | intros (_ & _ & _ & H); discriminate]
           | intros c H; cbn in H; intuition discriminate].
  - split.
    + split; [intros _; repeat split; eauto | intros _; cbn; auto 10].
    + intros c _ Hc. inversion Hc; subst. reflexivity.
Qed.

End Pipeline.

End AppMore.

(** ** Step Execution Engine: errors, edges and composition *)

Module EngineMore.

Import WorkflowManager WorkflowSpec.

Section Engine.

Context {W : Type}.
Variable jenkins_trigger_job : value -> value -> value -> W -> outcome value * W.
Variable ansible_run_playbook : value -> value -> value -> W -> outcome value * W.
Variable terraform_run_terraform :
  value -> value -> value -> value -> W -> outcome value * W.
Variable type_error : string -> value -> value -> string.
Variable py_repr : value -> string.

Local Abbreviation run_step' :=
  (run_step jenkins_trigger_job ansible_run_playbook terraform_run_terraform
            type_error py_repr).
Local Abbreviation run_steps' :=
  (run_steps jenkins_trigger_job ansible_run_playbook terraform_run_terraform
             type_error py_repr).
Local Abbreviation _execute_workflow' :=
  (_execute_workflow jenkins_trigger_job ansible_run_playbook
                     terraform_run_terraform type_error py_repr).
Local Abbreviation dispatch' :=
  (dispatch jenkins_trigger_job ansible_run_playbook terraform_run_terraform
            type_error py_repr).
Local Abbreviation _execute_condition_step' :=
  (_execute_condition_step jenkins_trigger_job ansible_run_playbook
                           terraform_run_terraform type_error py_repr).

(** The loop body, given what the dispatch on the step type does. *)
Lemma run_step_of_dispatch (depth : nat) (parameters : dict) (i : nat)
      (s : step) (results : list step_result) (st st' : state W)
      (o : outcome value) :
  dispatch' depth parameters s results (taken_up depth i s st) = (o, st') ->
  run_step' depth parameters i s results st =
    let result := match o with Returned v => v | Raised e => failure e end in
    (Returned ((results ++ [mkResult i (step_name_at i s) (step_type_of s) result])%list,
               match o with Returned v => is_failure v | Raised _ => true end),
     st').
Proof.
  intros H. rewrite EngineFacts.run_step_eq, H. now destruct o.
Qed.

(** A condition step that ends in [o] without running a branch. *)
Lemma run_step_condition (depth : nat) (parameters : dict) (i : nat)
      (s : step) (results : list step_result) (st st' : state W)
      (o : outcome value) :
  step_type_of s = "condition" ->
  _execute_condition_step' depth s parameters results (taken_up depth i s st)
    = (o, st') ->
  run_step' depth parameters i s results st =
    let result := match o with Returned v => v | Raised e => failure e end in
    (Returned ((results ++ [mkResult i (step_name_at i s) "condition" result])%list,
               match o with Returned v => is_failure v | Raised _ => true end),
     st').
Proof.
  intros Htype H.
  rewrite (run_step_of_dispatch depth parameters i s results st st' o).
  - now rewrite Htype.
  - now rewrite EngineFacts.dispatch_condition.
Qed.

(** No exception of a step escapes the engine. For a workflow of the shape
    the templates have (the [type] and the [name] of a step are strings, its
    [parameters] a mapping, as the records of this embedding have them),
    [_execute_workflow] returns a text whatever the integrations and the
    comparisons return or raise, at the top level and in the branches; for a
    workflow without steps the text says so and nothing has happened. A
    document outside this shape ([type: null], [parameters: null]) is not
    covered: lines 162 to 166 read these fields before the [try]. *)
Theorem exceptions_of_steps_never_escape
        (depth : nat) (wf : workflow) (parameters : dict) (st : state W) :
  exists (text : string) (st' : state W),
    _execute_workflow' depth wf parameters st = (Returned text, st')
    /\ (wf_steps wf = [] ->
        text = "Workflow '" ++ or_default (wf_name wf) "Unnamed workflow"
                            ++ "' has no steps to execute"
        /\ st' = st).
Proof.
  unfold _execute_workflow.
  destruct (wf_steps wf) as [|s rest] eqn:E.
  - eexists. exists st. split; [reflexivity|]. auto.
  - destruct (EngineFacts.run_steps_spec
                jenkins_trigger_job ansible_run_playbook terraform_run_terraform
                type_error py_repr depth parameters (s :: rest) 1 [] st)
      as (new & events & st' & Hrun & _).
    unfold bind. rewrite Hrun. eexists. exists st'.
    split; [reflexivity | discriminate].
Qed.

(** An integration that raises does not break the workflow: the exception
    text becomes the message of a failed result for the step, the world the
    integration left is kept, and the loop stops there. *)
Theorem raising_integration_is_recorded
        (depth : nat) (parameters : dict) (i : nat) (s : step)
        (results : list step_result) (st : state W) (e : string) (w' : W) :
  let params :=
    _replace_parameters (or_default (step_parameters s) []) parameters in
  let recorded kind :=
    (Returned ((results ++ [mkResult i (step_name_at i s) kind (failure e)])%list,
               true),
     mkState w' (trace st ++ [EvStep depth i (step_name_at i s) kind;
                              EvAdapter kind params])%list) in
  (step_type_of s = "jenkins" ->
   Py.truthy (PyDict.get_default "job" VNone params) = true ->
   jenkins_trigger_job (PyDict.get_default "job" VNone params)
                       (PyDict.get_default "parameters" (VDict []) params)
                       (PyDict.get_default "wait" (VBool true) params)
                       (world st) = (Raised e, w') ->
   run_step' depth parameters i s results st = recorded "jenkins")
  /\ (step_type_of s = "ansible" ->
      Py.truthy (PyDict.get_default "playbook" VNone params) = true ->
      ansible_run_playbook (PyDict.get_default "playbook" VNone params)
                           (PyDict.get_default "inventory" VNone params)
                           (PyDict.get_default "extra_vars" (VDict []) params)
                           (world st) = (Raised e, w') ->
      run_step' depth parameters i s results st = recorded "ansible")
  /\ (step_type_of s = "terraform" ->
      terraform_run_terraform
        (PyDict.get_default "action" (VStr "apply") params)
        (PyDict.get_default "workspace" (VStr "default") params)
        (PyDict.get_default "var_file" VNone params)
        (PyDict.get_default "vars" (VDict []) params)
        (world st) = (Raised e, w') ->
      run_step' depth parameters i s results st = recorded "terraform").
Proof.
  intros params recorded. repeat split.
  - intros Htype Hjob Hcall.
    erewrite run_step_of_dispatch.
    2:{ unfold dispatch. rewrite Htype. cbn [String.eqb Ascii.eqb Bool.eqb].
        unfold bind, emit, _execute_jenkins_step, external, taken_up.
        fold params. rewrite Hjob. cbn [negb world trace].
        rewrite Hcall. reflexivity. }
    unfold recorded. rewrite Htype, <- app_assoc. reflexivity.
  - intros Htype Hbook Hcall.
    erewrite run_step_of_dispatch.
    2:{ unfold dispatch. rewrite Htype. cbn [String.eqb Ascii.eqb Bool.eqb].
        unfold bind, emit, _execute_ansible_step, external, taken_up.
        fold params. rewrite Hbook. cbn [negb world trace].
        rewrite Hcall. reflexivity. }
    unfold recorded. rewrite Htype, <- app_assoc. reflexivity.
  - intros Htype Hcall.
    erewrite run_step_of_dispatch.
    2:{ unfold dispatch. rewrite Htype. cbn [String.eqb Ascii.eqb Bool.eqb].
        unfold bind, emit, _execute_terraform_step, external, taken_up.
        fold params. cbn [world trace].
        rewrite Hcall. reflexivity. }
    unfold recorded. rewrite Htype, <- app_assoc. reflexivity.
Qed.

(** A Jenkins step without a job, or an Ansible step without a playbook
    (absent, or empty after substitution), fails without the integration
    being called: the world is as before, and the loop stops there. *)
Theorem step_without_target_fails_uncalled
        (depth : nat) (parameters : dict) (i : nat) (s : step)
        (results : list step_result) (st : state W) :
  let params :=
    _replace_parameters (or_default (step_parameters s) []) parameters in
  let refused kind message :=
    (Returned ((results ++ [mkResult i (step_name_at i s) kind (failure message)])%list,
               true),
     mkState (world st)
             (trace st ++ [EvStep depth i (step_name_at i s) kind;
                           EvAdapter kind params])%list) in
  (step_type_of s = "jenkins" ->
   Py.truthy (PyDict.get_default "job" VNone params) = false ->
   run_step' depth parameters i s results st =
     refused "jenkins" "No Jenkins job specified")
  /\ (step_type_of s = "ansible" ->
      Py.truthy (PyDict.get_default "playbook" VNone params) = false ->
      run_step' depth parameters i s results st =
        refused "ansible" "No Ansible playbook specified").
Proof.
  intros params refused. split.
  - intros Htype Hjob.
    erewrite run_step_of_dispatch.
    2:{ unfold dispatch. rewrite Htype. cbn [String.eqb Ascii.eqb Bool.eqb].
        unfold bind, emit, _execute_jenkins_step, ret, taken_up.
        fold params. rewrite Hjob. cbn [negb]. reflexivity. }
    unfold refused. cbn [world trace]. rewrite Htype, <- app_assoc. reflexivity.
  - intros Htype Hbook.
    erewrite run_step_of_dispatch.
    2:{ unfold dispatch. rewrite Htype. cbn [String.eqb Ascii.eqb Bool.eqb].
        unfold bind, emit, _execute_ansible_step, ret, taken_up.
        fold params. rewrite Hbook. cbn [negb]. reflexivity. }
    unfold refused. cbn [world trace]. rewrite Htype, <- app_assoc. reflexivity.
Qed.

(** A notification step always succeeds and leaves the world alone. *)
Lemma run_step_notification (depth : nat) (parameters : dict) (i : nat)
      (s : step) (results : list step_result) (st : state W) :
  step_type_of s = "notification" ->
  exists (r : step_result) (st' : state W),
    run_step' depth parameters i s results st =
      (Returned ((results ++ [r])%list, false), st')
    /\ is_failure (res_result r) = false
    /\ world st' = world st.
Proof.
  intros Htype.
  eexists. eexists. split.
  - erewrite run_step_of_dispatch.
    2:{ unfold dispatch. rewrite Htype. cbn [String.eqb Ascii.eqb Bool.eqb].
        unfold bind, emit, _execute_notification_step, ret. reflexivity. }
    cbn zeta. reflexivity.
  - split; reflexivity.
Qed.

Lemma all_success_app (l l' : list step_result) :
  all_success (l ++ l') = all_success l && all_success l'.
Proof.
  induction l as [|r l IH]; cbn [app all_success]; [reflexivity|].
  destruct (is_failure (res_result r)); [reflexivity | exact IH].
Qed.

Lemma notifications_run_through (depth : nat) (parameters : dict)
      (steps : list step) :
  Forall (fun s => step_type_of s = "notification") steps ->
  forall (i : nat) (results : list step_result) (st : state W),
  exists (new : list step_result) (st' : state W),
    run_steps' depth parameters i steps results st =
      (Returned (results ++ new)%list, st')
    /\ List.length new = List.length steps
    /\ all_success new = true
    /\ world st' = world st.
Proof.
  induction 1 as [|s rest Hs _ IH]; intros i results st.
  - exists [], st. cbn [run_steps]. unfold ret. rewrite app_nil_r. auto.
  - cbn [run_steps]. unfold bind.
    destruct (run_step_notification depth parameters i s results st Hs)
      as (r & st1 & -> & Hr & Hw).
    cbn [fst snd].
    destruct (IH (S i) (results ++ [r])%list st1)
      as (new & st' & -> & Hlen & Hall & Hw').
    exists (r :: new), st'. repeat split.
    + now rewrite <- app_assoc.
    + cbn [List.length]. now rewrite Hlen.
    + cbn [all_success]. now rewrite Hr.
    + congruence.
Qed.

(** A workflow made of notification steps only always runs to its end: one
    result per step, the report headed as completed successfully, and the
    world untouched. *)
Theorem notifications_always_complete
        (depth : nat) (parameters : dict) (steps : list step) (st : state W) :
  Forall (fun s => step_type_of s = "notification") steps ->
  exists (results : list step_result) (st' : state W),
    run_steps' depth parameters 1 steps [] st = (Returned results, st')
    /\ List.length results = List.length steps
    /\ all_success results = true
    /\ world st' = world st.
Proof.
  intros H.
  destruct (notifications_run_through depth parameters steps H 1 [] st)
    as (new & st' & Hrun & Hrest).
  exists new, st'. split; [exact Hrun | exact Hrest].
Qed.

Lemma all_success_false_has_failure (l : list step_result) :
  all_success l = false ->
  exists k r, nth_error l k = Some r /\ is_failure (res_result r) = true.
Proof.
  induction l as [|r l IH]; cbn [all_success]; [discriminate|].
  destruct (is_failure (res_result r)) eqn:E.
  - intros _. now exists 0, r.
  - intros H. destruct (IH H) as (k & r' & Hk & Hr'). now exists (S k), r'.
Qed.

Lemma all_success_true_no_failure (l : list step_result) (k : nat)
      (r : step_result) :
  all_success l = true -> nth_error l k = Some r ->
  is_failure (res_result r) = false.
Proof.
  revert k. induction l as [|r0 l IH]; intros k Hall Hk.
  - destruct k; discriminate.
  - cbn [all_success] in Hall.
    destruct (is_failure (res_result r0)) eqn:E; [discriminate|].
    destruct k as [|k]; cbn [nth_error] in Hk.
    + now inversion Hk; subst.
    + eapply IH; eassumption.
Qed.

(** What the head of the report tells: a workflow reported as completed
    successfully has a result for every declared step; a workflow reported
    as failed ends with the failed step, and every result before it is a
    success. *)
Theorem report_head_tells_how_far
        (depth : nat) (parameters : dict) (steps : list step) (st : state W) :
  exists (results : list step_result) (st' : state W),
    run_steps' depth parameters 1 steps [] st = (Returned results, st')
    /\ (all_success results = true ->
        List.length results = List.length steps)
    /\ (all_success results = false ->
        exists r,
          nth_error results (List.length results - 1) = Some r
          /\ is_failure (res_result r) = true
          /\ all_success (firstn (List.length results - 1) results) = true).
Proof.
  destruct (EngineFacts.run_steps_spec
              jenkins_trigger_job ansible_run_playbook terraform_run_terraform
              type_error py_repr depth parameters steps 1 [] st)
    as (results & events & st' & Hrun & _ & _ & _ & Hlast & Hend).
  cbn [app] in Hrun. exists results, st'. split; [exact Hrun|]. split.
  - intros Hall. destruct Hend as [Hlen | (r & Hr & Hf)]; [exact Hlen|].
    rewrite (all_success_true_no_failure _ _ _ Hall Hr) in Hf. discriminate.
  - intros Hall.
    destruct (all_success_false_has_failure _ Hall) as (k & r & Hk & Hr).
    pose proof (Hlast k r Hk Hr) as Hlen.
    rewrite Hlen. replace (S k - 1) with k by lia.
    exists r. repeat split; try assumption.
    destruct (all_success (firstn k results)) eqn:E; [reflexivity|].
    destruct (all_success_false_has_failure _ E) as (j & r' & Hj & Hr').
    assert (Hjk : j < k).
    { assert (j < List.length (firstn k results))
        by (apply nth_error_Some; congruence).
      rewrite length_firstn in H. lia. }
    rewrite nth_error_firstn in Hj.
    replace (j <? k)%nat with true in Hj by (symmetry; now apply Nat.ltb_lt).
    pose proof (Hlast j r' Hj Hr'). lia.
Qed.

Lemma skipn_length_app {A : Type} (l l' : list A) :
  skipn (List.length l) (l ++ l') = l'.
Proof. induction l as [|a l IH]; [reflexivity | exact IH]. Qed.

Lemma run_steps_app (depth : nat) (parameters : dict) (pre post : list step) :
  forall (i : nat) (results : list step_result) (st : state W),
    run_steps' depth parameters i (pre ++ post) results st =
    match run_steps' depth parameters i pre results st with
    | (Returned r1, st1) =>
        if all_success (skipn (List.length results) r1)
        then run_steps' depth parameters (i + List.length pre) post r1 st1
        else (Returned r1, st1)
    | (Raised e, st1) => (Raised e, st1)
    end.
Proof.
  induction pre as [|s pre IH]; intros i results st.
  - cbn [app run_steps List.length]. unfold ret.
    rewrite skipn_all, Nat.add_0_r. reflexivity.
  - cbn [app run_steps List.length]. unfold bind.
    destruct (EngineFacts.run_step_returns
                jenkins_trigger_job ansible_run_playbook terraform_run_terraform
                type_error py_repr s depth parameters i results st)
      as (result & st1 & -> & _).
    cbn [fst snd].
    set (r0 := mkResult i (step_name_at i s) (step_type_of s) result).
    destruct (is_failure result) eqn:Hfail.
    + unfold ret. rewrite skipn_length_app.
      cbn [all_success res_result r0]. now rewrite Hfail.
    + rewrite IH.
      destruct (EngineFacts.run_steps_spec
                  jenkins_trigger_job ansible_run_playbook terraform_run_terraform
                  type_error py_repr depth parameters pre (S i)
                  (results ++ [r0])%list st1)
        as (new & events & st2 & -> & _).
      rewrite skipn_length_app.
      rewrite <- app_assoc. rewrite skipn_length_app.
      cbn [app all_success res_result r0]. rewrite Hfail.
      replace (S i + List.length pre) with (i + S (List.length pre)) by lia.
      reflexivity.
Qed.

(** How the loop composes: running a workflow is running a first part of its
    steps and then, when none of them failed, the rest of the steps with the
    results gathered so far; when the first part failed, the rest of the
    steps has no effect at all. *)
Theorem workflow_runs_in_parts
        (depth : nat) (parameters : dict) (pre post : list step) (st : state W) :
  run_steps' depth parameters 1 (pre ++ post) [] st =
  match run_steps' depth parameters 1 pre [] st with
  | (Returned r1, st1) =>
      if all_success r1
      then run_steps' depth parameters (S (List.length pre)) post r1 st1
      else (Returned r1, st1)
  | (Raised e, st1) => (Raised e, st1)
  end.
Proof. apply (run_steps_app depth parameters pre post 1 [] st). Qed.

(** *** Conditions that cannot be evaluated *)

(** A condition step that returns a failure without running a branch. *)
Lemma run_step_condition_refused (depth : nat) (parameters : dict) (i : nat)
      (s : step) (results : list step_result) (st : state W) (message : string) :
  step_type_of s = "condition" ->
  _execute_condition_step' depth s parameters results (taken_up depth i s st)
    = (Returned (failure message), taken_up depth i s st) ->
  run_step' depth parameters i s results st =
    (Returned ((results ++ [mkResult i (step_name_at i s) "condition"
                                     (failure message)])%list, true),
     taken_up depth i s st).
Proof.
  intros Htype H.
  now rewrite (run_step_condition depth parameters i s results st _ _ Htype H).
Qed.

(** A parameter condition on a parameter the command does not have, or that
    names no parameter, is recorded as a failure saying so; no branch runs
    and the loop stops there. *)
Theorem condition_on_absent_parameter_fails
        (depth : nat) (parameters : dict) (i : nat) (s : step) (c : condition)
        (results : list step_result) (st : state W) :
  step_type_of s = "condition" ->
  step_condition s = Some c ->
  cond_type c = Some "parameter" ->
  match cond_parameter c with
  | Some name => PyDict.get name parameters
  | None => None
  end = None ->
  run_step' depth parameters i s results st =
    (Returned ((results ++
                [mkResult i (step_name_at i s) "condition"
                          (failure (parameter_not_found (cond_parameter c)))])%list,
               true),
     taken_up depth i s st).
Proof.
  intros Htype Hc Hctype Hget.
  apply run_step_condition_refused; [exact Htype|].
  unfold _execute_condition_step, _execute_condition_step_with.
  rewrite Hc. cbn [or_default]. rewrite Hctype. cbn [or_default].
  cbn [String.eqb Ascii.eqb Bool.eqb]. now rewrite Hget.
Qed.

(** A condition whose type is neither [parameter] nor [result] (or that has
    no [condition] mapping at all) is recorded as a failure naming the type;
    no branch runs and the loop stops there. *)
Theorem unknown_condition_type_fails
        (depth : nat) (parameters : dict) (i : nat) (s : step)
        (results : list step_result) (st : state W) :
  let type :=
    or_default
      (cond_type (or_default (step_condition s)
                             (mkCondition None None None None None)))
      EmptyString in
  step_type_of s = "condition" ->
  type <> "parameter" ->
  type <> "result" ->
  run_step' depth parameters i s results st =
    (Returned ((results ++
                [mkResult i (step_name_at i s) "condition"
                          (failure ("Unknown condition type: " ++ type))])%list,
               true),
     taken_up depth i s st).
Proof.
  intros type Htype Hp Hr.
  apply run_step_condition_refused; [exact Htype|].
  unfold _execute_condition_step, _execute_condition_step_with. fold type.
  apply String.eqb_neq in Hp, Hr. now rewrite Hp, Hr.
Qed.

Lemma result_condition_out_of_range (depth : nat) (parameters : dict)
      (s : step) (c : condition) (results : list step_result) (st : state W) :
  step_condition s = Some c ->
  cond_type c = Some "result" ->
  (or_default (cond_step c) 1 < 1
   \/ Z.of_nat (List.length results) < or_default (cond_step c) 1)%Z ->
  _execute_condition_step' depth s parameters results st =
    (Returned (failure ("Step " ++ PyStr.of_Z (or_default (cond_step c) 1%Z)
                                ++ " result not found")), st).
Proof.
  intros Hc Hctype Hrange.
  unfold _execute_condition_step, _execute_condition_step_with.
  rewrite Hc. cbn [or_default]. rewrite Hctype. cbn [or_default].
  cbn [String.eqb Ascii.eqb Bool.eqb].
  replace ((or_default (cond_step c) 1 - 1 <? 0)%Z
           || (or_default (cond_step c) 1 - 1 >=? Z.of_nat (List.length results))%Z)
    with true.
  - now rewrite Z.sub_add.
  - symmetry. apply orb_true_iff. rewrite Z.geb_leb.
    destruct Hrange; [left; apply Z.ltb_lt | right; apply Z.leb_le]; lia.
Qed.

(** A result condition can look at the results gathered before it only: when
    the step number it names is below 1 or above the number of results so
    far, it is recorded as a failure [Step n result not found], no branch
    runs and the loop stops there. *)
Theorem result_condition_out_of_range_fails
        (depth : nat) (parameters : dict) (i : nat) (s : step) (c : condition)
        (results : list step_result) (st : state W) :
  step_type_of s = "condition" ->
  step_condition s = Some c ->
  cond_type c = Some "result" ->
  (or_default (cond_step c) 1 < 1
   \/ Z.of_nat (List.length results) < or_default (cond_step c) 1)%Z ->
  run_step' depth parameters i s results st =
    (Returned ((results ++
                [mkResult i (step_name_at i s) "condition"
                          (failure ("Step " ++ PyStr.of_Z (or_default (cond_step c) 1%Z)
                                            ++ " result not found"))])%list,
               true),
     taken_up depth i s st).
Proof.
  intros Htype Hc Hctype Hrange.
  apply run_step_condition_refused; [exact Htype|].
  now apply result_condition_out_of_range.
Qed.

(** A result condition that is the only step of a workflow always fails,
    whatever step number it names: it starts with no results. This is the
    case of every result condition inside a [then] or [else] branch, since
    each step of a branch is run as a one-step workflow of its own. *)
Theorem result_condition_in_branch_always_fails
        (depth : nat) (name : option string) (parameters : dict) (t : step)
        (c : condition) (st : state W) :
  step_type_of t = "condition" ->
  step_condition t = Some c ->
  cond_type c = Some "result" ->
  _execute_workflow' depth (mkWorkflow name [t]) parameters st =
    (Returned
       (_format_workflow_result py_repr (or_default name "Unnamed workflow")
          [mkResult 1 (step_name_at 1 t) "condition"
                    (failure ("Step " ++ PyStr.of_Z (or_default (cond_step c) 1%Z)
                                      ++ " result not found"))]),
     taken_up depth 1 t st).
Proof.
  intros Htype Hc Hctype.
  unfold _execute_workflow. cbn [wf_steps wf_name run_steps]. unfold bind.
  rewrite (run_step_condition_refused depth parameters 1 t [] st
             ("Step " ++ PyStr.of_Z (or_default (cond_step c) 1%Z)
                      ++ " result not found") Htype).
  - reflexivity.
  - apply result_condition_out_of_range; try assumption.
    cbn [List.length]. lia.
Qed.

(** A result condition on a step whose result is no dict (the text recorded
    for a step of unknown type) is recorded as a failure, with the message
    [Unknown condition type: result]. *)
Theorem result_condition_on_text_result_fails
        (depth : nat) (parameters : dict) (i : nat) (s : step) (c : condition)
        (r : step_result) (results : list step_result) (st : state W) :
  step_type_of s = "condition" ->
  step_condition s = Some c ->
  cond_type c = Some "result" ->
  (1 <= or_default (cond_step c) 1)%Z ->
  nth_error results (Z.to_nat (or_default (cond_step c) 1 - 1)%Z) = Some r ->
  (forall d, res_result r <> VDict d) ->
  run_step' depth parameters i s results st =
    (Returned ((results ++
                [mkResult i (step_name_at i s) "condition"
                          (failure "Unknown condition type: result")])%list,
               true),
     taken_up depth i s st).
Proof.
  intros Htype Hc Hctype Hpos Hnth Hnodict.
  apply run_step_condition_refused; [exact Htype|].
  unfold _execute_condition_step, _execute_condition_step_with.
  rewrite Hc. cbn [or_default]. rewrite Hctype. cbn [or_default].
  cbn [String.eqb Ascii.eqb Bool.eqb].
  assert (Hlt : (Z.to_nat (or_default (cond_step c) 1%Z - 1) < List.length results)%nat)
    by (apply nth_error_Some; congruence).
  replace ((or_default (cond_step c) 1 - 1 <? 0)%Z) with false
    by (symmetry; apply Z.ltb_ge; lia).
  replace ((or_default (cond_step c) 1 - 1 >=? Z.of_nat (List.length results))%Z)
    with false by (symmetry; rewrite Z.geb_leb; apply Z.leb_gt; lia).
  cbn [orb]. rewrite Hnth.
  destruct (res_result r) as [| | | | |d] eqn:E; try reflexivity.
  now destruct (Hnodict d).
Qed.

(** A comparison that raises is caught by the loop: the condition step is
    recorded as a failure with the text of the exception, no branch runs and
    the loop stops there. This is what happens whenever an ordering operator
    compares a string (as the entities of a command are) with a number. *)
Theorem raising_comparison_fails_the_condition
        (depth : nat) (parameters : dict) (i : nat) (s : step) (c : condition)
        (name : string) (actual : value) (e : string)
        (results : list step_result) (st : state W) :
  step_type_of s = "condition" ->
  step_condition s = Some c ->
  cond_type c = Some "parameter" ->
  cond_parameter c = Some name ->
  PyDict.get name parameters = Some actual ->
  _evaluate_condition type_error actual (or_default (cond_value c) VNone)
                      (or_default (cond_operator c) "eq") = Raised e ->
  run_step' depth parameters i s results st =
    (Returned ((results ++
                [mkResult i (step_name_at i s) "condition" (failure e)])%list,
               true),
     taken_up depth i s st)
  /\ forall (text : string) (number : Z),
      _evaluate_condition type_error (VStr text) (VInt number) "gt"
        = Raised (type_error ">" (VStr text) (VInt number))
      /\ _evaluate_condition type_error (VStr text) (VInt number) "lt"
        = Raised (type_error "<" (VStr text) (VInt number))
      /\ _evaluate_condition type_error (VStr text) (VInt number) "ge"
        = Raised (type_error ">=" (VStr text) (VInt number))
      /\ _evaluate_condition type_error (VStr text) (VInt number) "le"
        = Raised (type_error "<=" (VStr text) (VInt number)).
Proof.
  intros Htype Hc Hctype Hname Hget Heval. split.
  - rewrite (run_step_condition depth parameters i s results st
               (taken_up depth i s st) (Raised e) Htype); [reflexivity|].
    unfold _execute_condition_step, _execute_condition_step_with.
    rewrite Hc. cbn [or_default]. rewrite Hctype, Hname. cbn [or_default].
    cbn [String.eqb Ascii.eqb Bool.eqb]. rewrite Hget.
    unfold bind at 1. now rewrite Heval.
  - intros text number. repeat split.
Qed.

(** In a running workflow the [else] branch of a result condition is all but
    dead. The loop only goes on past results that are no failures; when such
    a list of results is handed to a result condition and the condition
    reports [Condition evaluated to false], the result it looked at is a dict
    without any [success] key. *)
Theorem result_condition_else_needs_missing_flag
        (depth : nat) (parameters : dict) (i : nat) (s : step) (c : condition)
        (r : step_result) (d : dict) (results : list step_result)
        (st st' : state W) :
  all_success results = true ->
  step_type_of s = "condition" ->
  step_condition s = Some c ->
  cond_type c = Some "result" ->
  (1 <= or_default (cond_step c) 1)%Z ->
  nth_error results (Z.to_nat (or_default (cond_step c) 1 - 1)%Z) = Some r ->
  res_result r = VDict d ->
  run_step' depth parameters i s results st =
    (Returned ((results ++
                [mkResult i (step_name_at i s) "condition"
                          (success "Condition evaluated to false")])%list,
               false), st') ->
  PyDict.get "success" d = None.
Proof.
  intros Hall Htype Hc Hctype Hpos Hnth Hres Hrun.
  pose proof (fires_result type_error s parameters results c r d
                           Hc Hctype Hpos Hnth Hres) as Hf.
  destruct (EngineFacts.run_step_fired_condition
              jenkins_trigger_job ansible_run_playbook terraform_run_terraform
              type_error py_repr depth parameters i s results _ st Htype Hf)
    as (st2 & _ & Hstep).
  rewrite Hstep in Hrun.
  assert (Hb : Py.truthy (PyDict.get_default "success" (VBool false) d) = false).
  { destruct (Py.truthy (PyDict.get_default "success" (VBool false) d));
      [|reflexivity].
    cbn [branch_message] in Hrun. inversion Hrun as [[Hlist Hst]].
    apply app_inv_head in Hlist. discriminate. }
  pose proof (all_success_true_no_failure _ _ _ Hall Hnth) as Hok.
  rewrite Hres in Hok. cbn [is_failure] in Hok.
  unfold PyDict.get_default in Hb, Hok.
  destruct (PyDict.get "success" d) as [v|]; [|reflexivity].
  rewrite Hb in Hok. discriminate.
Qed.

(** *** Condition steps, in full *)

(** A condition step whose predicate cannot be evaluated returns the failure
    with the reason, or raises it, and runs no branch. *)
Lemma refused_condition_step (depth : nat) (parameters : dict) (s : step)
      (results : list step_result) (message : string) (st : state W) :
  refused type_error s parameters results message ->
  exists o,
    _execute_condition_step' depth s parameters results st = (o, st)
    /\ (o = Returned (failure message) \/ o = Raised message).
Proof.
  intros [c Hc Hctype Hget
         | c name actual e Hc Hctype Hname Hget Heval
         | c Hc Hctype Hrange
         | c r Hc Hctype Hpos Hnth Hnodict
         | type Heq Hp Hr].
  - eexists. split; [|left; reflexivity].
    unfold _execute_condition_step, _execute_condition_step_with.
    rewrite Hc. cbn [or_default]. rewrite Hctype. cbn [or_default].
    cbn [String.eqb Ascii.eqb Bool.eqb]. now rewrite Hget.
  - exists (Raised e). split; [|right; reflexivity].
    unfold _execute_condition_step, _execute_condition_step_with.
    rewrite Hc. cbn [or_default]. rewrite Hctype, Hname. cbn [or_default].
    cbn [String.eqb Ascii.eqb Bool.eqb]. rewrite Hget.
    unfold bind at 1. now rewrite Heval.
  - eexists. split; [|left; reflexivity].
    now apply result_condition_out_of_range.
  - eexists. split; [|left; reflexivity].
    unfold _execute_condition_step, _execute_condition_step_with.
    rewrite Hc. cbn [or_default]. rewrite Hctype. cbn [or_default].
    cbn [String.eqb Ascii.eqb Bool.eqb].
    assert (Hlt : (Z.to_nat (or_default (cond_step c) 1%Z - 1) < List.length results)%nat)
      by (apply nth_error_Some; congruence).
    replace ((or_default (cond_step c) 1 - 1 <? 0)%Z) with false
      by (symmetry; apply Z.ltb_ge; lia).
    replace ((or_default (cond_step c) 1 - 1 >=? Z.of_nat (List.length results))%Z)
      with false by (symmetry; rewrite Z.geb_leb; apply Z.leb_gt; lia).
    cbn [orb]. rewrite Hnth.
    destruct (res_result r) as [| | | | |d] eqn:E; try reflexivity.
    now destruct (Hnodict d).
  - eexists. split; [|left; reflexivity].
    unfold _execute_condition_step, _execute_condition_step_with.
    rewrite <- Heq. apply String.eqb_neq in Hp, Hr. now rewrite Hp, Hr.
Qed.

(** Every condition step is of one of the two kinds. *)
Lemma fires_or_refused (s : step) (parameters : dict)
      (results : list step_result) :
  (exists b, fires type_error s parameters results b)
  \/ (exists message, refused type_error s parameters results message).
Proof.
  destruct (step_condition s) as [c|] eqn:Hc.
  2:{ right. eexists. apply (refused_unknown_type _ _ _ _ EmptyString).
      - now rewrite Hc.
      - discriminate.
      - discriminate. }
  destruct (cond_type c) as [t|] eqn:Hctype.
  2:{ right. eexists. apply (refused_unknown_type _ _ _ _ EmptyString).
      - rewrite Hc. cbn [or_default]. now rewrite Hctype.
      - discriminate.
      - discriminate. }
  destruct (String.eqb_spec t "parameter") as [->|Hp].
  { destruct (match cond_parameter c with
              | Some name => PyDict.get name parameters
              | None => None
              end) as [actual|] eqn:Hget.
    - destruct (cond_parameter c) as [name|] eqn:Hname; [|discriminate].
      destruct (_evaluate_condition type_error actual
                  (or_default (cond_value c) VNone)
                  (or_default (cond_operator c) "eq")) as [b|e] eqn:Heval.
      + left. exists b. now apply (fires_parameter _ _ _ _ c name actual b).
      + right. exists e.
        now apply (refused_comparison_raises _ _ _ _ c name actual e).
    - right. eexists. now apply (refused_parameter_absent _ _ _ _ c). }
  destruct (String.eqb_spec t "result") as [->|Hr].
  { destruct (Z_lt_dec (or_default (cond_step c) 1%Z) 1%Z) as [Hlow|Hlow].
    { right. eexists. apply (refused_step_not_found _ _ _ _ c); auto. }
    destruct (Z_lt_dec (Z.of_nat (List.length results))
                       (or_default (cond_step c) 1%Z)) as [Hhigh|Hhigh].
    { right. eexists. apply (refused_step_not_found _ _ _ _ c); auto. }
    destruct (nth_error results (Z.to_nat (or_default (cond_step c) 1 - 1)%Z))
      as [r|] eqn:Hnth.
    2:{ apply nth_error_None in Hnth. lia. }
    destruct (res_result r) as [| | | | |d] eqn:Hres;
      try (right; eexists;
           apply (refused_result_no_mapping _ _ _ _ c r);
           [assumption | assumption | lia | assumption | intros d; congruence]).
    left. eexists.
    apply (fires_result _ _ _ _ c r d); try assumption. lia. }
  right. eexists. apply (refused_unknown_type _ _ _ _ t).
  - rewrite Hc. cbn [or_default]. now rewrite Hctype.
  - exact Hp.
  - exact Hr.
Qed.

(** When the loop body stops, the loop returns the results it has. *)
Lemma run_steps_stops (depth : nat) (parameters : dict) (i : nat) (s : step)
      (rest : list step) (results results' : list step_result)
      (st st' : state W) :
  run_step' depth parameters i s results st = (Returned (results', true), st') ->
  run_steps' depth parameters i (s :: rest) results st = (Returned results', st').
Proof.
  intros H. cbn [run_steps]. unfold bind. now rewrite H.
Qed.

(** C5, as the code has it. Every condition step is of exactly one of two
    kinds. Either its predicate is evaluated (a parameter condition on a
    parameter that exists, with a comparison that raises nothing, or a result
    condition on an earlier step whose result is a mapping): then it is
    recorded with success and the message that names the branch taken,
    whatever the steps of that branch yield, and the enclosing loop goes on
    with the next step. Or its predicate cannot be evaluated (the parameter
    is absent, the comparison raises, the step number is out of range, the
    result looked at is no mapping, the condition type is unknown): then it
    is recorded as a failure with the reason as its message, no branch runs,
    and the enclosing loop stops there. *)
Theorem condition_step_succeeds_exactly_when_evaluated
        (depth : nat) (parameters : dict) (i : nat) (s : step) (rest : list step)
        (results : list step_result) (st : state W) :
  step_type_of s = "condition" ->
  (forall b,
      fires type_error s parameters results b ->
      exists st',
        let entry := mkResult i (step_name_at i s) "condition"
                              (success (branch_message b)) in
        run_step' depth parameters i s results st =
          (Returned ((results ++ [entry])%list, false), st')
        /\ success_flag entry = true
        /\ run_steps' depth parameters i (s :: rest) results st =
             run_steps' depth parameters (S i) rest (results ++ [entry])%list st')
  /\ (forall message,
         refused type_error s parameters results message ->
         let entry := mkResult i (step_name_at i s) "condition"
                               (failure message) in
         run_step' depth parameters i s results st =
           (Returned ((results ++ [entry])%list, true), taken_up depth i s st)
         /\ success_flag entry = false
         /\ run_steps' depth parameters i (s :: rest) results st =
              (Returned (results ++ [entry])%list, taken_up depth i s st))
  /\ ((exists b, fires type_error s parameters results b)
      \/ (exists message, refused type_error s parameters results message)).
Proof.
  intros Htype. split; [|split].
  - intros b Hf.
    destruct (EngineFacts.run_step_fired_condition
                jenkins_trigger_job ansible_run_playbook terraform_run_terraform
                type_error py_repr depth parameters i s results b st Htype Hf)
      as (st' & _ & Hstep).
    exists st'. cbn zeta. split; [exact Hstep|]. split; [reflexivity|].
    now apply EngineFacts.run_steps_goes_on.
  - intros message Hr. cbn zeta.
    destruct (refused_condition_step depth parameters s results message
                (taken_up depth i s st) Hr) as (o & Hstep & Ho).
    assert (Hrun : run_step' depth parameters i s results st =
                     (Returned ((results ++
                                 [mkResult i (step_name_at i s) "condition"
                                           (failure message)])%list, true),
                      taken_up depth i s st)).
    { rewrite (run_step_condition depth parameters i s results st _ o Htype Hstep).
      now destruct Ho as [-> | ->]. }
    split; [exact Hrun|]. split; [reflexivity|].
    now apply run_steps_stops.
  - apply fires_or_refused.
Qed.

End Engine.

End EngineMore.

(** ** Placeholder substitution: repeating it, and the empty command *)

Module ReplaceMore.

Import WorkflowManager WorkflowSpec.

Lemma map_id_on {A : Type} (f : A -> A) (l : list A) :
  Forall (fun a => f a = a) l -> map f l = l.
Proof. induction 1 as [|a l Ha _ IH]; simpl; [reflexivity | now rewrite Ha, IH]. Qed.

Lemma replace_item_twice (parameters : dict) :
  (forall name v, PyDict.get name parameters = Some v ->
                  _replace_item parameters v = v) ->
  forall item,
    _replace_item parameters (_replace_item parameters item) =
    _replace_item parameters item.
Proof.
  intros Hstable.
  induction item as [| b | z | s | l IH | d IH] using ReplaceFacts.value_nested_ind;
    try reflexivity.
  - cbn [_replace_item].
    destruct (is_placeholder s) eqn:E.
    + destruct (PyDict.get (PyStr.slice_2_m1 s) parameters) as [v|] eqn:G.
      * now apply (Hstable _ _ G).
      * cbn [_replace_item]. now rewrite E, G.
    + cbn [_replace_item]. now rewrite E.
  - cbn [_replace_item]. f_equal. rewrite map_map.
    induction IH as [|x l Hx _ IHl]; simpl; [reflexivity | now rewrite Hx, IHl].
  - cbn [_replace_item]. f_equal. rewrite map_map.
    induction IH as [|[k x] d Hx _ IHd]; simpl in *;
      [reflexivity | now rewrite Hx, IHd].
Qed.

(** Substituting a second time changes nothing, provided the values of the
    command parameters are themselves left alone by the substitution (they
    hold no placeholder of a parameter that exists). Without the proviso it
    does: a=${b}, b=z turns ${a} into ${b} and then into z. *)
Theorem replace_parameters_twice (step_params parameters : dict) :
  (forall name v, PyDict.get name parameters = Some v ->
                  _replace_item parameters v = v) ->
  _replace_parameters (_replace_parameters step_params parameters) parameters =
  _replace_parameters step_params parameters.
Proof.
  intros Hstable.
  pose proof (replace_item_twice parameters Hstable (VDict step_params)) as H.
  cbn [_replace_item] in H. now inversion H.
Qed.

Lemma replace_item_no_parameters (item : value) : _replace_item [] item = item.
Proof.
  induction item as [| b | z | s | l IH | d IH] using ReplaceFacts.value_nested_ind;
    try reflexivity.
  - cbn [_replace_item PyDict.get]. now destruct (is_placeholder s).
  - cbn [_replace_item]. f_equal. now apply map_id_on.
  - cbn [_replace_item]. f_equal.
    induction IH as [|[k x] d Hx _ IHd]; simpl in *;
      [reflexivity | now rewrite Hx, IHd].
Qed.

(** For a command without parameters the step parameters come back as they
    are, placeholders included; for any command the substituted dict has the
    keys of the step parameters, in their order. *)
Theorem replace_parameters_keeps_keys (step_params parameters : dict) :
  _replace_parameters step_params [] = step_params
  /\ PyDict.keys (_replace_parameters step_params parameters) =
     PyDict.keys step_params.
Proof.
  split.
  - pose proof (replace_item_no_parameters (VDict step_params)) as H.
    cbn [_replace_item] in H. inversion H as [H1].
    unfold _replace_parameters. now rewrite !H1.
  - unfold PyDict.keys, _replace_parameters. rewrite map_map. reflexivity.
Qed.

End ReplaceMore.

(** ** Discord transport: long replies *)

Module DiscordFacts.

Import DiscordBot.

Lemma enough_chunks (n c : nat) : 0 < c -> n <= (n + (c - 1)) / c * c.
Proof.
  intros Hc.
  pose proof (Nat.div_mod_eq (n + (c - 1)) c) as H.
  pose proof (Nat.mod_upper_bound (n + (c - 1)) c ltac:(lia)) as Hm.
  nia.
Qed.

Lemma chunk_starts_inside (n c k : nat) :
  0 < c -> k < (n + (c - 1)) / c -> k * c < n.
Proof.
  intros Hc Hk.
  pose proof (Nat.div_mod_eq (n + (c - 1)) c) as H.
  pose proof (Nat.mod_upper_bound (n + (c - 1)) c ltac:(lia)) as Hm.
  nia.
Qed.

Lemma chunk_size_positive : 0 < chunk_size.
Proof. unfold chunk_size. lia. Qed.

Section Text.

Context {char : Type}.
Variable of_ascii : ascii -> char.

Local Abbreviation text := (list char).

Lemma firstn_add (a b : nat) (l : text) :
  (firstn a l ++ firstn b (skipn a l))%list = firstn (a + b) l.
Proof.
  revert l. induction a as [|a IH]; intros l; [reflexivity|].
  destruct l as [|x l]; cbn [firstn skipn Nat.add app].
  - now rewrite firstn_nil.
  - f_equal. apply IH.
Qed.

Lemma slice_split (t : text) (i a b : nat) :
  (slice i a t ++ slice (i + a) b t)%list = slice i (a + b) t.
Proof.
  unfold slice. rewrite <- firstn_add, skipn_skipn.
  now rewrite (Nat.add_comm a i).
Qed.

Lemma slice_whole (t : text) (m : nat) :
  List.length t <= m -> slice 0 m t = t.
Proof. intros H. unfold slice. cbn [skipn]. now apply firstn_all2. Qed.

Lemma length_slice (t : text) (i m : nat) :
  List.length (slice i m t) = Nat.min m (List.length t - i).
Proof. unfold slice. now rewrite length_firstn, length_skipn. Qed.

Lemma concat_pieces (c : nat) (t : text) (n : nat) :
  forall i,
    List.concat (map (fun j => slice j c t) (map (fun k => k * c) (seq i n))) =
    slice (i * c) (n * c) t.
Proof.
  induction n as [|n IH]; intros i.
  - reflexivity.
  - cbn [seq map]. rewrite concat_cons, IH.
    replace (S i * c) with (i * c + c) by lia.
    rewrite slice_split. f_equal; lia.
Qed.

Lemma chunks_pieces_bound (t : text) :
  List.concat (chunks t) = t
  /\ Forall (fun chunk => 1 <= List.length chunk <= chunk_size) (chunks t).
Proof.
  unfold chunks, range_from_0. split.
  - rewrite concat_pieces. cbn [Nat.mul].
    apply slice_whole. apply enough_chunks. apply chunk_size_positive.
  - apply Forall_forall. intros chunk Hin.
    apply in_map_iff in Hin as (i & <- & Hin).
    apply in_map_iff in Hin as (k & <- & Hin).
    apply in_seq in Hin.
    pose proof (chunk_starts_inside (List.length t) chunk_size k
                  chunk_size_positive ltac:(lia)) as Hk.
    rewrite length_slice.
    pose proof chunk_size_positive. lia.
Qed.

(** Splitting loses nothing: the chunks, put end to end, are the text; no
    chunk is empty and none is longer than 1900 characters. *)
Theorem chunks_rebuild_the_text (t : text) :
  List.concat (chunks t) = t
  /\ Forall (fun chunk => 1 <= List.length chunk <= chunk_size) (chunks t).
Proof. apply chunks_pieces_bound. Qed.

Lemma continued_length (parts : list text) :
  forall i total m,
    In m (continued of_ascii i total parts) ->
    exists chunk, In chunk parts /\ List.length m <= List.length chunk + 15.
Proof.
  induction parts as [|c rest IH]; intros i total m Hin; cbn [continued] in Hin.
  - contradiction.
  - destruct Hin as [<- | Hin].
    + exists c. split; [now left|].
      destruct (i <? total - 1)%nat; [|lia].
      unfold literal. rewrite length_app, length_map. cbn. lia.
    + destruct (IH _ _ _ Hin) as (chunk & Hc & Hlen).
      exists chunk. split; [now right | exact Hlen].
Qed.

(** Whatever the text, nothing longer than 2000 characters is handed to
    [channel.send] when there is no embed: a text of up to 2000 characters
    goes out whole, and a chunk has up to 1900 characters, to which the mark
    adds 15. *)
Theorem contents_fit_the_limit (t m : text) :
  In m (contents of_ascii t) -> List.length m <= message_limit.
Proof.
  unfold contents.
  destruct (List.length t <=? message_limit)%nat eqn:E.
  - intros [<- | []]. now apply Nat.leb_le.
  - intros Hin.
    destruct (continued_length _ _ _ _ Hin) as (chunk & Hc & Hlen).
    pose proof (proj2 (chunks_pieces_bound t)) as HF.
    rewrite Forall_forall in HF. specialize (HF chunk Hc).
    unfold message_limit, chunk_size in *. lia.
Qed.

Lemma continued_nth (parts : list text) :
  forall i total k chunk,
    nth_error parts k = Some chunk ->
    nth_error (continued of_ascii i total parts) k =
      Some (if (i + k <? total - 1)%nat
            then (chunk ++ literal of_ascii "... (continued)")%list else chunk).
Proof.
  induction parts as [|c rest IH]; intros i total k chunk H.
  - destruct k; discriminate.
  - destruct k as [|k]; cbn [nth_error continued] in *.
    + inversion H; subst. now rewrite Nat.add_0_r.
    + rewrite (IH (S i) total k chunk H).
      now replace (S i + k) with (i + S k) by lia.
Qed.

(** A reply longer than 2000 characters goes out as its chunks, in order,
    each followed by the mark [... (continued)] except the last one, which
    goes out as it is. *)
Theorem long_reply_marks_all_but_last (t chunk : text) (k : nat) :
  message_limit < List.length t ->
  nth_error (chunks t) k = Some chunk ->
  nth_error (contents of_ascii t) k =
    Some (if (k <? List.length (chunks t) - 1)%nat
          then (chunk ++ literal of_ascii "... (continued)")%list else chunk).
Proof.
  intros Hlong Hk. unfold contents.
  replace (List.length t <=? message_limit)%nat with false
    by (symmetry; apply Nat.leb_gt; exact Hlong).
  now rewrite (continued_nth _ 0 _ k chunk Hk).
Qed.

Section Send.

Context {W E : Type}.
Variable channel_send : text -> option E -> W -> outcome unit * W.
Variable embed_truthy : E -> bool.

Lemma send_all_app (sent rest : list text) (w w1 : W) :
  send_all channel_send sent w = (Returned tt, w1) ->
  send_all channel_send (sent ++ rest) w = send_all channel_send rest w1.
Proof.
  revert w. induction sent as [|m sent IH]; intros w H; cbn [app send_all] in *.
  - now inversion H.
  - destruct (channel_send m None w) as [[u|e] w']; [now apply IH | discriminate].
Qed.

(** When a send raises, [send_message] gives up at once: it returns [False]
    instead of raising, with the world as the failed send left it (what was
    sent before stays sent), and what was still to be sent is not sent. *)
Theorem failed_send_gives_up
        (t : text) (sent rest : list text) (m : text) (e : string)
        (w w1 w2 : W) :
  contents of_ascii t = (sent ++ m :: rest)%list ->
  send_all channel_send sent w = (Returned tt, w1) ->
  channel_send m None w1 = (Raised e, w2) ->
  send_message of_ascii channel_send embed_truthy t None w = (false, w2).
Proof.
  intros Hc Hsent Hfail. unfold send_message. rewrite Hc.
  rewrite (send_all_app sent (m :: rest) w w1 Hsent).
  cbn [send_all]. now rewrite Hfail.
Qed.

End Send.

End Text.

End DiscordFacts.

(** ** Terraform integration *)

Module TerraformFacts.

Import TerraformIntegration.

Section Terraform.

Context {W P : Type}.
Variable in_working_dir : string -> P.
Variable path_of : string -> P.
Variable path_exists : P -> W -> bool.
Variable path_str : P -> string.
Variable isabs : string -> bool.
Variable var_files : list (string * string).
Variable subprocess_run : list string -> W -> outcome (Z * string * string) * W.
Variable write_temp_var_file : dict -> W -> outcome string * W.
Variable remove_if_exists : string -> W -> outcome unit * W.

Local Abbreviation run_terraform' :=
  (run_terraform in_working_dir path_of path_exists path_str isabs var_files
                 subprocess_run write_temp_var_file remove_if_exists).
Local Abbreviation _resolve_var_file_path' :=
  (_resolve_var_file_path in_working_dir path_of path_exists isabs var_files).
Local Abbreviation temp_created' := (temp_created write_temp_var_file).
Local Abbreviation run_command := (_run_terraform_command subprocess_run).

(** [_resolve_var_file_path] finds the file when it is there: for a name
    that is not absolute (after the look-up in [var_files]) the path returned
    exists exactly when the file exists in the working directory under the
    name itself or, for a name without the [.tfvars] or [.tfvars.json]
    ending, under the name with one of these endings added. *)
Theorem resolve_var_file_finds_existing (var_file : string) (w : W) :
  let name :=
    match mapped var_file var_files with Some v => v | None => var_file end in
  isabs name = false ->
  (path_exists (_resolve_var_file_path' var_file w) w = true <->
   path_exists (in_working_dir name) w = true
   \/ (PyStr.endswith name ".tfvars" = false
       /\ PyStr.endswith name ".tfvars.json" = false
       /\ (path_exists (in_working_dir (name ++ ".tfvars")) w = true
           \/ path_exists (in_working_dir (name ++ ".tfvars.json")) w = true))).
Proof.
  clear path_str subprocess_run write_temp_var_file remove_if_exists.
  intros name Habs. unfold _resolve_var_file_path. fold name. rewrite Habs.
  destruct (path_exists (in_working_dir name) w) eqn:E0.
  - rewrite E0. tauto.
  - destruct (PyStr.endswith name ".tfvars") eqn:E1;
      destruct (PyStr.endswith name ".tfvars.json") eqn:E2; cbn [negb andb];
      try (rewrite E0; intuition discriminate).
    destruct (path_exists (in_working_dir (name ++ ".tfvars")) w) eqn:E3.
    + rewrite E3. tauto.
    + destruct (path_exists (in_working_dir (name ++ ".tfvars.json")) w) eqn:E4.
      * rewrite E4. tauto.
      * rewrite E0. intuition discriminate.
Qed.

Lemma clean_up_keeps_commands (temp : option string) (st : state (tf_world W)) :
  tf_commands (world (snd (clean_up remove_if_exists temp st))) =
  tf_commands (world st).
Proof.
  destruct temp as [name|]; [|reflexivity].
  unfold clean_up, outside.
  now destruct (remove_if_exists name (tf_outside (world st))).
Qed.

Lemma succeeded_iff_zero (command : string) (args : list string)
      (st : state (tf_world W)) (r : outcome (Z * string * string)) (w' : W) :
  subprocess_run ("terraform" :: command :: args) (tf_outside (world st)) = (r, w') ->
  exists result,
    run_command command args st =
      (Returned result,
       mkState (mkTfWorld w' (tf_commands (world st)
                              ++ ["terraform" :: command :: args])%list)
               (trace st))
    /\ (succeeded result = true <-> exists out err, r = Returned (0%Z, out, err))
    /\ stdout_of result =
         VStr (match r with Returned (_, out, _) => out | Raised _ => EmptyString end).
Proof.
  intros H. unfold _run_terraform_command. rewrite H.
  destruct r as [[[rc out] err]|e].
  - destruct (rc =? 0)%Z eqn:E.
    + apply Z.eqb_eq in E. subst rc. eexists. split; [reflexivity|].
      split; [|reflexivity]. split; [eauto | reflexivity].
    + eexists. split; [reflexivity|]. split; [|reflexivity].
      split; [discriminate|]. intros (o & e' & Heq). inversion Heq; subst.
      discriminate.
  - eexists. split; [reflexivity|]. split; [|reflexivity].
    split; [discriminate | intros (o & e' & Heq); discriminate].
Qed.

Ltac tf_enter Hvalid Htemp :=
  unfold run_terraform; rewrite Hvalid; cbn [negb];
  let Hw := fresh "Hw" in
  destruct Htemp as [? | ? | ? ? ? ? ? Hw]; cbv beta iota zeta;
  [ | | rewrite Hw].

(** Every action but init runs [terraform init] first, and when that fails
    (a return code other than 0, or an exception) its result is the result
    of the whole call: no workspace is touched and the action itself is not
    run. *)
Theorem failed_init_stops_the_action
        (action workspace : string) (var_file : option string)
        (vars_dict : option dict) (temp : option string)
        (st st1 : state (tf_world W)) (r : outcome (Z * string * string)) (w' : W) :
  among action valid_actions = true ->
  action <> "init" ->
  temp_created' vars_dict st temp st1 ->
  subprocess_run ["terraform"; "init"] (tf_outside (world st1)) = (r, w') ->
  (forall out err, r <> Returned (0%Z, out, err)) ->
  exists init_result,
    run_terraform' action workspace var_file vars_dict st =
      (Returned init_result,
       mkState (mkTfWorld w' (tf_commands (world st1) ++ [["terraform"; "init"]])%list)
               (trace st1))
    /\ succeeded init_result = false.
Proof.
  intros Hvalid Hinit Htemp Hrun Hfail.
  apply String.eqb_neq in Hinit.
  destruct (succeeded_iff_zero "init" [] st1 r w' Hrun)
    as (result & Hcmd & Hok & _).
  assert (Hno : succeeded result = false).
  { destruct (succeeded result); [|reflexivity].
    destruct (proj1 Hok eq_refl) as (out & err & ->). now destruct (Hfail out err). }
  exists result. split; [|exact Hno].
  tf_enter Hvalid Htemp;
    rewrite Hinit; cbn [negb]; unfold try_except, bind at 1;
    rewrite Hcmd, Hno; reflexivity.
Qed.

Lemma commands_after_action (action : string) (args : list string)
      (temp : option string) (f : string -> value)
      (st : state (tf_world W)) :
  tf_commands
    (world
       (snd
          (try_except
             (result <- run_command action args ;;
              clean_up remove_if_exists temp ;;
              ret result)%exec
             (fun e =>
                clean_up remove_if_exists temp ;;
                ret (f e))%exec
             st))) =
  (tf_commands (world st) ++ ["terraform" :: action :: args])%list.
Proof.
  destruct (subprocess_run ("terraform" :: action :: args) (tf_outside (world st)))
    as [r w'] eqn:Hrun.
  destruct (succeeded_iff_zero action args st r w' Hrun) as (result & Hcmd & _).
  unfold try_except, bind at 1. rewrite Hcmd.
  unfold bind at 1.
  pose proof (clean_up_keeps_commands temp
                (mkState (mkTfWorld w' (tf_commands (world st)
                                        ++ ["terraform" :: action :: args])%list)
                         (trace st))) as Hc.
  destruct (clean_up remove_if_exists temp _) as [[u|e] st2] eqn:E1;
    cbn [snd] in Hc.
  - cbn [ret snd]. exact Hc.
  - unfold bind.
    pose proof (clean_up_keeps_commands temp st2) as Hc2.
    destruct (clean_up remove_if_exists temp st2) as [[u|e2] st3];
      cbn [snd ret world tf_commands] in *; congruence.
Qed.

Lemma try_except_bind {S A B : Type} (c : exec S A) (k : A -> exec S B)
      (h : string -> exec S B) (st : state S) :
  try_except (x <- c ;; k x)%exec h st =
  match c st with
  | (Returned a, st') => try_except (k a) h st'
  | (Raised e, st') => h e st'
  end.
Proof.
  unfold try_except, bind. now destruct (c st) as [[a|e] st'].
Qed.

(** A plain run in the default workspace: after a successful
    [terraform init] exactly one more command is run, the action with the
    temporary var file, if one was written, and with [-auto-approve] for
    apply and destroy and for no other action. *)
Theorem action_is_run_with_auto_approve
        (action : string) (vars_dict : option dict) (temp : option string)
        (st st1 : state (tf_world W)) (out err : string) (w1 : W) :
  among action valid_actions = true ->
  action <> "init" ->
  temp_created' vars_dict st temp st1 ->
  subprocess_run ["terraform"; "init"] (tf_outside (world st1))
    = (Returned (0%Z, out, err), w1) ->
  tf_commands (world (snd (run_terraform' action "default" None vars_dict st))) =
  (tf_commands (world st1)
   ++ [["terraform"; "init"];
       "terraform" :: action
       :: (match temp with Some name => ["-var-file"; name] | None => [] end
           ++ (if among action ["apply"; "destroy"]
               then ["-auto-approve"] else []))])%list.
Proof.
  intros Hvalid Hinit Htemp Hrun.
  apply String.eqb_neq in Hinit.
  destruct (succeeded_iff_zero "init" [] st1 _ w1 Hrun)
    as (result & Hcmd & Hok & _).
  assert (Hyes : succeeded result = true) by (apply Hok; eauto).
  tf_enter Hvalid Htemp;
    rewrite Hinit; cbn [negb String.eqb Ascii.eqb Bool.eqb];
    rewrite try_except_bind, Hcmd, Hyes; cbn [negb];
    rewrite commands_after_action; cbn [world tf_commands app];
    rewrite <- app_assoc; reflexivity.
Qed.

(** Outside the default workspace, the workspace is taken to exist as soon
    as its name occurs anywhere in the output of [terraform workspace list]
    (also as a part of another name): it is then selected, and created
    otherwise, also when the listing failed. *)
Theorem workspace_is_matched_as_substring
        (action workspace : string) (var_file : option string)
        (vars_dict : option dict) (temp : option string)
        (st st1 : state (tf_world W)) (out err : string) (w1 w2 : W)
        (r : outcome (Z * string * string)) :
  among action valid_actions = true ->
  action <> "init" ->
  workspace <> "default" ->
  temp_created' vars_dict st temp st1 ->
  subprocess_run ["terraform"; "init"] (tf_outside (world st1))
    = (Returned (0%Z, out, err), w1) ->
  subprocess_run ["terraform"; "workspace"; "list"] w1 = (r, w2) ->
  let listing :=
    match r with Returned (_, o, _) => o | Raised _ => EmptyString end in
  exists rest,
    tf_commands (world (snd (run_terraform' action workspace var_file vars_dict st))) =
    (tf_commands (world st1)
     ++ [["terraform"; "init"];
         ["terraform"; "workspace"; "list"];
         ["terraform"; "workspace";
          if PyStr.contains workspace listing then "select" else "new";
          workspace]]
     ++ rest)%list.
Proof.
  intros Hvalid Hinit Hws Htemp Hrun Hlist listing.
  apply String.eqb_neq in Hinit, Hws.
  destruct (succeeded_iff_zero "init" [] st1 _ w1 Hrun)
    as (result & Hcmd & Hok & _).
  assert (Hyes : succeeded result = true) by (apply Hok; eauto).
  set (st2 := mkState (mkTfWorld w1 (tf_commands (world st1) ++ [["terraform"; "init"]])%list)
                      (trace st1)) in *.
  destruct (succeeded_iff_zero "workspace" ["list"] st2 r w2 Hlist)
    as (listed & Hcmd2 & _ & Hout).
  fold listing in Hout.
  set (st3 := mkState (mkTfWorld w2 (tf_commands (world st2)
                                     ++ [["terraform"; "workspace"; "list"]])%list)
                      (trace st2)) in *.
  set (verb := if PyStr.contains workspace listing then "select" else "new").
  destruct (subprocess_run ["terraform"; "workspace"; verb; workspace]
                           (tf_outside (world st3))) as [r3 w3] eqn:Hthird.
  destruct (succeeded_iff_zero "workspace" [verb; workspace] st3 r3 w3 Hthird)
    as (third & Hcmd3 & _).
  assert (Hgoal :
            forall body,
              body = (fun (k : exec (tf_world W) value) h =>
                        tf_commands (world (snd (try_except
                          (init_result <- run_command "init" [] ;;
                           if negb (succeeded init_result) then ret init_result
                           else
                             (workspace_list <- run_command "workspace" ["list"] ;;
                              match Py.is_in (VStr workspace) (stdout_of workspace_list) with
                              | Some false =>
                                  workspace_new <- run_command "workspace" ["new"; workspace] ;;
                                  if negb (succeeded workspace_new) then ret workspace_new else k
                              | Some true =>
                                  workspace_select <- run_command "workspace" ["select"; workspace] ;;
                                  if negb (succeeded workspace_select) then ret workspace_select else k
                              | None => raise "argument is not iterable"
                              end))%exec h st1)))) ->
              forall args f,
              exists rest,
                body (result <- run_command action args ;;
                      clean_up remove_if_exists temp ;; ret result)%exec
                     (fun e => clean_up remove_if_exists temp ;; ret (f e))%exec =
                (tf_commands (world st1)
                 ++ [["terraform"; "init"];
                     ["terraform"; "workspace"; "list"];
                     ["terraform"; "workspace"; verb; workspace]]
                 ++ rest)%list).
  { intros body -> args f.
    rewrite try_except_bind, Hcmd, Hyes. cbn [negb]. fold st2.
    rewrite try_except_bind, Hcmd2. fold st3. rewrite Hout.
    cbn [Py.is_in]. fold verb.
    destruct (PyStr.contains workspace listing) eqn:Hc; subst verb;
      rewrite try_except_bind, Hcmd3;
      (destruct (succeeded third); cbn [negb];
       [ rewrite commands_after_action; cbn [world tf_commands st3 st2];
         eexists; rewrite <- !app_assoc; cbn [app]; reflexivity
       | exists []; unfold try_except, ret; cbn [snd world tf_commands st3 st2];
         rewrite <- !app_assoc; cbn [app]; reflexivity ]). }
  tf_enter Hvalid Htemp;
    rewrite Hinit, Hws; cbn [negb];
    eapply (Hgoal _ eq_refl).
Qed.

End Terraform.

End TerraformFacts.

(** ** The further properties on the samples *)

Module MoreScenarioFacts.

Import WorkflowManager WorkflowSpec Scenarios MoreScenarios.

(** [undestroyed] holds [destroy]. *)
Lemma restricted_word_anywhere_blocks_witness :
  ChatOpsApp._is_user_authorized sec "U200" "Leave the cache UNDESTROYED" = false.
Proof.
  apply (AppMore.restricted_word_anywhere_blocks
           sec "U200" "destroy" "Leave the cache UNDESTROYED"
           "leave the cache un" "ed").
  - reflexivity.
  - left. reflexivity.
  - reflexivity.
Defined.

Lemma gate_ignores_letter_case_witness :
  ChatOpsApp._is_user_authorized sec "U200" "DESTROY staging"
  = ChatOpsApp._is_user_authorized sec "U200" "destroy Staging"
  /\ ChatOpsApp._requires_approval sec "Deploy to PRODUCTION"
     = ChatOpsApp._requires_approval sec "deploy to production".
Proof.
  split.
  - apply (AppMore.gate_ignores_letter_case
             sec "U200" "DESTROY staging" "destroy Staging"). reflexivity.
  - apply (AppMore.gate_ignores_letter_case
             sec "U200" "Deploy to PRODUCTION" "deploy to production").
    reflexivity.
Defined.

(** A status request of an authorized user goes through to the workflow
    manager, whose text is the reply; when the manager raises, the reply
    says so. *)
Lemma manager_called_iff_witness :
  In ChatOpsApp.CallWorkflowManager
     (snd (process_status manager "status of api" "U200" "C1"))
  /\ process_status manager "status of api" "U200" "C1" =
       ("done",
        [ChatOpsApp.CallIsUserAuthorized; ChatOpsApp.CallNlpProcess;
         ChatOpsApp.CallCommandParser; ChatOpsApp.CallRequiresApproval;
         ChatOpsApp.CallWorkflowManager])
  /\ fst (process_status manager_down "status of api" "U200" "C1") =
       "Error executing command: template not found"
  /\ ~ In ChatOpsApp.CallWorkflowManager
          (snd (process_status manager "status of production" "U200" "C1")).
Proof.
  destruct (AppMore.manager_called_iff
              nat Nat.ltb sec 70 resolver_status manager
              "status of api" "U200" "C1" "status" [("service", VStr "api")] 92
              eq_refl) as [Hiff Hreply].
  destruct (AppMore.manager_called_iff
              nat Nat.ltb sec 70 resolver_status manager_down
              "status of api" "U200" "C1" "status" [("service", VStr "api")] 92
              eq_refl) as [Hiff_down Hreply_down].
  destruct (AppMore.manager_called_iff
              nat Nat.ltb sec 70 resolver_status manager
              "status of production" "U200" "C1" "status"
              [("service", VStr "api")] 92 eq_refl) as [Hiff_approval _].
  assert (Hgate :
            ChatOpsApp._is_user_authorized sec "U200" "status of api" = true
            /\ Nat.ltb 92 70 = false
            /\ (exists command,
                   CommandParser.parse "status" [("service", VStr "api")]
                   = Some command)
            /\ ChatOpsApp._requires_approval sec "status of api" = false).
  { repeat split. eexists. reflexivity. }
  pose proof (proj2 Hiff Hgate) as Hcalled.
  pose proof (proj2 Hiff_down Hgate) as Hcalled_down.
  split; [exact Hcalled|]. split; [reflexivity|].
  split; [exact (Hreply_down _ Hcalled_down eq_refl)|].
  intros Hcalled_approval.
  destruct (proj1 Hiff_approval Hcalled_approval) as (_ & _ & _ & Happroval).
  discriminate.
Defined.

Lemma raising_integration_is_recorded_witness :
  run_step_down 0 deploy_parameters 1 build [] start =
    (Returned ([mkResult 1 "build" "jenkins" (failure "connection refused")], true),
     mkState tt [EvStep 0 1 "build" "jenkins";
                 EvAdapter "jenkins" [("job", VStr "api")]]).
Proof.
  apply (proj1 (EngineMore.raising_integration_is_recorded
                  jenkins_down ansible_fails terraform_ok type_error py_repr
                  0 deploy_parameters 1 build [] start "connection refused" tt));
    reflexivity.
Defined.

Lemma step_without_target_fails_uncalled_witness :
  run_step_here 0 deploy_parameters 1 bare_build [] start =
    (Returned ([mkResult 1 "build" "jenkins" (failure "No Jenkins job specified")],
               true),
     mkState tt [EvStep 0 1 "build" "jenkins"; EvAdapter "jenkins" []]).
Proof.
  apply (proj1 (EngineMore.step_without_target_fails_uncalled
                  jenkins_ok ansible_fails terraform_ok type_error py_repr
                  0 deploy_parameters 1 bare_build [] start));
    reflexivity.
Defined.

Lemma notifications_always_complete_witness :
  exists (results : list step_result) (st' : state unit),
    run_steps_here 0 deploy_parameters 1
                   [notify "start" "deploying"; notify "end" "deployed"] [] start
      = (Returned results, st')
    /\ List.length results = 2
    /\ all_success results = true
    /\ world st' = world start.
Proof.
  apply (EngineMore.notifications_always_complete
           jenkins_ok ansible_fails terraform_ok type_error py_repr
           0 deploy_parameters
           [notify "start" "deploying"; notify "end" "deployed"] start).
  repeat constructor.
Defined.

Lemma report_head_tells_how_far_witness :
  exists (results : list step_result) (st' : state unit),
    run_steps_here 0 deploy_parameters 1 (wf_steps scenario_b) [] start
      = (Returned results, st')
    /\ exists r,
        nth_error results (List.length results - 1) = Some r
        /\ is_failure (res_result r) = true
        /\ all_success (firstn (List.length results - 1) results) = true.
Proof.
  destruct (EngineMore.report_head_tells_how_far
              jenkins_ok ansible_fails terraform_ok type_error py_repr
              0 deploy_parameters (wf_steps scenario_b) start)
    as (results & st' & Hrun & _ & Hfailed).
  exists results, st'. split; [exact Hrun|].
  apply Hfailed. vm_compute in Hrun. inversion Hrun. reflexivity.
Defined.

Lemma condition_on_absent_parameter_fails_witness :
  run_step_here 0 scale_parameters 1 check_replicas [] start =
    (Returned ([mkResult 1 "check" "condition"
                         (failure "Parameter 'replicas' not found")], true),
     taken_up 0 1 check_replicas start).
Proof.
  apply (EngineMore.condition_on_absent_parameter_fails
           jenkins_ok ansible_fails terraform_ok type_error py_repr
           0 scale_parameters 1 check_replicas
           (mkCondition (Some "parameter") (Some "replicas") (Some (VStr "3"))
                        (Some "eq") None) [] start);
    reflexivity.
Defined.

Lemma unknown_condition_type_fails_witness :
  run_step_here 0 scale_parameters 1 check_nothing [] start =
    (Returned ([mkResult 1 "check" "condition"
                         (failure "Unknown condition type: ")], true),
     taken_up 0 1 check_nothing start).
Proof.
  apply (EngineMore.unknown_condition_type_fails
           jenkins_ok ansible_fails terraform_ok type_error py_repr
           0 scale_parameters 1 check_nothing [] start);
    [reflexivity | discriminate | discriminate].
Defined.

Lemma result_condition_out_of_range_fails_witness :
  run_step_here 0 scale_parameters 2 (check_step 2) [queued] start =
    (Returned ([queued;
                mkResult 2 "check" "condition" (failure "Step 2 result not found")],
               true),
     taken_up 0 2 (check_step 2) start).
Proof.
  apply (EngineMore.result_condition_out_of_range_fails
           jenkins_ok ansible_fails terraform_ok type_error py_repr
           0 scale_parameters 2 (check_step 2)
           (mkCondition (Some "result") None None None (Some 2%Z))
           [queued] start); try reflexivity.
  right. cbn. lia.
Defined.

Lemma result_condition_in_branch_always_fails_witness :
  _execute_workflow jenkins_ok ansible_fails terraform_ok type_error py_repr
                    1 (mkWorkflow None [check_step 1]) scale_parameters start =
    (Returned
       (_format_workflow_result py_repr "Unnamed workflow"
          [mkResult 1 "check" "condition" (failure "Step 1 result not found")]),
     taken_up 1 1 (check_step 1) start).
Proof.
  apply (EngineMore.result_condition_in_branch_always_fails
           jenkins_ok ansible_fails terraform_ok type_error py_repr
           1 None scale_parameters (check_step 1)
           (mkCondition (Some "result") None None None (Some 1%Z)) start);
    reflexivity.
Defined.

Lemma result_condition_on_text_result_fails_witness :
  run_step_here 0 scale_parameters 2 (check_step 1) [unknown_result] start =
    (Returned ([unknown_result;
                mkResult 2 "check" "condition"
                         (failure "Unknown condition type: result")], true),
     taken_up 0 2 (check_step 1) start).
Proof.
  apply (EngineMore.result_condition_on_text_result_fails
           jenkins_ok ansible_fails terraform_ok type_error py_repr
           0 scale_parameters 2 (check_step 1)
           (mkCondition (Some "result") None None None (Some 1%Z))
           unknown_result [unknown_result] start); try reflexivity.
  intros d. discriminate.
Defined.

Lemma raising_comparison_fails_the_condition_witness :
  run_step_here 0 scale_parameters 1 check_more_than_2 [] start =
    (Returned ([mkResult 1 "check" "condition"
                         (failure (type_error ">" (VStr "3") (VInt 2)))], true),
     taken_up 0 1 check_more_than_2 start).
Proof.
  apply (proj1 (EngineMore.raising_comparison_fails_the_condition
                  jenkins_ok ansible_fails terraform_ok type_error py_repr
                  0 scale_parameters 1 check_more_than_2
                  (mkCondition (Some "parameter") (Some "count") (Some (VInt 2))
                               (Some "gt") None)
                  "count" (VStr "3") (type_error ">" (VStr "3") (VInt 2))
                  [] start eq_refl eq_refl eq_refl eq_refl eq_refl eq_refl)).
Defined.

Lemma result_condition_else_needs_missing_flag_witness :
  PyDict.get "success" [("message", VStr "queued")] = None.
Proof.
  apply (EngineMore.result_condition_else_needs_missing_flag
           jenkins_flagless ansible_fails terraform_ok type_error py_repr
           0 scale_parameters 2 (check_step 1)
           (mkCondition (Some "result") None None None (Some 1%Z))
           queued [("message", VStr "queued")] [queued] start
           (mkState tt [EvStep 0 2 "check" "condition";
                        EvStep 1 1 "shrink" "notification";
                        EvAdapter "notification" [("message", VStr "scaling in")]]));
    reflexivity.
Defined.

Lemma replace_parameters_twice_witness :
  _replace_parameters
    (_replace_parameters [("job", VStr "${service}"); ("to", VStr "${region}")]
                         deploy_parameters)
    deploy_parameters
  = _replace_parameters [("job", VStr "${service}"); ("to", VStr "${region}")]
                        deploy_parameters.
Proof.
  apply (ReplaceMore.replace_parameters_twice
           [("job", VStr "${service}"); ("to", VStr "${region}")]
           deploy_parameters).
  intros name v. cbn [deploy_parameters PyDict.get].
  repeat match goal with
         | |- context [if ?b then _ else _] => destruct b
         end; intros H; inversion H; reflexivity.
Defined.

(** The first part of the reply of 2001 characters: 1900 characters and the
    mark. *)
Lemma contents_fit_the_limit_witness :
  List.length (DiscordBot.slice 0 1900 long_reply
               ++ DiscordBot.literal code_point "... (continued)")%list
  <= DiscordBot.message_limit.
Proof.
  apply (DiscordFacts.contents_fit_the_limit code_point long_reply).
  left. vm_compute. reflexivity.
Defined.

Lemma long_reply_marks_all_but_last_witness :
  nth_error (DiscordBot.contents code_point long_reply) 0 =
    Some (if (0 <? List.length (DiscordBot.chunks long_reply) - 1)%nat
          then (DiscordBot.slice 0 1900 long_reply
                ++ DiscordBot.literal code_point "... (continued)")%list
          else DiscordBot.slice 0 1900 long_reply).
Proof.
  apply (DiscordFacts.long_reply_marks_all_but_last
           code_point long_reply (DiscordBot.slice 0 1900 long_reply) 0).
  - apply Nat.ltb_lt. vm_compute. reflexivity.
  - vm_compute. reflexivity.
Defined.

(** Of the three parts of the reply of 4000 characters the first is sent,
    the second is refused and the third is not sent: one message was
    accepted. *)
Lemma failed_send_gives_up_witness :
  DiscordBot.send_message code_point channel_closing (fun _ : unit => true)
                          longer_reply None 0
  = (false, 1).
Proof.
  apply (DiscordFacts.failed_send_gives_up
           code_point channel_closing (fun _ : unit => true) longer_reply
           [(DiscordBot.slice 0 1900 longer_reply
             ++ DiscordBot.literal code_point "... (continued)")%list]
           [DiscordBot.slice 3800 1900 longer_reply]
           (DiscordBot.slice 1900 1900 longer_reply
            ++ DiscordBot.literal code_point "... (continued)")%list
           "Cannot send messages to this user" 0 1 1).
  - vm_compute. reflexivity.
  - vm_compute. reflexivity.
  - reflexivity.
Defined.

Lemma resolve_var_file_finds_existing_witness :
  tf_path_exists
    (TerraformIntegration._resolve_var_file_path
       tf_in_working_dir tf_path_of tf_path_exists tf_isabs tf_var_files
       "production" tt) tt = true <->
  tf_path_exists (tf_in_working_dir "prod") tt = true
  \/ (PyStr.endswith "prod" ".tfvars" = false
      /\ PyStr.endswith "prod" ".tfvars.json" = false
      /\ (tf_path_exists (tf_in_working_dir ("prod" ++ ".tfvars")) tt = true
          \/ tf_path_exists (tf_in_working_dir ("prod" ++ ".tfvars.json")) tt
             = true)).
Proof.
  apply (TerraformFacts.resolve_var_file_finds_existing
           tf_in_working_dir tf_path_of tf_path_exists tf_isabs tf_var_files
           "production" tt).
  reflexivity.
Defined.

Lemma failed_init_stops_the_action_witness :
  exists init_result,
    run_terraform_here 1 "apply" "default" None None tf_start =
      (Returned init_result,
       mkState (TerraformIntegration.mkTfWorld tt [["terraform"; "init"]]) [])
    /\ TerraformIntegration.succeeded init_result = false.
Proof.
  apply (TerraformFacts.failed_init_stops_the_action
           tf_in_working_dir tf_path_of tf_path_exists tf_path_str tf_isabs
           tf_var_files (processes_end_with 1) tf_write_temp tf_remove
           "apply" "default" None None None tf_start tf_start
           (Returned (1%Z, tf_listing, EmptyString)) tt).
  - reflexivity.
  - discriminate.
  - constructor.
  - reflexivity.
  - intros out err. discriminate.
Defined.

Lemma action_is_run_with_auto_approve_witness :
  TerraformIntegration.tf_commands
    (world (snd (run_terraform_here 0 "destroy" "default" None
                                    (Some [("count", VInt 3)]) tf_start))) =
  [["terraform"; "init"];
   ["terraform"; "destroy"; "-var-file"; "/tmp/tmpvars.tfvars.json";
    "-auto-approve"]].
Proof.
  apply (TerraformFacts.action_is_run_with_auto_approve
           tf_in_working_dir tf_path_of tf_path_exists tf_path_str tf_isabs
           tf_var_files (processes_end_with 0) tf_write_temp tf_remove
           "destroy" (Some [("count", VInt 3)]) (Some "/tmp/tmpvars.tfvars.json")
           tf_start tf_start tf_listing EmptyString tt).
  - reflexivity.
  - discriminate.
  - constructor. reflexivity.
  - reflexivity.
Defined.

Lemma workspace_is_matched_as_substring_witness :
  exists rest,
    TerraformIntegration.tf_commands
      (world (snd (run_terraform_here 0 "plan" "prod" (Some "production") None
                                      tf_start))) =
    ([] ++ [["terraform"; "init"];
            ["terraform"; "workspace"; "list"];
            ["terraform"; "workspace";
             if PyStr.contains "prod" tf_listing then "select" else "new";
             "prod"]]
        ++ rest)%list.
Proof.
  apply (TerraformFacts.workspace_is_matched_as_substring
           tf_in_working_dir tf_path_of tf_path_exists tf_path_str tf_isabs
           tf_var_files (processes_end_with 0) tf_write_temp tf_remove
           "plan" "prod" (Some "production") None None tf_start tf_start
           tf_listing EmptyString tt tt
           (Returned (0%Z, tf_listing, EmptyString))).
  - reflexivity.
  - discriminate.
  - discriminate.
  - constructor.
  - reflexivity.
  - reflexivity.
Defined.

(** A condition whose [then] branch holds a failing step is recorded as a
    success and the loop goes on; a condition on a parameter the command does
    not have is recorded as a failure and the loop stops. *)
Lemma condition_step_succeeds_exactly_when_evaluated_witness :
  (exists st' : state unit,
      run_step_here 0 scale_parameters 1 check_then_fail [] start =
        (Returned ([mkResult 1 "check" "condition"
                             (success "Condition evaluated to true")], false), st')
      /\ run_steps_here 0 scale_parameters 1
                        [check_then_fail; notify "after" "x"] [] start =
           run_steps_here 0 scale_parameters 2 [notify "after" "x"]
                          [mkResult 1 "check" "condition"
                                    (success "Condition evaluated to true")] st')
  /\ run_step_here 0 scale_parameters 1 check_replicas [] start =
       (Returned ([mkResult 1 "check" "condition"
                            (failure "Parameter 'replicas' not found")], true),
        taken_up 0 1 check_replicas start)
  /\ run_steps_here 0 scale_parameters 1 [check_replicas; notify "after" "x"] []
                    start =
       (Returned [mkResult 1 "check" "condition"
                           (failure "Parameter 'replicas' not found")],
        taken_up 0 1 check_replicas start).
Proof.
  split.
  - destruct (EngineMore.condition_step_succeeds_exactly_when_evaluated
                jenkins_ok ansible_fails terraform_ok type_error py_repr
                0 scale_parameters 1 check_then_fail [notify "after" "x"] []
                start eq_refl) as (Hfired & _ & _).
    destruct (Hfired true) as (st' & Hstep & _ & Hgo).
    + apply (fires_parameter type_error check_then_fail scale_parameters []
                             (count_is_3 "eq") "count" (VStr "3") true);
        reflexivity.
    + exists st'. split; [exact Hstep | exact Hgo].
  - destruct (EngineMore.condition_step_succeeds_exactly_when_evaluated
                jenkins_ok ansible_fails terraform_ok type_error py_repr
                0 scale_parameters 1 check_replicas [notify "after" "x"] []
                start eq_refl) as (_ & Hrefused & _).
    destruct (Hrefused "Parameter 'replicas' not found") as (Hstep & _ & Hstop).
    + apply (refused_parameter_absent
               type_error check_replicas scale_parameters []
               (mkCondition (Some "parameter") (Some "replicas")
                            (Some (VStr "3")) (Some "eq") None));
        reflexivity.
    + split; [exact Hstep | exact Hstop].
Defined.

End MoreScenarioFacts.
